(** * init.py: the template management script

    A shallow embedding of [src/init.py] and the properties its
    specification states about it.

    The script reads a file system, standard input and the result of the
    argument parser, prints to standard output, writes a file system and
    runs the external [make].  The embedding threads all of that through
    an explicit [world]:

    - the file system is a tree of named entries; a path is the list of
      its components from the root, a directory lists its entries in the
      order [os.scandir] yields them, and entries created later are listed
      last.  There are no symbolic links, permissions or metadata, and a
      path component is looked up by name only ("." is dropped when a
      string is joined to a path, ".." has no special meaning);
    - text is a byte string, the UTF-8 of a Python [str]; [strip] and
      [int] read it character by character, with the white space and the
      decimal digits of Unicode;
    - standard input is the list of the lines still to be read, each as
      [input] returns it, standard output the list of the chunks written
      so far; signals are not part of the model;
    - [make] is an oracle of the environment: given its working directory
      and the file system it answers with what [subprocess.run] observes
      and with the file system it leaves behind;
    - the command line is taken as the argument parser answers it: see
      [argv];
    - [sys.exit] and uncaught exceptions end the run: see [result]. *)

From Stdlib Require Import String Ascii List ZArith Bool Arith Lia.
From Stdlib Require Import Permutation Sorted DecimalString Btauto.
Import ListNotations.
Open Scope list_scope.
Open Scope string_scope.

Set Implicit Arguments.
Set Warnings "-register-all".

(* ================================================================== *)
(** ** Text *)
(* ================================================================== *)

Module Str.

(** The newline character written by [print]. *)
Definition nl : string := String (ascii_of_nat 10) EmptyString.

(** ["=" * n] *)
Fixpoint times (s : string) (n : nat) : string :=
  match n with
  | O => ""
  | S n' => s ++ times s n'
  end.

(** [sep.join(l)] *)
Fixpoint join (sep : string) (l : list string) : string :=
  match l with
  | [] => ""
  | [x] => x
  | x :: l' => x ++ sep ++ join sep l'
  end.

(** [str(n)] for a natural number. *)
Definition of_nat (n : nat) : string :=
  NilEmpty.string_of_uint (Nat.to_uint n).

Definition of_list (l : list ascii) : string := string_of_list_ascii l.
Definition to_list (s : string) : list ascii := list_ascii_of_string s.

(** The value of a byte. *)
Definition byte (c : ascii) : Z := Z.of_N (N_of_ascii c).

(** A continuation byte of UTF-8. *)
Definition continues (c : ascii) : bool :=
  ((128 <=? byte c) && (byte c <=? 191))%Z.

(** A character of a text: its bytes and its code point.  A byte that
    starts no well-formed character stands alone, with no code point. *)
Definition char : Type := (string * option Z)%type.

(** A code point of at least [low] that is no surrogate. *)
Definition scalar (low cp : Z) : bool :=
  ((low <=? cp) && (cp <=? 1114111)
   && negb ((55296 <=? cp) && (cp <=? 57343)))%Z.

Definition cp2 (a b : ascii) : Z := ((byte a - 192) * 64 + (byte b - 128))%Z.

Definition cp3 (a b c : ascii) : Z :=
  ((byte a - 224) * 4096 + (byte b - 128) * 64 + (byte c - 128))%Z.

Definition cp4 (a b c d : ascii) : Z :=
  ((byte a - 240) * 262144 + (byte b - 128) * 4096
   + (byte c - 128) * 64 + (byte d - 128))%Z.

Definition two (a b : ascii) : bool :=
  ((194 <=? byte a) && (byte a <=? 223))%Z && continues b.

Definition three (a b c : ascii) : bool :=
  ((224 <=? byte a) && (byte a <=? 239))%Z && continues b && continues c
  && scalar 2048 (cp3 a b c).

Definition four (a b c d : ascii) : bool :=
  ((240 <=? byte a) && (byte a <=? 244))%Z && continues b && continues c
  && continues d && scalar 65536 (cp4 a b c d).

(** The characters of a text, which is held as UTF-8. *)
Fixpoint chars (s : string) : list char :=
  match s with
  | EmptyString => []
  | String a s1 =>
      let alone (_ : unit) :=
        (String a "", if (byte a <? 128)%Z then Some (byte a) else None)
        :: chars s1 in
      match s1 with
      | String b s2 =>
          if two a b then (String a (String b ""), Some (cp2 a b)) :: chars s2
          else
            match s2 with
            | String c s3 =>
                if three a b c
                then (String a (String b (String c "")), Some (cp3 a b c))
                     :: chars s3
                else
                  match s3 with
                  | String d s4 =>
                      if four a b c d
                      then (String a (String b (String c (String d ""))),
                            Some (cp4 a b c d)) :: chars s4
                      else alone tt
                  | EmptyString => alone tt
                  end
            | EmptyString => alone tt
            end
      | EmptyString => alone tt
      end
  end.

Definition text (l : list char) : string := String.concat "" (map fst l).

(** The characters [str.isspace] holds for, which [str.strip] removes:
    TAB, LF, VT, FF, CR, FS, GS, RS, US, the space, NEL, the no-break
    space, the Ogham space mark, EN QUAD to HAIR SPACE, the line and the
    paragraph separator, the narrow no-break space, the medium
    mathematical space and the ideographic space. *)
Definition is_space (cp : Z) : bool :=
  ((9 <=? cp) && (cp <=? 13) || (28 <=? cp) && (cp <=? 32)
   || (cp =? 133) || (cp =? 160) || (cp =? 5760)
   || (8192 <=? cp) && (cp <=? 8202)
   || (cp =? 8232) || (cp =? 8233) || (cp =? 8239) || (cp =? 8287)
   || (cp =? 12288))%Z.

Definition blank (ch : char) : bool :=
  match snd ch with
  | Some cp => is_space cp
  | None => false
  end.

Fixpoint drop_blanks (l : list char) : list char :=
  match l with
  | ch :: l' => if blank ch then drop_blanks l' else l
  | [] => []
  end.

Definition lstrip (s : string) : string := text (drop_blanks (chars s)).

Definition rstrip (s : string) : string :=
  text (rev (drop_blanks (rev (chars s)))).

(** [s.strip()] *)
Definition strip (s : string) : string := rstrip (lstrip s).

Definition lower_char (c : ascii) : ascii :=
  let n := nat_of_ascii c in
  if ((65 <=? n) && (n <=? 90))%nat then ascii_of_nat (n + 32) else c.

(** [s.lower()] on the letters A to Z, which is all of it for the
    comparisons the script makes: [y] and [n] are the lower case of [Y]
    and [N] and of no other character. *)
Fixpoint lower (s : string) : string :=
  match s with
  | String c s' => String (lower_char c) (lower s')
  | EmptyString => EmptyString
  end.

Definition digit_of (c : ascii) : option Z :=
  let n := nat_of_ascii c in
  if ((48 <=? n) && (n <=? 57))%nat then Some (Z.of_nat (n - 48)) else None.

(** The code points of the digit zero of every script with decimal
    digits (Unicode 14.0, the data of Python 3.11); the nine code points
    that follow each are its digits 1 to 9. *)
Definition DECIMAL_ZEROS : list Z :=
  [ 48; 1632; 1776; 1984; 2406; 2534; 2662; 2790; 2918; 3046; 3174;
    3302; 3430; 3558; 3664; 3792; 3872; 4160; 4240; 6112; 6160; 6470;
    6608; 6784; 6800; 6992; 7088; 7232; 7248; 42528; 43216; 43264;
    43472; 43504; 43600; 44016; 65296; 66720; 68912; 69734; 69872;
    69942; 70096; 70384; 70736; 70864; 71248; 71360; 71472; 71904;
    72016; 72784; 73040; 73120; 92768; 92864; 93008; 120782; 120792;
    120802; 120812; 120822; 123200; 123632; 125264; 130032 ]%Z.

(** The value of a decimal digit. *)
Definition decimal (cp : Z) : option Z :=
  option_map (fun zero => (cp - zero)%Z)
    (find (fun zero => ((zero <=? cp) && (cp <=? zero + 9))%Z) DECIMAL_ZEROS).

(** What [int] makes of a character before it reads the literal: an
    ASCII character is kept, any other white space becomes a space and
    any other decimal digit the ASCII digit of its value; no other
    character is accepted. *)
Definition ascii_image (ch : char) : option ascii :=
  match snd ch with
  | Some cp =>
      if (cp <? 128)%Z then Some (ascii_of_N (Z.to_N cp))
      else if is_space cp then Some " "%char
      else option_map (fun d => ascii_of_N (Z.to_N (48 + d))) (decimal cp)
  | None => None
  end.

Fixpoint images (l : list char) : option string :=
  match l with
  | [] => Some ""
  | ch :: l' =>
      match ascii_image ch, images l' with
      | Some a, Some s => Some (String a s)
      | _, _ => None
      end
  end.

(** The blanks a literal may have at both ends: TAB, LF, VT, FF, CR and
    the space, but not FS, GS, RS and US. *)
Definition is_blank (c : ascii) : bool :=
  ((9 <=? byte c) && (byte c <=? 13) || (byte c =? 32))%Z.

Fixpoint skip_blanks (s : string) : string :=
  match s with
  | String c s' => if is_blank c then skip_blanks s' else s
  | EmptyString => EmptyString
  end.

Definition reverse (s : string) : string := of_list (rev (to_list s)).

Definition trim (s : string) : string :=
  reverse (skip_blanks (reverse (skip_blanks s))).

(** The digits of a decimal literal; an underscore is accepted between
    two digits only.  [after_digit] tells whether the previous
    character was a digit. *)
Fixpoint digits (acc : Z) (after_digit : bool) (s : string) : option Z :=
  match s with
  | EmptyString => if after_digit then Some acc else None
  | String c s' =>
      match digit_of c with
      | Some d => digits (10 * acc + d) true s'
      | None =>
          if (Ascii.eqb c "_" && after_digit)%bool
          then digits acc false s'
          else None
      end
  end.

(** [sys.get_int_max_str_digits()], since Python 3.11: a literal with
    more digits is refused. *)
Definition MAX_STR_DIGITS : Z := 4300.

Definition count_digits (s : string) : Z :=
  Z.of_nat (length (filter (fun c => match digit_of c with
                                     | Some _ => true
                                     | None => false
                                     end) (to_list s))).

Definition literal (s : string) : option Z :=
  if (count_digits s <=? MAX_STR_DIGITS)%Z then digits 0 false s else None.

(** [int(s)]: [None] stands for [ValueError]. *)
Definition int (s : string) : option Z :=
  match images (chars s) with
  | Some image =>
      match trim image with
      | String "-" s' => option_map Z.opp (literal s')
      | String "+" s' => literal s'
      | s' => literal s'
      end
  | None => None
  end.

(** [s.endswith(suf)]: [s] is [suf], or what follows its first character
    ends with [suf]. *)
Fixpoint endswith (s suf : string) : bool :=
  String.eqb s suf ||
  match s with
  | EmptyString => false
  | String _ s' => endswith s' suf
  end.

(** [s in l] for a list of strings. *)
Fixpoint mem (s : string) (l : list string) : bool :=
  match l with
  | [] => false
  | x :: l' => String.eqb s x || mem s l'
  end.

(** [fnmatch.fnmatchcase(s, pat)] for patterns made of literal
    characters, [?] and [*]; the bracket syntax is not needed by any
    pattern of the script. *)
Fixpoint fnmatch (pat : string) (s : string) {struct pat} : bool :=
  match pat with
  | EmptyString => match s with EmptyString => true | _ => false end
  | String c pat' =>
      if Ascii.eqb c "*"
      then
        (fix star (s : string) : bool :=
           fnmatch pat' s ||
           match s with
           | EmptyString => false
           | String _ s' => star s'
           end) s
      else
        match s with
        | EmptyString => false
        | String d s' => (Ascii.eqb c "?" || Ascii.eqb c d) && fnmatch pat' s'
        end
  end.

(** No character of [s] is special in a pattern. *)
Fixpoint is_literal (s : string) : bool :=
  match s with
  | EmptyString => true
  | String c s' => negb (Ascii.eqb c "*") && negb (Ascii.eqb c "?") && is_literal s'
  end.

(** The order of strings, by code points. *)
Definition le (a b : string) : Prop := String.leb a b = true.

(** Insertion into a list sorted by code points. *)
Fixpoint insert (x : string) (l : list string) : list string :=
  match l with
  | [] => [x]
  | y :: l' => if String.leb x y then x :: l else y :: insert x l'
  end.

(** [sorted(l)] for a list of strings. *)
Fixpoint sorted (l : list string) : list string :=
  match l with
  | [] => []
  | x :: l' => insert x (sorted l')
  end.

(** Truth value of an optional string: [None] and [''] are false. *)
Definition truthy (o : option string) : bool :=
  match o with
  | None => false
  | Some s => negb (String.eqb s "")
  end.


End Str.

(* ================================================================== *)
(** ** Paths and the file system *)
(* ================================================================== *)

(** [pathlib.Path]: the components of an absolute path. *)
Definition Path := list string.

Module Fs.

Inductive node : Type :=
| File (data : string)
| Dir (entries : list (string * node)).

Fixpoint assoc (A : Type) (k : string) (l : list (string * A)) : option A :=
  match l with
  | [] => None
  | (k', v) :: l' => if String.eqb k k' then Some v else assoc k l'
  end.

(** Replace the entry named [k], or list it last when it is new. *)
Fixpoint set_entry (k : string) (v : node) (l : list (string * node))
  : list (string * node) :=
  match l with
  | [] => [(k, v)]
  | (k', v') :: l' =>
      if String.eqb k k' then (k, v) :: l' else (k', v') :: set_entry k v l'
  end.

Definition del_entry (k : string) (l : list (string * node))
  : list (string * node) :=
  filter (fun e => negb (String.eqb k (fst e))) l.

(** Split a string at ["/"], dropping empty components and ["."]. *)
Fixpoint split_aux (cur : list ascii) (s : string) : list string :=
  let flush :=
    let c := Str.of_list (rev cur) in
    if (String.eqb c "" || String.eqb c ".")%bool then [] else [c] in
  match s with
  | EmptyString => flush
  | String c s' =>
      if Ascii.eqb c "/" then (flush ++ split_aux [] s')%list
      else split_aux (c :: cur) s'
  end.

Definition split (s : string) : Path := split_aux [] s.

(** [p / s]: an absolute [s] replaces [p]. *)
Definition join (p : Path) (s : string) : Path :=
  if prefix "/" s then split s else (p ++ split s)%list.

(** [str(p)] *)
Definition show (p : Path) : string := "/" ++ Str.join "/" p.

Fixpoint lookup (t : node) (p : Path) : option node :=
  match p with
  | [] => Some t
  | x :: p' =>
      match t with
      | File _ => None
      | Dir es =>
          match assoc x es with
          | Some c => lookup c p'
          | None => None
          end
      end
  end.

(** [p.exists()], where the operating system can look [p] up:
    [Path.exists] passes on an [OSError] such as the one for a name that
    is too long. *)
Definition exists_ (t : node) (p : Path) : bool :=
  match lookup t p with Some _ => true | None => false end.

(** A chain of fresh directories. *)
Fixpoint fresh (p : Path) : node :=
  match p with
  | [] => Dir []
  | x :: p' => Dir [(x, fresh p')]
  end.

(** [p.mkdir(parents=True, exist_ok=True)]; [None] when a component of
    [p] is a regular file. *)
Fixpoint mkdir_p (t : node) (p : Path) : option node :=
  match t with
  | File _ => None
  | Dir es =>
      match p with
      | [] => Some t
      | x :: p' =>
          match assoc x es with
          | Some c =>
              match mkdir_p c p' with
              | Some c' => Some (Dir (set_entry x c' es))
              | None => None
              end
          | None => Some (Dir (set_entry x (fresh p') es))
          end
      end
  end.

(** Write node [n] at [p], whose parent must be a directory; the root
    itself cannot be written. *)
Fixpoint put (t : node) (p : Path) (n : node) : option node :=
  match t, p with
  | File _, _ => None
  | Dir _, [] => None
  | Dir es, [x] => Some (Dir (set_entry x n es))
  | Dir es, x :: p' =>
      match assoc x es with
      | Some c =>
          match put c p' n with
          | Some c' => Some (Dir (set_entry x c' es))
          | None => None
          end
      | None => None
      end
  end.

(** Unlink the entry at [p]; [None] when there is none. *)
Fixpoint remove (t : node) (p : Path) : option node :=
  match t, p with
  | File _, _ => None
  | Dir _, [] => None
  | Dir es, [x] =>
      match assoc x es with
      | Some _ => Some (Dir (del_entry x es))
      | None => None
      end
  | Dir es, x :: p' =>
      match assoc x es with
      | Some c =>
          match remove c p' with
          | Some c' => Some (Dir (set_entry x c' es))
          | None => None
          end
      | None => None
      end
  end.

(** [p] is [q] or an ancestor of [q]. *)
Fixpoint is_prefix (p q : Path) : bool :=
  match p, q with
  | [], _ => true
  | x :: p', y :: q' => String.eqb x y && is_prefix p' q'
  | _ :: _, [] => false
  end.

(** Two paths neither of which leads to the other. *)
Definition apart (p q : Path) : Prop :=
  is_prefix p q = false /\ is_prefix q p = false.

(** The names of the sub-directories and of the other entries of a
    directory, as [os.walk] reports them. *)
Definition dirnames (es : list (string * node)) : list string :=
  map fst (filter (fun e => match snd e with Dir _ => true | File _ => false end) es).

Definition filenames (es : list (string * node)) : list string :=
  map fst (filter (fun e => match snd e with Dir _ => false | File _ => true end) es).

(** [os.walk(root)], top-down: a directory, then the walk of each of its
    sub-directories in listing order.  Nothing is yielded for a path
    that is not a directory. *)
Fixpoint walk (root : Path) (t : node) : list (Path * list string * list string) :=
  match t with
  | File _ => []
  | Dir es =>
      (root, dirnames es, filenames es) ::
      (fix subdirs (l : list (string * node)) :=
         match l with
         | [] => []
         | (n, c) :: l' => (walk (root ++ [n]) c ++ subdirs l')%list
         end) es
  end.

(** [p.glob(pat)] for a pattern of one component: the entries of the
    directory whose name matches; nothing when [p] is not a directory. *)
Definition glob (t : node) (p : Path) (pat : string) : list string :=
  match lookup t p with
  | Some (Dir es) => filter (Str.fnmatch pat) (map fst es)
  | _ => []
  end.

End Fs.

(* ================================================================== *)
(** ** The world of a run *)
(* ================================================================== *)

(** What [subprocess.run(['make'], ...)] can do: return with an exit code
    and the two captured streams, raise [FileNotFoundError] because there
    is no [make], or raise another exception, whose text is kept. *)
Inductive make_result : Type :=
| Completed (returncode : Z) (out err : string)
| MakeNotFound
| MakeFailed (e : string).

(** The exceptions the script can end with. *)
Inductive exn : Type :=
  EOFError | KeyError | OSError | RuntimeError | ValueError.

(** The environment of a run, fixed for its duration: the directory of the
    script, the path [get_default_target_path] computes from the home
    directory and the clock, [Path(s).expanduser().resolve()] (a path, or
    the exception it raises: [RuntimeError] where [expanduser] finds no
    home directory for the user a leading [~] names, [ValueError] for a
    null character) and the [make] oracle. *)
Record env : Type := {
  SCRIPT_DIR : Path;
  get_default_target_path : Path;
  resolve : string -> Path + exn;
  make : Path -> Fs.node -> make_result * Fs.node
}.

(** [make_log] is a ghost record of the working directories [make] was
    started in, oldest first. *)
Record world : Type := {
  fs : Fs.node;
  stdin : list string;
  stdout : list string;
  make_log : list Path
}.

(** How a computation ends: normally, by [sys.exit(code)], or by an
    exception nobody catches.  The world is the one reached at that
    point. *)
Inductive result (A : Type) : Type :=
| Ok (a : A) (w : world)
| Exited (code : Z) (w : world)
| Raised (e : exn) (w : world).

Arguments Exited {A} code w.
Arguments Raised {A} e w.

Definition M (A : Type) : Type := world -> result A.

Definition ret (A : Type) (a : A) : M A := fun w => Ok a w.

Definition bind (A B : Type) (m : M A) (k : A -> M B) : M B :=
  fun w =>
    match m w with
    | Ok a w' => k a w'
    | Exited c w' => Exited c w'
    | Raised e w' => Raised e w'
    end.

Notation "x <- m ;; k" := (bind m (fun x => k))
  (at level 61, m at next level, right associativity).
Notation "m ;; k" := (bind m (fun _ => k))
  (at level 61, right associativity).

(** The world after a chunk was written, a line was read, the file system
    was changed, or [make] ran in [cwd] and left the file system [t]. *)
Definition wrote (s : string) (w : world) : world :=
  {| fs := fs w; stdin := stdin w;
     stdout := (stdout w ++ [s])%list; make_log := make_log w |}.

Definition consumed (rest : list string) (w : world) : world :=
  {| fs := fs w; stdin := rest; stdout := stdout w; make_log := make_log w |}.

Definition on_disk (t : Fs.node) (w : world) : world :=
  {| fs := t; stdin := stdin w; stdout := stdout w; make_log := make_log w |}.

Definition made (cwd : Path) (t : Fs.node) (w : world) : world :=
  {| fs := t; stdin := stdin w; stdout := stdout w;
     make_log := (make_log w ++ [cwd])%list |}.

Definition write (s : string) : M unit := fun w => Ok tt (wrote s w).

(** [print(s)] *)
Definition print (s : string) : M unit := write (s ++ Str.nl).

(** [input(prompt)]: the prompt is written, a line is read; at the end of
    the input [EOFError] is raised. *)
Definition input (prompt : string) : M string :=
  write prompt ;;
  fun w =>
    match stdin w with
    | [] => Raised EOFError w
    | l :: rest => Ok l (consumed rest w)
    end.

(** [sys.exit(code)] *)
Definition sys_exit (A : Type) (code : Z) : M A := fun w => Exited code w.
Arguments sys_exit {A} code.

Definition raise (A : Type) (e : exn) : M A := fun w => Raised e w.
Arguments raise {A} e.

(** [Path(s).expanduser().resolve()] *)
Definition resolved (E : env) (s : string) : M Path :=
  match resolve E s with
  | inl p => ret p
  | inr e => raise e
  end.

(** Read the file system. *)
Definition fs_read (A : Type) (f : Fs.node -> A) : M A :=
  fun w => Ok (f (fs w)) w.

(** Change the file system; a refused operation raises [OSError]. *)
Definition fs_write (f : Fs.node -> option Fs.node) : M unit :=
  fun w =>
    match f (fs w) with
    | Some t => Ok tt (on_disk t w)
    | None => Raised OSError w
    end.

(** Start [make] in [cwd] and wait for it. *)
Definition run_make (E : env) (cwd : Path) : M make_result :=
  fun w =>
    let (r, t) := make E cwd (fs w) in
    Ok r (made cwd t w).

(** The exit status the operating system sees: 0 when [main] returns, the
    argument of [sys.exit], 1 after an uncaught exception. *)
Definition exit_status (A : Type) (r : result A) : Z :=
  match r with
  | Ok _ _ => 0
  | Exited c _ => c
  | Raised _ _ => 1
  end.

Definition final (A : Type) (r : result A) : world :=
  match r with
  | Ok _ w => w
  | Exited _ w => w
  | Raised _ w => w
  end.

(* ================================================================== *)
(** ** Library calls on the file system *)
(* ================================================================== *)

Module Shutil.

Import Fs.

Definition basename (p : Path) : string := last p "".

Fixpoint path_eqb (p q : Path) : bool :=
  match p, q with
  | [], [] => true
  | x :: p', y :: q' => String.eqb x y && path_eqb p' q'
  | _, _ => false
  end.

(** [shutil.copy2(src, dst)]: [src] must be a regular file; a [dst] that
    is a directory receives the file under the base name of [src]; copying
    a file onto itself or onto a directory is refused, and so is a
    destination whose parent is missing. *)
Definition copy2 (t : node) (src dst : Path) : option node :=
  match lookup t src with
  | Some (File data) =>
      let dst' :=
        match lookup t dst with
        | Some (Dir _) => (dst ++ [basename src])%list
        | _ => dst
        end in
      if path_eqb src dst' then None
      else
        match lookup t dst' with
        | Some (Dir _) => None
        | _ => put t dst' (File data)
        end
  | _ => None
  end.

(** [shutil.rmtree(p)]: [p] must be a directory, and not the root. *)
Definition rmtree (t : node) (p : Path) : option node :=
  match lookup t p with
  | Some (Dir _) => remove t p
  | _ => None
  end.

(** The function [shutil.ignore_patterns] returns for the given patterns,
    applied to the names of a directory: the names some pattern matches. *)
Definition ignore_patterns (patterns : list string) (names : list string)
  : list string :=
  flat_map (fun pattern => filter (Str.fnmatch pattern) names) patterns.

(** What [shutil.copytree] builds at its destination from a source node:
    in every directory the names [ignore] returns are skipped, the other
    directories are copied recursively and the other files as they are. *)
Fixpoint copytree_node (ignore : list string -> list string) (n : node) : node :=
  match n with
  | File data => File data
  | Dir es =>
      let ignored_names := ignore (map fst es) in
      Dir ((fix entries (l : list (string * node)) : list (string * node) :=
              match l with
              | [] => []
              | (name, c) :: l' =>
                  if Str.mem name ignored_names then entries l'
                  else (name, copytree_node ignore c) :: entries l'
              end) es)
  end.

(** What a copy lists of a source that holds its destination.  The
    entries of the source are listed before [os.makedirs(dst)] runs, the
    entries of its sub-directories after it: [listed t1 src es] is the
    source in [t1], the file system with the destination made, with the
    entries whose names are in the first listing [es]. *)
Definition listed (t1 : node) (src : Path) (es : list (string * node)) : node :=
  match lookup t1 src with
  | Some (Dir es1) => Dir (filter (fun e => Str.mem (fst e) (map fst es)) es1)
  | _ => Dir es
  end.

(** The copy of [n] walks down [rel]: every directory on the way lists
    the next name and [ignore] keeps it.  At the end of [rel] the copy is
    at its own destination, and copies what it has made so far into
    itself, one level deeper each time. *)
Fixpoint descends (ignore : list string -> list string) (n : node) (rel : Path)
  : bool :=
  match rel with
  | [] => true
  | x :: rel' =>
      match n with
      | Dir es =>
          match assoc x es with
          | Some c => negb (Str.mem x (ignore (map fst es))) && descends ignore c rel'
          | None => false
          end
      | File _ => false
      end
  end.

(** [shutil.copytree(src, dst, ignore=ignore)]: [src] must be a directory
    and [dst] must not exist; [os.makedirs(dst)] creates it with its
    missing parents, after the entries of [src] are listed.  With a
    destination inside the source the copy succeeds when it does not
    come to the destination: the first name on the way was made by
    [os.makedirs], or one of the names is ignored.  When it does come
    there it descends into its own output until the interpreter or the
    operating system stops it with an exception; what it leaves behind
    then is not modelled. *)
Definition copytree (ignore : list string -> list string)
  (t : node) (src dst : Path) : option node :=
  match lookup t src with
  | Some (Dir es) =>
      match lookup t dst with
      | Some _ => None
      | None =>
          match mkdir_p t dst with
          | Some t1 =>
              let source := listed t1 src es in
              if is_prefix src dst
                 && descends ignore source (skipn (length src) dst)
              then None
              else put t1 dst (copytree_node ignore source)
          | None => None
          end
      end
  | _ => None
  end.

End Shutil.

(* ================================================================== *)
(** ** The template registry (lines 15-50) *)
(* ================================================================== *)

Record template_info : Type := {
  name : string;
  path : string;
  has_makefile : bool;
  makefile_path : option string
}.

Definition REPORT_TEMPLATES : list (string * template_info) :=
  [ ("latex_exp",
     {| name := "LaTeX 论文模板"; path := "latex_exp";
        has_makefile := true; makefile_path := None |});
    ("markdown_template",
     {| name := "Markdown 模板"; path := "markdown_template";
        has_makefile := false; makefile_path := None |}) ].

Definition SLIDE_TEMPLATES : list (string * template_info) :=
  [ ("beamer",
     {| name := "Beamer LaTeX 模板"; path := "beamer";
        has_makefile := true; makefile_path := None |});
    ("reveal-md",
     {| name := "reveal-md 模板"; path := "reveal-md";
        has_makefile := true; makefile_path := Some "slide/src" |});
    ("ppt",
     {| name := "PowerPoint 模板"; path := "PPT/templates";
        has_makefile := false; makefile_path := None |}) ].

(** [list(d.keys())] *)
Definition keys (d : list (string * template_info)) : list string :=
  map fst d.

(** [d[k]]: [KeyError] for a key that is not in [d]. *)
Definition getitem (d : list (string * template_info)) (k : string)
  : M template_info :=
  match Fs.assoc k d with
  | Some info => ret info
  | None => raise KeyError
  end.

(* ================================================================== *)
(** ** The script *)
(* ================================================================== *)

(** The truth value of [o] with the string it holds: [if o: k(o)]. *)
Definition when_set (A : Type) (o : option string) (k : string -> M A) (otherwise : M A)
  : M A :=
  match o with
  | Some s => if String.eqb s "" then otherwise else k s
  | None => otherwise
  end.

(** [o == k] for an optional string. *)
Definition is_key (o : option string) (k : string) : bool :=
  match o with
  | Some s => String.eqb s k
  | None => false
  end.

(** [f"{o}"] *)
Definition format_opt (o : option string) : string :=
  match o with
  | Some s => s
  | None => "None"
  end.

(** [for i, x in enumerate(items, i): print(f"{i}. {x}")] *)
Fixpoint print_enumerated (i : nat) (items : list string) : M unit :=
  match items with
  | [] => ret tt
  | x :: rest => print (Str.of_nat i ++ ". " ++ x) ;; print_enumerated (S i) rest
  end.

(** The menu line of a registry entry: [f"{template['name']} ({key})"]. *)
Definition menu_line (e : string * template_info) : string :=
  name (snd e) ++ " (" ++ fst e ++ ")".

Definition rule : string := Str.times "=" 60.

(** [1 <= i <= n] *)
Definition in_range (i : Z) (n : nat) : bool :=
  ((1 <=? i) && (i <=? Z.of_nat n))%Z.

(** [l[i - 1]] for an index in range. *)
Definition item (l : list string) (i : Z) : option string :=
  nth_error l (Z.to_nat (i - 1)).

(** Lines 63-70. *)
Definition list_ppt_templates (E : env) (t : Fs.node) : list string :=
  let ppt_dir := Fs.join (Fs.join (SCRIPT_DIR E) "PPT") "templates" in
  if negb (Fs.exists_ t ppt_dir) then []
  else Str.sorted (Fs.glob t ppt_dir "*.pptx").

(** A selection: report key, slide key, PowerPoint file name, target. *)
Definition selection : Type :=
  (option string * option string * option string * Path)%type.

(** Lines 73-161. *)
Definition select_templates_interactive (E : env) : M selection :=
  print (Str.nl ++ rule) ;;
  print "模板选择" ;;
  print rule ;;
  (* the report template *)
  print (Str.nl ++ "[Report 类模板]") ;;
  print "0. 不选择" ;;
  print_enumerated 1 (map menu_line REPORT_TEMPLATES) ;;
  report_choice <- input (Str.nl ++ "请选择 Report 模板 (0-"
                            ++ Str.of_nat (length REPORT_TEMPLATES) ++ "): ") ;;
  report_template <-
    match Str.int report_choice with
    | Some report_idx =>
        if (report_idx =? 0)%Z then ret None
        else if in_range report_idx (length REPORT_TEMPLATES)
        then ret (item (keys REPORT_TEMPLATES) report_idx)
        else (print "无效选择，将不选择 Report 模板" ;; ret None)
    | None => print "无效输入，将不选择 Report 模板" ;; ret None
    end ;;
  (* the slide template *)
  print (Str.nl ++ "[Slide 类模板]") ;;
  print "0. 不选择" ;;
  print_enumerated 1 (map menu_line SLIDE_TEMPLATES) ;;
  slide_choice <- input (Str.nl ++ "请选择 Slide 模板 (0-"
                           ++ Str.of_nat (length SLIDE_TEMPLATES) ++ "): ") ;;
  slide <-
    match Str.int slide_choice with
    | Some slide_idx =>
        if (slide_idx =? 0)%Z then ret (None, None)
        else if in_range slide_idx (length SLIDE_TEMPLATES)
        then
          let slide_key := item (keys SLIDE_TEMPLATES) slide_idx in
          if is_key slide_key "ppt"
          then
            ppt_templates <- fs_read (list_ppt_templates E) ;;
            match ppt_templates with
            | [] => print "错误: 未找到 PPT 模板文件" ;; ret (None, None)
            | _ =>
                print (Str.nl ++ "[可用的 PPT 模板文件]") ;;
                print_enumerated 1 ppt_templates ;;
                ppt_choice <- input (Str.nl ++ "请选择 PPT 模板文件 (1-"
                                       ++ Str.of_nat (length ppt_templates) ++ "): ") ;;
                match Str.int ppt_choice with
                | Some ppt_idx =>
                    if in_range ppt_idx (length ppt_templates)
                    then ret (slide_key, item ppt_templates ppt_idx)
                    else (print "无效选择" ;; ret (None, None))
                | None => print "无效输入" ;; ret (None, None)
                end
            end
          else ret (slide_key, None)
        else (print "无效选择，将不选择 Slide 模板" ;; ret (None, None))
    | None => print "无效输入，将不选择 Slide 模板" ;; ret (None, None)
    end ;;
  (* the target path *)
  print (Str.nl ++ "[目标路径]") ;;
  let default_path := get_default_target_path E in
  print ("默认路径: " ++ Fs.show default_path) ;;
  answer <- input "请输入目标路径（直接回车使用默认路径）: " ;;
  let target_input := Str.strip answer in
  target_path <-
    (if String.eqb target_input "" then ret default_path
     else resolved E target_input) ;;
  ret (report_template, fst slide, snd slide, target_path).

(** What [parse_arguments] (lines 164-210) returns when it accepts the
    command line: [--report] and [--slide] hold a key of their registry
    when given, the other two any string. *)
Record Namespace : Type := {
  report : option string;
  slide : option string;
  ppt_template : option string;
  target : option string
}.

(** [sys.argv] as the argument parser answers it: the script name alone;
    arguments the parser accepts; [-h], for which the parser prints its
    help and exits with status 0; arguments the parser refuses, for which
    it writes to standard error and exits with status 2. *)
Inductive argv : Type :=
| NoArguments
| Arguments (args : Namespace)
| Help (message : string)
| Refused.

(** [parse_arguments()] *)
Definition parse_arguments (a : argv) : M Namespace :=
  match a with
  | Arguments args => ret args
  | Help message => write message ;; sys_exit 0
  | Refused => sys_exit 2
  | NoArguments =>
      ret {| report := None; slide := None; ppt_template := None; target := None |}
  end.

(** The patterns of line 260-264. *)
Definition IGNORED : list string :=
  [ "*.aux"; "*.log"; "*.out"; "*.toc"; "*.synctex.gz"; "*.bbl"; "*.blg";
    "*.fls"; "*.fdb_latexmk"; "*.nav"; "*.snm"; "*.vrb"; "*.pdf";
    "*.aux"; "site"; "__pycache__"; "*.pyc"; ".git" ].

(** Lines 213-266. *)
Definition copy_template (E : env) (template_key : string)
  (template_info : template_info) (target_path : Path)
  (template_type : option string) (is_ppt : bool) (ppt_filename : option string)
  : M bool :=
  let source_path := Fs.join (SCRIPT_DIR E) (path template_info) in
  source_exists <- fs_read (fun t => Fs.exists_ t source_path) ;;
  if negb source_exists
  then (print ("错误: 模板路径不存在: " ++ Fs.show source_path) ;; ret false)
  else if is_ppt && Str.truthy ppt_filename
  then
    let filename := format_opt ppt_filename in
    let source_file := Fs.join source_path filename in
    file_exists <- fs_read (fun t => Fs.exists_ t source_file) ;;
    if negb file_exists
    then (print ("错误: PPT 模板文件不存在: " ++ Fs.show source_file) ;; ret false)
    else
      let slide_dir := Fs.join target_path "slide" in
      fs_write (fun t => Fs.mkdir_p t slide_dir) ;;
      let target_file := Fs.join slide_dir filename in
      fs_write (fun t => Shutil.copy2 t source_file target_file) ;;
      print ("✓ 已复制 PPT 模板: " ++ filename ++ " -> " ++ Fs.show slide_dir) ;;
      ret true
  else
    let target_template_path :=
      if is_key template_type "report" then Fs.join target_path "report"
      else if is_key template_type "slide" then Fs.join target_path "slide"
      else Fs.join target_path template_key in
    target_exists <- fs_read (fun t => Fs.exists_ t target_template_path) ;;
    proceed <-
      (if target_exists
       then
         answer <- input ("目标路径已存在: " ++ Fs.show target_template_path
                            ++ Str.nl ++ "是否覆盖? (y/N): ") ;;
         let response := Str.lower (Str.strip answer) in
         if negb (String.eqb response "y")
         then (print "已取消复制" ;; ret false)
         else (fs_write (fun t => Shutil.rmtree t target_template_path) ;; ret true)
       else ret true) ;;
    if negb proceed then ret false
    else
      fs_write (fun t => Shutil.copytree (Shutil.ignore_patterns IGNORED)
                           t source_path target_template_path) ;;
      print ("✓ 已复制模板: " ++ template_key ++ " -> "
               ++ Fs.show target_template_path) ;;
      ret true.

Definition common_subdirs : list string := ["slide/src"; "src"; "slide"].

(** Lines 277-282: the first of the common sub-directories with a
    [Makefile]. *)
Fixpoint find_in_subdirs (t : Fs.node) (base_path : Path) (subdirs : list string)
  : option Path :=
  match subdirs with
  | [] => None
  | subdir :: rest =>
      let subdir_path := Fs.join base_path subdir in
      if Fs.exists_ t (Fs.join subdir_path "Makefile") then Some subdir_path
      else find_in_subdirs t base_path rest
  end.

(** Lines 285-290, over what [os.walk] yields.  [root] extends
    [base_path], so the text [root[len(str(base_path)):]] holds one
    separator for each component added; this for a [base_path] with a
    component, as the destination of a copy is (the text of the root
    directory is the separator itself, and the count is one less
    there). *)
Fixpoint find_in_walk (base_path : Path)
  (walked : list (Path * list string * list string)) : option Path :=
  match walked with
  | [] => None
  | (root, dirs, files) :: rest =>
      let depth := length root - length base_path in
      if (3 <? depth)%nat then find_in_walk base_path rest
      else if Str.mem "Makefile" files then Some root
      else find_in_walk base_path rest
  end.

(** [os.walk(base_path)] in file system [t]. *)
Definition os_walk (t : Fs.node) (base_path : Path)
  : list (Path * list string * list string) :=
  match Fs.lookup t base_path with
  | Some n => Fs.walk base_path n
  | None => []
  end.

(** Lines 269-292. *)
Definition find_makefile (t : Fs.node) (base_path : Path) : option Path :=
  if Fs.exists_ t (Fs.join base_path "Makefile") then Some base_path
  else
    match find_in_subdirs t base_path common_subdirs with
    | Some subdir_path => Some subdir_path
    | None => find_in_walk base_path (os_walk t base_path)
    end.

(** Lines 295-359. *)
Definition compile_template (E : env) (template_key : string)
  (template_info : template_info) (target_path : Path)
  (template_type : option string) : M bool :=
  if negb (has_makefile template_info)
  then (print ("模板 " ++ template_key ++ " 不需要编译") ;; ret true)
  else if String.eqb template_key "ppt" then ret true
  else
    let template_target_path :=
      if is_key template_type "report" then Fs.join target_path "report"
      else if is_key template_type "slide" then Fs.join target_path "slide"
      else Fs.join target_path template_key in
    found <- fs_read (fun t => find_makefile t template_target_path) ;;
    match found with
    | None =>
        print ("警告: 未找到 " ++ template_key ++ " 的 Makefile，跳过编译") ;;
        ret false
    | Some makefile_dir =>
        print ("找到 Makefile 在: " ++ Fs.show makefile_dir) ;;
        print ("正在编译 " ++ template_key ++ "...") ;;
        r <- run_make E makefile_dir ;;
        match r with
        | Completed returncode out err =>
            if (returncode =? 0)%Z
            then (print ("✓ " ++ template_key ++ " 编译成功") ;; ret true)
            else
              print ("✗ " ++ template_key ++ " 编译失败") ;;
              (if negb (String.eqb out "")
               then (print "标准输出:" ;; print out) else ret tt) ;;
              (if negb (String.eqb err "")
               then (print "错误输出:" ;; print err) else ret tt) ;;
              ret false
        | MakeNotFound =>
            print "错误: 未找到 make 命令，请确保已安装 make" ;; ret false
        | MakeFailed e =>
            print ("编译时发生错误: " ++ e) ;; ret false
        end
    end.

(** *** [main] (lines 362-468)

    [main] is one function in the script; it is cut here at the comments
    that divide it. *)

(** Lines 369-393: the selection, from the parsed arguments or from the
    prompts. *)
Definition select (E : env) (a : argv) : M selection :=
  match a with
  | NoArguments => select_templates_interactive E
  | _ =>
      args <- parse_arguments a ;;
      let report_template := report args in
      let slide_template := slide args in
      let ppt_template := ppt_template args in
      target_path <-
        (if Str.truthy (target args) then resolved E (format_opt (target args))
         else ret (get_default_target_path E)) ;;
      (if is_key slide_template "ppt" && negb (Str.truthy ppt_template)
       then
         ppt_templates <- fs_read (list_ppt_templates E) ;;
         match ppt_templates with
         | [] => print "错误: 未找到 PPT 模板文件" ;; sys_exit 1
         | _ =>
             print "错误: 使用 --slide ppt 时必须指定 --ppt-template" ;;
             print ("可用的 PPT 模板: " ++ Str.join ", " ppt_templates) ;;
             sys_exit 1
         end
       else ret tt) ;;
      ret (report_template, slide_template, ppt_template, target_path)
  end.

(** Lines 400-412. *)
Definition show_selection (sel : selection) : M unit :=
  let '(report_template, slide_template, ppt_template, target_path) := sel in
  print (Str.nl ++ rule) ;;
  print "选择的模板:" ;;
  print rule ;;
  when_set report_template
    (fun key => info <- getitem REPORT_TEMPLATES key ;;
                print ("  Report: " ++ name info))
    (ret tt) ;;
  when_set slide_template
    (fun key =>
       info <- getitem SLIDE_TEMPLATES key ;;
       if String.eqb key "ppt"
       then print ("  Slide: " ++ name info ++ " (" ++ format_opt ppt_template ++ ")")
       else print ("  Slide: " ++ name info))
    (ret tt) ;;
  print ("  目标路径: " ++ Fs.show target_path) ;;
  print (rule ++ Str.nl).

(** Lines 362-422: everything before the first copy. *)
Definition prepare (E : env) (a : argv) : M selection :=
  (* lines 364-367 *)
  in_root <- fs_read (fun t => Fs.exists_ t (Fs.join (SCRIPT_DIR E) "latex_exp")) ;;
  (if negb in_root
   then (print "错误: 请在模板仓库根目录运行此脚本" ;; sys_exit 1)
   else ret tt) ;;
  sel <- select E a ;;
  let '(report_template, slide_template, _, target_path) := sel in
  (* lines 395-398 *)
  (if negb (Str.truthy report_template) && negb (Str.truthy slide_template)
   then (print "错误: 至少需要选择一个模板" ;; sys_exit 1)
   else ret tt) ;;
  show_selection sel ;;
  (* lines 414-419 *)
  match a with
  | NoArguments =>
      answer <- input "确认开始复制和编译? (Y/n): " ;;
      let confirm := Str.lower (Str.strip answer) in
      if String.eqb confirm "n" then (print "已取消" ;; sys_exit 0) else ret tt
  | _ => ret tt
  end ;;
  (* line 422 *)
  fs_write (fun t => Fs.mkdir_p t target_path) ;;
  ret sel.

(** Lines 424-440. *)
Definition copy_stage (E : env) (sel : selection) : M unit :=
  let '(report_template, slide_template, ppt_template, target_path) := sel in
  let success := true in
  success <-
    when_set report_template
      (fun key =>
         template_info <- getitem REPORT_TEMPLATES key ;;
         copied <- copy_template E key template_info target_path
                     (Some "report") false None ;;
         ret (if negb copied then false else success))
      (ret success) ;;
  success <-
    when_set slide_template
      (fun key =>
         template_info <- getitem SLIDE_TEMPLATES key ;;
         let is_ppt := String.eqb key "ppt" in
         copied <- copy_template E key template_info target_path
                     (Some "slide") is_ppt ppt_template ;;
         ret (if negb copied then false else success))
      (ret success) ;;
  if negb success
  then (print (Str.nl ++ "复制过程中出现错误，请检查上述信息") ;; sys_exit 1)
  else ret tt.

(** Lines 442-457. *)
Definition build_stage (E : env) (sel : selection) : M bool :=
  let '(report_template, slide_template, _, target_path) := sel in
  print (Str.nl ++ rule) ;;
  print "开始编译" ;;
  print (rule ++ Str.nl) ;;
  let compile_success := true in
  compile_success <-
    when_set report_template
      (fun key =>
         template_info <- getitem REPORT_TEMPLATES key ;;
         compiled <- compile_template E key template_info target_path (Some "report") ;;
         ret (if negb compiled then false else compile_success))
      (ret compile_success) ;;
  when_set slide_template
    (fun key =>
       if negb (String.eqb key "ppt")
       then
         template_info <- getitem SLIDE_TEMPLATES key ;;
         compiled <- compile_template E key template_info target_path (Some "slide") ;;
         ret (if negb compiled then false else compile_success)
       else ret compile_success)
    (ret compile_success).

Definition ALL_COMPILED : string := "所有模板编译成功！".
Definition SOME_FAILED : string := "部分模板编译失败，请检查上述错误信息".

(** Lines 459-468. *)
Definition summary (sel : selection) (compile_success : bool) : M unit :=
  let '(_, _, _, target_path) := sel in
  print (Str.nl ++ rule) ;;
  print "完成" ;;
  print rule ;;
  print ("模板已复制到: " ++ Fs.show target_path) ;;
  (if compile_success then print ALL_COMPILED else print SOME_FAILED) ;;
  print (rule ++ Str.nl).

Definition main (E : env) (a : argv) : M unit :=
  sel <- prepare E a ;;
  copy_stage E sel ;;
  compile_success <- build_stage E sel ;;
  summary sel compile_success.

(* ================================================================== *)
(** ** The words of the specification *)
(* ================================================================== *)

Module Spec.

Import Fs.

(** *** The copy: "the source tree minus files matching the exclusion
    patterns" *)

(** "compiled and auxiliary output extensions" *)
Definition EXTENSIONS : list string :=
  [ ".aux"; ".log"; ".out"; ".toc"; ".synctex.gz"; ".bbl"; ".blg"; ".fls";
    ".fdb_latexmk"; ".nav"; ".snm"; ".vrb"; ".pdf"; ".pyc" ].

(** "version-control and cache directories", and the generated site. *)
Definition DIRECTORIES : list string := [ "site"; "__pycache__"; ".git" ].

Definition excluded (name : string) : bool :=
  existsb (Str.endswith name) EXTENSIONS || Str.mem name DIRECTORIES.

(** The tree without every entry, at any depth, whose name is excluded. *)
Fixpoint minus_excluded (n : node) : node :=
  match n with
  | File data => File data
  | Dir es =>
      Dir ((fix keep (l : list (string * node)) : list (string * node) :=
              match l with
              | [] => []
              | (name, c) :: l' =>
                  if excluded name then keep l'
                  else (name, minus_excluded c) :: keep l'
              end) es)
  end.

(** *** The build locator *)

(** The directory holds a regular file named [Makefile]. *)
Definition holds_makefile (n : node) : bool :=
  match n with
  | Dir es => Str.mem "Makefile" (filenames es)
  | File _ => false
  end.

(** The directories of a tree down to depth [d], each before its
    sub-directories, those in listing order (depth first). *)
Fixpoint preorder (d : nat) (root : Path) (n : node) {struct n}
  : list (Path * node) :=
  match n with
  | File _ => []
  | Dir es =>
      (root, n) ::
      match d with
      | O => []
      | S d' =>
          (fix sub (l : list (string * node)) : list (Path * node) :=
             match l with
             | [] => []
             | (name, c) :: l' => (preorder d' (root ++ [name]) c ++ sub l')%list
             end) es
      end
  end.



(** The first directory of a list that holds a [Makefile]. *)
Fixpoint first_with_makefile (l : list (Path * node)) : option Path :=
  match l with
  | [] => None
  | (p, n) :: l' => if holds_makefile n then Some p else first_with_makefile l'
  end.

(** The third step of the locator over a given order of search. *)
Definition search (order : Path -> node -> list (Path * node))
  (t : node) (base : Path) : option Path :=
  match lookup t base with
  | Some n => first_with_makefile (order base n)
  | None => None
  end.

(** The locator as the specification words it: the root, the common
    sub-directories, then the directories in the given order. *)
Definition locate (order : Path -> node -> list (Path * node))
  (t : node) (base : Path) : option Path :=
  if exists_ t (base ++ ["Makefile"])%list then Some base
  else if exists_ t (base ++ ["slide"; "src"; "Makefile"])%list
  then Some (base ++ ["slide"; "src"])%list
  else if exists_ t (base ++ ["src"; "Makefile"])%list
  then Some (base ++ ["src"])%list
  else if exists_ t (base ++ ["slide"; "Makefile"])%list
  then Some (base ++ ["slide"])%list
  else search order t base.

(** The directories the loop of the script accepts below [root], which is
    [k] levels below the base: those down to level 3. *)
Definition accepted (k : nat) (root : Path) (n : node) : list (Path * node) :=
  if (k <=? 3)%nat then preorder (3 - k) root n else [].

(** [reaches n rel m]: following the names of [rel] from [n] leads to
    [m]. *)
Inductive reaches : node -> Path -> node -> Prop :=
| reaches_here (n : node) : reaches n [] n
| reaches_step (es : list (string * node)) (x : string) (c : node)
    (rel : Path) (m : node) :
    In (x, c) es -> reaches c rel m -> reaches (Dir es) (x :: rel) m.


(** *** Worlds that differ in nothing but what was printed and read *)

Definition untouched (w w' : world) : Prop :=
  fs w' = fs w /\ make_log w' = make_log w.

(** [make] was not started between the two worlds. *)
Definition no_make (w w' : world) : Prop := make_log w' = make_log w.

(** Nothing happened but printing. *)
Definition printed (w w' : world) : Prop :=
  fs w' = fs w /\ make_log w' = make_log w /\ stdin w' = stdin w.

(** A relation between the world a computation starts in and every world
    it can end in that doing nothing and printing respect. *)
Class Frame (R : world -> world -> Prop) : Prop := {
  frame_refl : forall w, R w w;
  frame_trans : forall w1 w2 w3, R w1 w2 -> R w2 w3 -> R w1 w3;
  frame_wrote : forall s w, R w (wrote s w)
}.

(** A frame that reading a line respects too. *)
Class FrameInput (R : world -> world -> Prop) : Prop := {
  frame_consumed : forall rest w, R w (consumed rest w)
}.

(** Whenever [m] returns, what it returns satisfies [P]. *)
Definition yields (A : Type) (P : A -> Prop) (m : M A) : Prop :=
  forall w a w', m w = Ok a w' -> P a.


(** A selection names templates of the registry only. *)
Definition valid_key (d : list (string * template_info)) (o : option string) : Prop :=
  match o with
  | Some k => In k (keys d)
  | None => True
  end.

(** However [m] ends, the world it ends in is related to the one it
    started in. *)
Definition keeps (R : world -> world -> Prop) (A : Type) (m : M A) : Prop :=
  forall w, R w (final (m w)).

(** *** The copy stage: "a success/failure flag per template; the stage
    fails if any individual copy fails, but all requested copies are
    still attempted" *)

Definition COPY_FAILED : string :=
  Str.nl ++ "复制过程中出现错误，请检查上述信息" ++ Str.nl.

(** The copy of the report template, when one is selected, and its
    flag. *)
Definition copy_report (E : env) (sel : selection) : M bool :=
  let '(report_template, _, _, target_path) := sel in
  when_set report_template
    (fun key =>
       template_info <- getitem REPORT_TEMPLATES key ;;
       copy_template E key template_info target_path (Some "report") false None)
    (ret true).

(** The copy of the slide template, when one is selected, and its flag. *)
Definition copy_slide (E : env) (sel : selection) : M bool :=
  let '(_, slide_template, ppt_template, target_path) := sel in
  when_set slide_template
    (fun key =>
       template_info <- getitem SLIDE_TEMPLATES key ;;
       copy_template E key template_info target_path (Some "slide")
         (String.eqb key "ppt") ppt_template)
    (ret true).

(** Both copies, one after the other whatever the first flag is, then the
    verdict. *)
Definition copy_all (E : env) (sel : selection) : M unit :=
  report_ok <- copy_report E sel ;;
  slide_ok <- copy_slide E sel ;;
  if report_ok && slide_ok then ret tt
  else fun w => Exited 1 (wrote COPY_FAILED w).

(** The world once the build stage has printed its heading. *)
Definition build_announced (w : world) : world :=
  wrote ((rule ++ Str.nl) ++ Str.nl)
    (wrote ("开始编译" ++ Str.nl)
       (wrote ((Str.nl ++ rule) ++ Str.nl) w)).

(** The world once the summary has been printed for the flag [b]. *)
Definition summed_up (target_path : Path) (b : bool) (w : world) : world :=
  wrote ((rule ++ Str.nl) ++ Str.nl)
    (wrote ((if b then ALL_COMPILED else SOME_FAILED) ++ Str.nl)
       (wrote (("模板已复制到: " ++ Fs.show target_path) ++ Str.nl)
          (wrote (rule ++ Str.nl)
             (wrote ("完成" ++ Str.nl)
                (wrote ((Str.nl ++ rule) ++ Str.nl) w))))).

(** [m] never calls [sys.exit]. *)
Definition no_exit (A : Type) (m : M A) : Prop :=
  forall w c w', m w <> Exited c w'.

(** A key that is set is a key of the registry. *)
Definition known (d : list (string * template_info)) (o : option string) : Prop :=
  forall k, o = Some k -> String.eqb k "" = false ->
            exists info, Fs.assoc k d = Some info.

(** The summary that ends the output says that every template
    compiled. *)
Definition reported_success (w : world) : Prop :=
  exists before,
    stdout w = app before [ALL_COMPILED ++ Str.nl; (rule ++ Str.nl) ++ Str.nl].

(** The summary that ends the output says that some template did not
    compile. *)
Definition reported_failure (w : world) : Prop :=
  exists before,
    stdout w = app before [SOME_FAILED ++ Str.nl; (rule ++ Str.nl) ++ Str.nl].

End Spec.

(* ================================================================== *)
(** ** Sample runs *)
(* ================================================================== *)

Module Sample.

Import Fs.

(** A template repository. *)
Definition repo : node :=
  Dir [ ("latex_exp",
         Dir [ ("Makefile", File "all: main.pdf");
               ("main.tex", File "\documentclass{article}");
               ("main.aux", File "\relax");
               (".git", Dir [("HEAD", File "ref: refs/heads/main")]);
               ("fig", Dir [("plot.pdf", File "%PDF"); ("plot.tex", File "\tikz")]) ]);
        ("markdown_template", Dir [("report.md", File "# Title")]);
        ("beamer",
         Dir [ ("Makefile", File "all: slides.pdf");
               ("slides.tex", File "\documentclass{beamer}") ]);
        ("reveal-md",
         Dir [ ("slide", Dir [("src", Dir [("Makefile", File "all:");
                                            ("slides.md", File "# Slide")])]) ]);
        ("PPT",
         Dir [ ("templates",
                Dir [ ("simple.pptx", File "PK2");
                      ("beamer_type.pptx", File "PK1");
                      ("README.md", File "templates") ]) ]) ].

Definition disk : node := Dir [("repo", repo); ("tmp", Dir [])].

(** There is no user [nosuchuser]; [make] fails in the report directory
    and succeeds elsewhere. *)
Definition E : env :=
  {| SCRIPT_DIR := ["repo"];
     get_default_target_path :=
       ["home"; "Downloads"; "template_project_20260101_120000"];
     resolve := fun s =>
       if prefix "~nosuchuser" s then inr RuntimeError else inl (Fs.split s);
     make := fun cwd t =>
       (if Shutil.path_eqb cwd ["tmp"; "proj"; "report"]
        then Completed 2 "" "make: *** [main.pdf] Error 1"
        else Completed 0 "" "", t) |}.

Definition start_on (t : node) (lines : list string) : world :=
  {| fs := t; stdin := lines; stdout := []; make_log := [] |}.

Definition start (lines : list string) : world := start_on disk lines.

(** [--report latex_exp --slide beamer --target /tmp/proj] *)
Definition report_and_beamer : Namespace :=
  {| report := Some "latex_exp"; slide := Some "beamer";
     ppt_template := None; target := Some "/tmp/proj" |}.

Definition run : argv := Arguments report_and_beamer.

(** What that command line selects. *)
Definition both : selection :=
  (Some "latex_exp", Some "beamer", None, ["tmp"; "proj"]).

Definition latex_exp : template_info :=
  {| name := "LaTeX 论文模板"; path := "latex_exp";
     has_makefile := true; makefile_path := None |}.

Definition beamer : template_info :=
  {| name := "Beamer LaTeX 模板"; path := "beamer";
     has_makefile := true; makefile_path := None |}.

Definition reveal_md : template_info :=
  {| name := "reveal-md 模板"; path := "reveal-md";
     has_makefile := true; makefile_path := Some "slide/src" |}.



(** [--target ~nosuchuser/x] *)
Definition unknown_home_only : Namespace :=
  {| report := None; slide := None;
     ppt_template := None; target := Some "~nosuchuser/x" |}.



(** A copied template whose only two [Makefile]s are in [a/b] and in
    [c]. *)
Definition two_makefiles : node :=
  Dir [ ("proj",
         Dir [ ("slide",
                Dir [ ("a", Dir [("b", Dir [("Makefile", File "all:")])]);
                      ("c", Dir [("Makefile", File "all:")]) ]) ]) ].

(** A copied reveal-md template. *)
Definition reveal_copy : node :=
  Dir [ ("proj",
         Dir [ ("slide",
                Dir [ ("slide", Dir [("src", Dir [("Makefile", File "all:")])]) ]) ]) ].

(** A target whose [report] directory exists already. *)
Definition disk_with_report : node :=
  Dir [("repo", repo); ("tmp", Dir [("proj", Dir [("report", Dir [("old.tex", File "old")])])])].

(** A target whose [report] is a regular file. *)
Definition disk_with_report_file : node :=
  Dir [("repo", repo); ("tmp", Dir [("proj", Dir [("report", File "notes")])])].


(** A target whose [beamer] directory exists already. *)
Definition disk_with_beamer : node :=
  Dir [("repo", repo); ("tmp", Dir [("proj", Dir [("beamer", Dir [("old.tex", File "old")])])])].

End Sample.

(* ================================================================== *)
(** ** Notions for the properties of the single functions *)
(* ================================================================== *)

Module Obs.

(** Lines 245-251: where [copy_template] puts a directory template, and
    where [compile_template] looks for it. *)
Definition destination (target_path : Path) (template_type : option string)
  (template_key : string) : Path :=
  if is_key template_type "report" then Fs.join target_path "report"
  else if is_key template_type "slide" then Fs.join target_path "slide"
  else Fs.join target_path template_key.

(** No component of [p] is [".."]: [p] names the directories its
    components name, one inside the other. *)
Definition normal (p : Path) : bool := negb (Str.mem ".." p).

(** The path and the ones the locator looks at next to it are names the
    file system can hold: no component is longer than [NAME_MAX], 255
    bytes, and with [/slide/src/Makefile] added the text of the path is
    shorter than [PATH_MAX], 4096 bytes.  Longer names make
    [Path.exists] raise [OSError]. *)
Definition fits (p : Path) : bool :=
  forallb (fun x => (String.length x <=? 255)%nat) p
  && (Z.of_nat (String.length (Fs.show p)) + 19 <=? 4095)%Z.

(** Between the two worlds nothing changed at any path that is neither
    inside [t] nor an ancestor of [t]. *)
Definition outside (t : Path) (w w' : world) : Prop :=
  forall q, Fs.apart t q -> Fs.lookup (fs w') q = Fs.lookup (fs w) q.

(** Every [sys.exit] of [m] passes a code that satisfies [P]. *)
Definition exits_with (P : Z -> Prop) (A : Type) (m : M A) : Prop :=
  forall w c w', m w = Exited c w' -> P c.

(** With [n] lines to read [m] returns, having read no more than [n], or
    raises an exception of [failing]; it does not exit. *)
Definition reads_at_most (n : nat) (failing : exn -> Prop) (A : Type) (m : M A)
  : Prop :=
  forall w, n <= length (stdin w) ->
    (exists a w', m w = Ok a w' /\ length (stdin w) <= length (stdin w') + n)
    \/ (exists e w', m w = Raised e w' /\ failing e).

(** Started where [I] holds, [m] returns where [I] holds, with a value
    that satisfies [P]. *)
Definition maintains (I : world -> Prop) (A : Type) (P : A -> Prop) (m : M A)
  : Prop :=
  forall w a w', I w -> m w = Ok a w' -> I w' /\ P a.

(** The file system is [t0]. *)
Definition same_disk (t0 : Fs.node) (w : world) : Prop := fs w = t0.

(** An answer to a numbered menu over [l]: the entry at the position the
    line names, for a line that is an integer from 1 to [len(l)]. *)
Definition picked (l : list string) (line : string) : option string :=
  match Str.int line with
  | Some i => if in_range i (length l) then item l i else None
  | None => None
  end.

(** The run is in front of the disk [t0] and the lines [l]. *)
Definition facing (t0 : Fs.node) (l : list string) (w : world) : Prop :=
  fs w = t0 /\ stdin w = l.

(** From a world of [Pre], a result of [m] and its world are in [Post]. *)
Definition hoare (A : Type) (Pre : world -> Prop) (m : M A)
  (Post : A -> world -> Prop) : Prop :=
  forall w a w', Pre w -> m w = Ok a w' -> Post a w'.

(** What the slide menu and the PowerPoint menu make of the lines [b],
    then [rest]: the selection and the lines that are left. *)
Definition slide_outcome (E : env) (t0 : Fs.node) (b : string) (rest : list string)
  (sl : option string * option string) (left : list string) : Prop :=
  let k := picked (keys SLIDE_TEMPLATES) b in
  let ppts := list_ppt_templates E t0 in
  (is_key k "ppt" = false -> sl = (k, None) /\ left = rest) /\
  (is_key k "ppt" = true ->
     (ppts = [] -> sl = (None, None) /\ left = rest) /\
     (ppts <> [] ->
        exists c, rest = c :: left /\
          snd sl = picked ppts c /\
          fst sl = match picked ppts c with
                   | Some _ => Some "ppt"
                   | None => None
                   end)).

End Obs.

Unset Implicit Arguments.

(* ================================================================== *)
(** ** The model at work *)
(* ================================================================== *)

Example int_blanks_and_underscore : Str.int "  12_3 " = Some 123%Z.
Proof. reflexivity. Qed.

Example int_rejects_double_underscore : Str.int "1__2" = None.
Proof. reflexivity. Qed.

Example int_rejects_empty : Str.int "" = None.
Proof. reflexivity. Qed.

Example int_negative : Str.int "-1" = Some (-1)%Z.
Proof. reflexivity. Qed.

Example answer_normalised : Str.lower (Str.strip "  N ") = "n".
Proof. reflexivity. Qed.

(** The no-break space U+00A0 is the bytes 194 160, the ideographic space
    U+3000 the bytes 227 128 128. *)
Example strip_unicode_blanks :
  Str.lower (Str.strip (String (ascii_of_nat 227) (String (ascii_of_nat 128)
                          (String (ascii_of_nat 128) "Y")))) = "y"
  /\ Str.strip ("n" ++ String (ascii_of_nat 194) (String (ascii_of_nat 160) "")) = "n".
Proof. split; vm_compute; reflexivity. Qed.

(** [int] reads the decimal digits of every script, and does not take
    the separators U+001C to U+001F for blanks, which [strip] removes. *)
Example int_unicode_digits :
  Str.int "１２" = Some 12%Z
  /\ Str.int (String (ascii_of_nat 194) (String (ascii_of_nat 160) "3")) = Some 3%Z
  /\ Str.int (String (ascii_of_nat 28) "1") = None
  /\ Str.strip (String (ascii_of_nat 28) "1") = "1".
Proof. repeat split; vm_compute; reflexivity. Qed.

Example fnmatch_extension :
  Str.fnmatch "*.aux" "main.aux" = true /\ Str.fnmatch "*.aux" ".aux" = true
  /\ Str.fnmatch "*.aux" "main.auxx" = false /\ Str.fnmatch "site" "site" = true
  /\ Str.fnmatch "site" "website" = false.
Proof. repeat split. Qed.

Example join_splits : Fs.join ["repo"] "PPT/templates" = ["repo"; "PPT"; "templates"].
Proof. reflexivity. Qed.

Example join_absolute : Fs.join ["repo"] "/tmp/./proj/" = ["tmp"; "proj"].
Proof. reflexivity. Qed.

Example show_path : Fs.show ["tmp"; "proj"] = "/tmp/proj".
Proof. reflexivity. Qed.

Example sorted_by_code_point : Str.sorted ["b"; "a"; "B"; "ab"] = ["B"; "a"; "ab"; "b"].
Proof. reflexivity. Qed.

Example walk_is_top_down :
  map (fun e => fst (fst e)) (os_walk Sample.two_makefiles ["proj"; "slide"])
  = [ ["proj"; "slide"]; ["proj"; "slide"; "a"]; ["proj"; "slide"; "a"; "b"];
      ["proj"; "slide"; "c"] ].
Proof. reflexivity. Qed.

Example sample_run_copies_and_builds :
  Fs.lookup (fs (final (main Sample.E Sample.run (Sample.start []))))
    ["tmp"; "proj"; "slide"]
  = Some (Fs.Dir [ ("Makefile", Fs.File "all: slides.pdf");
                   ("slides.tex", Fs.File "\documentclass{beamer}") ]).
Proof. vm_compute. reflexivity. Qed.

(** A copy into the directory of the template itself succeeds, and a
    copy into a sub-directory the template has runs into its own
    output. *)
Example copy_into_the_template :
  Fs.lookup
    (fs (final (copy_template Sample.E "latex_exp" Sample.latex_exp
                  ["repo"; "latex_exp"] (Some "report") false None (Sample.start []))))
    ["repo"; "latex_exp"; "report"]
  = Some (Fs.Dir [ ("Makefile", Fs.File "all: main.pdf");
                   ("main.tex", Fs.File "\documentclass{article}");
                   ("fig", Fs.Dir [("plot.tex", Fs.File "\tikz")]) ])
  /\ exit_status (copy_template Sample.E "latex_exp" Sample.latex_exp
                    ["repo"; "latex_exp"; "fig"] (Some "report") false None
                    (Sample.start [])) = 1%Z.
Proof. split; vm_compute; reflexivity. Qed.

(* ================================================================== *)
(** ** Text: patterns, suffixes and sorting *)
(* ================================================================== *)

Section Text.

Lemma endswith_self (s : string) : Str.endswith s s = true.
Proof. destruct s; cbn [Str.endswith]; rewrite String.eqb_refl; reflexivity. Qed.

Lemma endswith_iff (s suf : string) :
  Str.endswith s suf = true <-> exists pre, s = pre ++ suf.
Proof.
  split.
  - induction s as [|c s IH]; cbn [Str.endswith]; intros H.
    + rewrite orb_false_r in H. apply String.eqb_eq in H. subst. now exists "".
    + apply orb_true_iff in H as [H|H].
      * apply String.eqb_eq in H. subst. now exists "".
      * destruct (IH H) as [pre ->]. now exists (String c pre).
  - intros [pre ->]. induction pre as [|c pre IH].
    + apply endswith_self.
    + change (String c pre ++ suf) with (String c (pre ++ suf)).
      cbn [Str.endswith]. rewrite IH. apply orb_true_r.
Qed.

Lemma fnmatch_literal (lit s : string) :
  Str.is_literal lit = true -> Str.fnmatch lit s = String.eqb lit s.
Proof.
  revert s. induction lit as [|c lit IH]; intros s H.
  - now destruct s.
  - cbn [Str.is_literal] in H.
    apply andb_true_iff in H as [H Hl]. apply andb_true_iff in H as [Hs Hq].
    apply negb_true_iff in Hs, Hq. cbn [Str.fnmatch]. rewrite Hs, Hq.
    destruct s as [|d s]; [reflexivity|].
    cbn [String.eqb orb]. rewrite IH by exact Hl.
    now destruct (Ascii.eqb c d).
Qed.

Lemma fnmatch_star (lit s : string) :
  Str.is_literal lit = true ->
  Str.fnmatch (String "*" lit) s = Str.endswith s lit.
Proof.
  intros H. cbn [Str.fnmatch]. change (Ascii.eqb "*" "*") with true. cbv iota.
  induction s as [|d s IH]; cbn [Str.endswith].
  - rewrite (fnmatch_literal _ _ H). now rewrite String.eqb_sym.
  - rewrite IH, (fnmatch_literal _ _ H). now rewrite String.eqb_sym.
Qed.

Lemma mem_In (s : string) (l : list string) : Str.mem s l = true <-> In s l.
Proof.
  induction l as [|x l IH]; simpl; [easy|].
  rewrite orb_true_iff, IH, String.eqb_eq. intuition congruence.
Qed.

Lemma insert_perm (x : string) (l : list string) :
  Permutation (Str.insert x l) (x :: l).
Proof.
  induction l as [|y l IH]; simpl; [reflexivity|].
  destruct (String.leb x y); [reflexivity|].
  rewrite IH. apply perm_swap.
Qed.

Lemma sorted_perm (l : list string) : Permutation (Str.sorted l) l.
Proof.
  induction l as [|x l IH]; simpl; [reflexivity|].
  rewrite insert_perm. now constructor.
Qed.

Lemma ascii_compare_refl (x : ascii) : Ascii.compare x x = Eq.
Proof. unfold Ascii.compare. apply N.compare_refl. Qed.

Lemma compare_lt_trans (a b c : string) :
  String.compare a b = Lt -> String.compare b c = Lt -> String.compare a c = Lt.
Proof.
  revert b c. induction a as [|x a IH]; intros [|y b] [|z c]; simpl; try easy.
  destruct (Ascii.compare x y) eqn:F1; try discriminate;
  destruct (Ascii.compare y z) eqn:F2; try discriminate; intros E1 E2.
  - apply Ascii.compare_eq_iff in F1, F2. subst.
    rewrite ascii_compare_refl. eauto.
  - apply Ascii.compare_eq_iff in F1. subst. now rewrite F2.
  - apply Ascii.compare_eq_iff in F2. subst. now rewrite F1.
  - unfold Ascii.compare in *. rewrite N.compare_lt_iff in *.
    assert (Hlt : (N_of_ascii x < N_of_ascii z)%N) by lia.
    apply N.compare_lt_iff in Hlt. now rewrite Hlt.
Qed.

Lemma leb_trans (a b c : string) : Str.le a b -> Str.le b c -> Str.le a c.
Proof.
  unfold Str.le, String.leb. intros Hab Hbc.
  destruct (String.compare a b) eqn:E1; try discriminate.
  - apply String.compare_eq_iff in E1. subst. exact Hbc.
  - destruct (String.compare b c) eqn:E2; try discriminate.
    + apply String.compare_eq_iff in E2. subst. now rewrite E1.
    + now rewrite (compare_lt_trans _ _ _ E1 E2).
Qed.

Lemma insert_sorted (x : string) (l : list string) :
  StronglySorted Str.le l -> StronglySorted Str.le (Str.insert x l).
Proof.
  induction 1 as [|y l Hs IH Hall]; simpl.
  - repeat constructor.
  - destruct (String.leb x y) eqn:Hxy.
    + constructor; [now constructor|].
      constructor; [exact Hxy|].
      eapply Forall_impl; [|exact Hall]. intros z. now apply leb_trans.
    + constructor; [exact IH|].
      assert (Hyx : Str.le y x).
      { destruct (String.leb_total x y) as [H|H]; [congruence|exact H]. }
      eapply Permutation_Forall; [symmetry; apply insert_perm|].
      now constructor.
Qed.

Lemma sorted_sorted (l : list string) : StronglySorted Str.le (Str.sorted l).
Proof.
  induction l; simpl; [constructor|now apply insert_sorted].
Qed.

End Text.

(* ================================================================== *)
(** ** The file system *)
(* ================================================================== *)

Section FileSystem.

Import Fs.

(** Induction on a tree, with the property at hand for every entry of a
    directory. *)
Lemma node_induction (P : node -> Prop) :
  (forall data, P (File data)) ->
  (forall es, Forall (fun e => P (snd e)) es -> P (Dir es)) ->
  forall n, P n.
Proof.
  intros HF HD.
  fix IH 1. intros [data|es].
  - apply HF.
  - apply HD. induction es as [|[k c] es IHes]; constructor.
    + apply IH.
    + exact IHes.
Qed.

Lemma join_name (p : Path) (s : string) :
  Fs.split s = [s] -> prefix "/" s = false -> Fs.join p s = (p ++ [s])%list.
Proof. intros H1 H2. unfold Fs.join. now rewrite H2, H1. Qed.

Lemma assoc_set_same (k : string) (v : node) (l : list (string * node)) :
  assoc k (set_entry k v l) = Some v.
Proof.
  induction l as [|[k' v'] l IH]; simpl.
  - now rewrite String.eqb_refl.
  - destruct (String.eqb k k') eqn:Hk; simpl.
    + now rewrite String.eqb_refl.
    + now rewrite Hk.
Qed.

Lemma assoc_set_other (k k' : string) (v : node) (l : list (string * node)) :
  k <> k' -> assoc k' (set_entry k v l) = assoc k' l.
Proof.
  intros Hne. induction l as [|[k0 v0] l IH]; simpl.
  - destruct (String.eqb k' k) eqn:Hk; [apply String.eqb_eq in Hk; congruence|reflexivity].
  - destruct (String.eqb k k0) eqn:Hk; simpl.
    + apply String.eqb_eq in Hk. subst k0.
      destruct (String.eqb k' k) eqn:Hk'; [apply String.eqb_eq in Hk'; congruence|reflexivity].
    + now rewrite IH.
Qed.

Lemma assoc_del_same (k : string) (l : list (string * node)) :
  assoc k (del_entry k l) = None.
Proof.
  induction l as [|[k0 v0] l IH]; simpl; [reflexivity|].
  destruct (String.eqb k k0) eqn:Hk; simpl; [exact IH|]. now rewrite Hk.
Qed.

Lemma assoc_del_other (k k' : string) (l : list (string * node)) :
  k <> k' -> assoc k' (del_entry k l) = assoc k' l.
Proof.
  intros Hne. induction l as [|[k0 v0] l IH]; simpl; [reflexivity|].
  destruct (String.eqb k k0) eqn:Hk; simpl.
  - apply String.eqb_eq in Hk. subst k0.
    destruct (String.eqb k' k) eqn:Hk'; [apply String.eqb_eq in Hk'; congruence|exact IH].
  - now rewrite IH.
Qed.

Lemma apart_cons (x y : string) (p q : Path) :
  apart (x :: p) (y :: q) -> x <> y \/ (x = y /\ apart p q).
Proof.
  unfold apart. simpl. intros [H1 H2].
  destruct (String.eqb x y) eqn:Hxy.
  - apply String.eqb_eq in Hxy. subst y. rewrite String.eqb_refl in H2.
    right. auto.
  - left. now apply String.eqb_neq.
Qed.

Lemma apart_nil_l (q : Path) : ~ apart [] q.
Proof. unfold apart. simpl. intros [H _]. discriminate. Qed.

Lemma apart_nil_r (p : Path) : ~ apart p [].
Proof. unfold apart. intros [_ H]. discriminate. Qed.

Lemma lookup_put_same (p : Path) : forall t n t',
  put t p n = Some t' -> lookup t' p = Some n.
Proof.
  induction p as [|x p IH]; intros [data|es] n t'; simpl; try discriminate.
  destruct p as [|y p].
  - intros [= <-]. simpl. now rewrite assoc_set_same.
  - destruct (assoc x es) as [c|] eqn:Hc; try discriminate.
    destruct (put c (y :: p) n) as [c'|] eqn:Hp; try discriminate.
    intros [= <-]. cbn [lookup]. rewrite assoc_set_same. eapply IH, Hp.
Qed.

Lemma lookup_put_apart (p : Path) : forall t n t' q,
  put t p n = Some t' -> apart p q -> lookup t' q = lookup t q.
Proof.
  induction p as [|x p IH]; intros [data|es] n t' q; simpl; try discriminate.
  intros Hput Hq. destruct q as [|y q]; [now apply apart_nil_r in Hq|].
  apply apart_cons in Hq as [Hne|[<- Hq]].
  - destruct p as [|z p].
    + injection Hput as <-. simpl. now rewrite assoc_set_other.
    + destruct (assoc x es) as [c|]; try discriminate.
      destruct (put c (z :: p) n) as [c'|]; try discriminate.
      injection Hput as <-. simpl. now rewrite assoc_set_other.
  - destruct p as [|z p]; [now apply apart_nil_l in Hq|].
    destruct (assoc x es) as [c|] eqn:Hc; try discriminate.
    destruct (put c (z :: p) n) as [c'|] eqn:Hp; try discriminate.
    injection Hput as <-. cbn [lookup]. rewrite assoc_set_same, Hc.
    eapply IH; eassumption.
Qed.

Lemma lookup_fresh (p q : Path) :
  lookup (fresh p) q = if is_prefix q p then Some (fresh (skipn (length q) p)) else None.
Proof.
  revert q. induction p as [|x p IH]; intros [|y q]; simpl; try reflexivity.
  rewrite (String.eqb_sym y x).
  destruct (String.eqb x y) eqn:Hxy; simpl; [apply IH|reflexivity].
Qed.

Lemma lookup_mkdir_apart (p : Path) : forall t t' q,
  mkdir_p t p = Some t' -> apart p q -> lookup t' q = lookup t q.
Proof.
  induction p as [|x p IH]; intros [data|es] t' q; simpl; try discriminate.
  - intros _ Hq. now apply apart_nil_l in Hq.
  - intros Hmk Hq. destruct q as [|y q]; [now apply apart_nil_r in Hq|].
    apply apart_cons in Hq as [Hne|[<- Hq]].
    + destruct (assoc x es) as [c|].
      * destruct (mkdir_p c p) as [c'|]; try discriminate.
        injection Hmk as <-. simpl. now rewrite assoc_set_other.
      * injection Hmk as <-. simpl. now rewrite assoc_set_other.
    + destruct (assoc x es) as [c|] eqn:Hc.
      * destruct (mkdir_p c p) as [c'|] eqn:Hp; try discriminate.
        injection Hmk as <-. cbn [lookup]. rewrite assoc_set_same, Hc.
        eapply IH; eassumption.
      * injection Hmk as <-. cbn [lookup]. rewrite assoc_set_same, Hc.
        rewrite lookup_fresh. destruct Hq as [_ Hq]. now rewrite Hq.
Qed.

Lemma lookup_remove_apart (p : Path) : forall t t' q,
  remove t p = Some t' -> apart p q -> lookup t' q = lookup t q.
Proof.
  induction p as [|x p IH]; intros [data|es] t' q; simpl; try discriminate.
  intros Hrm Hq. destruct q as [|y q]; [now apply apart_nil_r in Hq|].
  apply apart_cons in Hq as [Hne|[<- Hq]].
  - destruct p as [|z p].
    + destruct (assoc x es); try discriminate.
      injection Hrm as <-. simpl. now rewrite assoc_del_other.
    + destruct (assoc x es) as [c|]; try discriminate.
      destruct (remove c (z :: p)) as [c'|]; try discriminate.
      injection Hrm as <-. simpl. now rewrite assoc_set_other.
  - destruct p as [|z p]; [now apply apart_nil_l in Hq|].
    destruct (assoc x es) as [c|] eqn:Hc; try discriminate.
    destruct (remove c (z :: p)) as [c'|] eqn:Hp; try discriminate.
    injection Hrm as <-. cbn [lookup]. rewrite assoc_set_same, Hc.
    eapply IH; eassumption.
Qed.

Lemma lookup_remove_under (p : Path) : forall t t' q,
  remove t p = Some t' -> is_prefix p q = true -> lookup t' q = None.
Proof.
  induction p as [|x p IH]; intros [data|es] t' q; simpl; try discriminate.
  intros Hrm Hq. destruct q as [|y q]; [discriminate|].
  apply andb_true_iff in Hq as [Hxy Hq]. apply String.eqb_eq in Hxy. subst y.
  destruct p as [|z p].
  - destruct (assoc x es); try discriminate.
    injection Hrm as <-. simpl. now rewrite assoc_del_same.
  - destruct (assoc x es) as [c|] eqn:Hc; try discriminate.
    destruct (remove c (z :: p)) as [c'|] eqn:Hp; try discriminate.
    injection Hrm as <-. cbn [lookup]. rewrite assoc_set_same.
    eapply IH; eassumption.
Qed.

(** An existing path has all its ancestors. *)
Lemma lookup_prefix (p : Path) : forall t q n,
  lookup t q = Some n -> is_prefix p q = true -> exists m, lookup t p = Some m.
Proof.
  induction p as [|x p IH]; intros t q n Hq Hp; simpl.
  - eauto.
  - destruct q as [|y q]; [discriminate|]. simpl in Hp.
    apply andb_true_iff in Hp as [Hxy Hp]. apply String.eqb_eq in Hxy. subst y.
    simpl in Hq. destruct t as [data|es]; [discriminate|].
    destruct (assoc x es) as [c|]; [|discriminate]. eauto.
Qed.

End FileSystem.

(* ================================================================== *)
(** ** The copy against the exclusion patterns *)
(* ================================================================== *)

Section Exclusion.

Import Fs.

Lemma mem_app (s : string) (l1 l2 : list string) :
  Str.mem s (l1 ++ l2) = Str.mem s l1 || Str.mem s l2.
Proof.
  induction l1 as [|x l1 IH]; simpl; [reflexivity|].
  now rewrite IH, orb_assoc.
Qed.

Lemma mem_filter (f : string -> bool) (s : string) (l : list string) :
  Str.mem s (filter f l) = Str.mem s l && f s.
Proof.
  induction l as [|x l IH]; simpl; [reflexivity|].
  destruct (String.eqb s x) eqn:Hsx.
  - apply String.eqb_eq in Hsx. subst x. destruct (f s) eqn:Hf; simpl.
    + now rewrite String.eqb_refl.
    + rewrite IH. apply andb_false_r.
  - destruct (f x); simpl; [rewrite Hsx|]; exact IH.
Qed.

(** A name is ignored when the directory lists it and a pattern matches
    it. *)
Lemma mem_ignore_patterns (pats names : list string) (s : string) :
  Str.mem s (Shutil.ignore_patterns pats names)
  = Str.mem s names && existsb (fun pat => Str.fnmatch pat s) pats.
Proof.
  unfold Shutil.ignore_patterns.
  induction pats as [|pat pats IH]; simpl.
  - now rewrite andb_false_r.
  - rewrite mem_app, mem_filter, IH. now rewrite andb_orb_distrib_r.
Qed.

(** The patterns of the script match the names the specification
    excludes. *)
Lemma ignored_excluded (s : string) :
  existsb (fun pat => Str.fnmatch pat s) IGNORED = Spec.excluded s.
Proof.
  unfold IGNORED, Spec.excluded, Spec.EXTENSIONS, Spec.DIRECTORIES.
  cbn [existsb Str.mem].
  rewrite !fnmatch_star by reflexivity.
  rewrite !fnmatch_literal by reflexivity.
  rewrite !(String.eqb_sym s).
  repeat match goal with
         | |- context [Str.endswith s ?e] =>
             let b := fresh "b" in
             generalize (Str.endswith s e); intro b
         | |- context [String.eqb ?e s] =>
             let b := fresh "b" in
             generalize (String.eqb e s); intro b
         end.
  btauto.
Qed.

Lemma copytree_entries (es : list (string * node)) :
  Forall (fun e => Shutil.copytree_node (Shutil.ignore_patterns IGNORED) (snd e)
                   = Spec.minus_excluded (snd e)) es ->
  forall l, incl l es ->
  (fix entries (l : list (string * node)) : list (string * node) :=
     match l with
     | [] => []
     | (name, c) :: l' =>
         if Str.mem name (Shutil.ignore_patterns IGNORED (map fst es))
         then entries l'
         else (name, Shutil.copytree_node (Shutil.ignore_patterns IGNORED) c)
              :: entries l'
     end) l
  = (fix keep (l : list (string * node)) : list (string * node) :=
       match l with
       | [] => []
       | (name, c) :: l' =>
           if Spec.excluded name then keep l'
           else (name, Spec.minus_excluded c) :: keep l'
       end) l.
Proof.
  intros Hall l. induction l as [|[name c] l IH]; intros Hincl; [reflexivity|].
  assert (Hin : In (name, c) es) by (apply Hincl; now left).
  assert (Hl : incl l es) by (intros e He; apply Hincl; now right).
  rewrite mem_ignore_patterns, ignored_excluded.
  assert (Hname : Str.mem name (map fst es) = true).
  { apply mem_In. change name with (fst (name, c)). now apply in_map. }
  rewrite Hname. cbn [andb]. rewrite (IH Hl).
  rewrite Forall_forall in Hall. specialize (Hall _ Hin). cbn [snd] in Hall.
  now rewrite Hall.
Qed.

(** What [shutil.copytree] builds under the patterns of the script is the
    source without every excluded entry. *)
Lemma copytree_minus_excluded (n : node) :
  Shutil.copytree_node (Shutil.ignore_patterns IGNORED) n = Spec.minus_excluded n.
Proof.
  induction n as [data|es IH] using node_induction; [reflexivity|].
  cbn [Shutil.copytree_node Spec.minus_excluded]. f_equal.
  apply (copytree_entries es IH es). apply incl_refl.
Qed.



End Exclusion.

(* ================================================================== *)
(** ** Effects: what a computation leaves alone *)
(* ================================================================== *)

Import Spec.

#[export] Instance untouched_frame : Frame untouched.
Proof.
  split; unfold untouched.
  - auto.
  - intros w1 w2 w3 [H1 H2] [H3 H4]. split; congruence.
  - auto.
Qed.

#[export] Instance untouched_input : FrameInput untouched.
Proof. split; unfold untouched; auto. Qed.

#[export] Instance no_make_frame : Frame no_make.
Proof.
  split; unfold no_make.
  - auto.
  - intros w1 w2 w3 H1 H2. congruence.
  - auto.
Qed.

#[export] Instance no_make_input : FrameInput no_make.
Proof. split; unfold no_make; auto. Qed.

#[export] Instance printed_frame : Frame printed.
Proof.
  split; unfold printed.
  - auto.
  - intros w1 w2 w3 (H1 & H2 & H3) (H4 & H5 & H6). repeat split; congruence.
  - auto.
Qed.

Lemma printed_untouched (w w' : world) : printed w w' -> untouched w w'.
Proof. intros (H1 & H2 & _). now split. Qed.


Section Frames.

Context (R : world -> world -> Prop) `{Frame R}.

Lemma keeps_ret (A : Type) (a : A) : keeps R (ret a).
Proof. intros w. apply frame_refl. Qed.

Lemma keeps_bind (A B : Type) (m : M A) (k : A -> M B) :
  keeps R m -> (forall a, keeps R (k a)) -> keeps R (bind m k).
Proof.
  intros Hm Hk w. unfold bind. specialize (Hm w).
  destruct (m w) as [a w'|c w'|e w']; simpl in *; try exact Hm.
  eapply frame_trans; [exact Hm|apply Hk].
Qed.

Lemma keeps_write (s : string) : keeps R (write s).
Proof. intros w. apply frame_wrote. Qed.

Lemma keeps_print (s : string) : keeps R (print s).
Proof. apply keeps_write. Qed.

Lemma keeps_input `{FrameInput R} (s : string) : keeps R (input s).
Proof.
  unfold input. apply keeps_bind; [apply keeps_write|].
  intros _ w. destruct (stdin w); simpl; [apply frame_refl|apply frame_consumed].
Qed.

Lemma keeps_exit (A : Type) (c : Z) : keeps R (@sys_exit A c).
Proof. intros w. apply frame_refl. Qed.

Lemma keeps_raise (A : Type) (e : exn) : keeps R (@raise A e).
Proof. intros w. apply frame_refl. Qed.

Lemma keeps_fs_read (A : Type) (f : Fs.node -> A) : keeps R (fs_read f).
Proof. intros w. apply frame_refl. Qed.

Lemma keeps_getitem (d : list (string * template_info)) (k : string) :
  keeps R (getitem d k).
Proof. unfold getitem. destruct (Fs.assoc k d); [apply keeps_ret|apply keeps_raise]. Qed.

Lemma keeps_resolved (E : env) (s : string) : keeps R (resolved E s).
Proof. unfold resolved. destruct (resolve E s); [apply keeps_ret|apply keeps_raise]. Qed.

Lemma keeps_print_enumerated (l : list string) : forall i,
  keeps R (print_enumerated i l).
Proof.
  induction l as [|x l IH]; intros i; simpl.
  - apply keeps_ret.
  - apply keeps_bind; [apply keeps_print|intros _; apply IH].
Qed.

Lemma keeps_when_set (A : Type) (o : option string) (k : string -> M A) (m : M A) :
  keeps R m -> (forall s, keeps R (k s)) -> keeps R (when_set o k m).
Proof.
  intros Hm Hk. unfold when_set. destruct o as [s|]; [|exact Hm].
  destruct (String.eqb s ""); [exact Hm|apply Hk].
Qed.

End Frames.

Lemma keeps_fs_write (f : Fs.node -> option Fs.node) :
  keeps no_make (fs_write f).
Proof.
  intros w. unfold fs_write. destruct (f (fs w)); reflexivity.
Qed.

(** Take a computation apart along its structure. *)
Ltac frame_rule :=
  first
    [ apply keeps_ret
    | apply keeps_print
    | apply keeps_write
    | apply keeps_input
    | apply keeps_exit
    | apply keeps_raise
    | apply keeps_fs_read
    | apply keeps_fs_write
    | apply keeps_getitem
    | apply keeps_resolved
    | apply keeps_print_enumerated
    | apply keeps_when_set; [..|intro]
    | apply keeps_bind; [..|intro] ].

Ltac frame :=
  repeat first
    [ match goal with
      | |- Frame _ => exact _
      | |- FrameInput _ => exact _
      | H : context [keeps] |- keeps _ _ => apply H
      end
    | frame_rule
    | match goal with
      | |- keeps _ (let _ := _ in _) => cbv zeta
      | |- keeps _ (match ?x with _ => _ end) => destruct x
      end ].

Section Stages.

Context (E : env).

Lemma keeps_select_interactive : keeps untouched (select_templates_interactive E).
Proof. unfold select_templates_interactive. frame. Qed.

Lemma keeps_select (a : argv) : keeps untouched (select E a).
Proof.
  unfold select, parse_arguments.
  destruct a; [apply keeps_select_interactive|..]; frame.
Qed.

Lemma keeps_show_selection (sel : selection) : keeps printed (show_selection sel).
Proof. unfold show_selection. frame. Qed.




End Stages.

(* ================================================================== *)
(** ** The PowerPoint files on offer *)
(* ================================================================== *)

Section Registry.

Context (E : env).

Lemma ppt_dir_path :
  Fs.join (Fs.join (SCRIPT_DIR E) "PPT") "templates"
  = (SCRIPT_DIR E ++ ["PPT"; "templates"])%list.
Proof.
  change (Fs.join (Fs.join (SCRIPT_DIR E) "PPT") "templates")
    with ((SCRIPT_DIR E ++ ["PPT"]) ++ ["templates"])%list.
  now rewrite <- app_assoc.
Qed.

(** C8: the enumeration of the PowerPoint templates lists the entries of
    [SCRIPT_DIR/PPT/templates] whose name ends in [.pptx], in sorted
    order; it is empty when that directory does not exist (and when the
    path is a regular file). *)
Theorem list_ppt_templates_sorted_pptx (t : Fs.node) :
  let ppt_dir := (SCRIPT_DIR E ++ ["PPT"; "templates"])%list in
  (Fs.lookup t ppt_dir = None -> list_ppt_templates E t = []) /\
  (forall data, Fs.lookup t ppt_dir = Some (Fs.File data) ->
     list_ppt_templates E t = []) /\
  StronglySorted Str.le (list_ppt_templates E t) /\
  (forall es, Fs.lookup t ppt_dir = Some (Fs.Dir es) ->
     Permutation (list_ppt_templates E t)
       (filter (fun n => Str.endswith n ".pptx") (map fst es))).
Proof.
  intros ppt_dir. unfold list_ppt_templates, Fs.exists_, Fs.glob.
  rewrite ppt_dir_path. fold ppt_dir.
  repeat split.
  - intros ->. reflexivity.
  - intros data ->. reflexivity.
  - destruct (Fs.lookup t ppt_dir); simpl; [apply sorted_sorted|constructor].
  - intros es ->. cbn [negb]. rewrite sorted_perm.
    erewrite filter_ext; [reflexivity|].
    intros n. now rewrite fnmatch_star.
Qed.

End Registry.

(** C8 on the sample repository: both [.pptx] files, and not the
    [README.md] next to them. *)
Lemma list_ppt_templates_sorted_pptx_witness :
  Permutation (list_ppt_templates Sample.E Sample.disk)
    ["simple.pptx"; "beamer_type.pptx"]
  /\ list_ppt_templates Sample.E Sample.disk = ["beamer_type.pptx"; "simple.pptx"].
Proof.
  split; [|reflexivity].
  exact (proj2 (proj2 (proj2
           (list_ppt_templates_sorted_pptx Sample.E Sample.disk))) _ eq_refl).
Defined.

(* ================================================================== *)
(** ** The build-directory hint *)
(* ================================================================== *)

(** C9: the directory [make] is started in does not depend on the
    [makefile_path] field of the descriptor: two descriptors that differ
    in that field only are copied and compiled alike, whatever the key,
    the target, the kind and the world. *)
Theorem compile_template_ignores_hint (E : env) (key : string)
  (n p : string) (b : bool) (hint1 hint2 : option string)
  (target_path : Path) (ty : option string) (w : world) :
  let info1 := {| name := n; path := p; has_makefile := b; makefile_path := hint1 |} in
  let info2 := {| name := n; path := p; has_makefile := b; makefile_path := hint2 |} in
  compile_template E key info1 target_path ty w
  = compile_template E key info2 target_path ty w
  /\ forall is_ppt file,
       copy_template E key info1 target_path ty is_ppt file w
       = copy_template E key info2 target_path ty is_ppt file w.
Proof. split; reflexivity. Qed.

(* ================================================================== *)
(** ** Runs that end before anything is copied *)
(* ================================================================== *)

Section EarlyExits.

Context (E : env).







Lemma bind_ok (A B : Type) (m : M A) (k : A -> M B) (w w' : world) (b : B) :
  bind m k w = Ok b w' -> exists a w1, m w = Ok a w1 /\ k a w1 = Ok b w'.
Proof.
  unfold bind. destruct (m w) as [a w1|c w1|e w1]; try discriminate. eauto.
Qed.

Lemma yields_any (A : Type) (m : M A) : yields (fun _ => True) m.
Proof. now intros w a w' _. Qed.

Lemma yields_ret (A : Type) (P : A -> Prop) (a : A) : P a -> yields P (ret a).
Proof. intros Ha w b w' [= <- _]. exact Ha. Qed.

Lemma yields_bind (A B : Type) (P : A -> Prop) (Q : B -> Prop)
  (m : M A) (k : A -> M B) :
  yields P m -> (forall a, P a -> yields Q (k a)) -> yields Q (bind m k).
Proof.
  intros Hm Hk w b w' Hb. apply bind_ok in Hb as (a & w1 & H1 & H2).
  eapply Hk; [eapply Hm, H1|exact H2].
Qed.

Lemma valid_item (d : list (string * template_info)) (i : Z) :
  valid_key d (item (keys d) i).
Proof.
  unfold valid_key, item. destruct (nth_error _ _) eqn:Hn; [|exact I].
  eapply nth_error_In, Hn.
Qed.

Ltac skip := eapply yields_bind; [apply yields_any|intros ? _].

(** The prompts select keys of the registries only. *)
Lemma select_interactive_valid :
  yields (fun sel : selection =>
            let '(r, s, _, _) := sel in
            valid_key REPORT_TEMPLATES r /\ valid_key SLIDE_TEMPLATES s)
    (select_templates_interactive E).
Proof.
  unfold select_templates_interactive.
  do 7 skip.
  eapply yields_bind with (P := valid_key REPORT_TEMPLATES).
  { destruct (Str.int _) as [i|]; [|skip; now apply yields_ret].
    destruct (i =? 0)%Z; [now apply yields_ret|].
    destruct (in_range _ _); [apply yields_ret, valid_item|].
    skip. now apply yields_ret. }
  intros r Hr. do 4 skip.
  eapply yields_bind with (P := fun sl => valid_key SLIDE_TEMPLATES (fst sl)).
  { destruct (Str.int _) as [i|]; [|skip; now apply yields_ret].
    destruct (i =? 0)%Z; [now apply yields_ret|].
    destruct (in_range _ _); [|skip; now apply yields_ret].
    destruct (is_key _ _); [|apply yields_ret, valid_item].
    skip. match goal with l : list string |- _ => destruct l end;
      [skip; now apply yields_ret|].
    do 3 skip.
    destruct (Str.int _) as [j|]; [|skip; now apply yields_ret].
    destruct (in_range _ _); [apply yields_ret, valid_item|].
    skip. now apply yields_ret. }
  intros sl Hs. do 4 skip. now apply yields_ret.
Qed.

(** A valid selection is displayed without a failure. *)
Lemma show_selection_ok (r s p : option string) (t : Path) (w : world) :
  valid_key REPORT_TEMPLATES r -> valid_key SLIDE_TEMPLATES s ->
  exists w', show_selection (r, s, p, t) w = Ok tt w' /\ printed w w'.
Proof.
  intros Hr Hs.
  assert (H : exists w', show_selection (r, s, p, t) w = Ok tt w').
  { destruct r as [k|]; [destruct Hr as [<-|[<-|[]]]|];
      (destruct s as [k|]; [destruct Hs as [<-|[<-|[<-|[]]]]|]);
      eexists; reflexivity. }
  destruct H as [w' H]. exists w'. split; [exact H|].
  pose proof (keeps_show_selection (r, s, p, t) w) as Hk.
  now rewrite H in Hk.
Qed.






(** C10: in interactive mode, once a template is selected, an answer to
    the last prompt that [strip] and [lower] turn into [n] ends the run
    with exit status 0, with the file system as it was and [make] never
    started. *)
Theorem declined_confirmation_exits (w w1 : world) (r s p : option string)
  (t : Path) (answer : string) (rest : list string) :
  Fs.exists_ (fs w) (Fs.join (SCRIPT_DIR E) "latex_exp") = true ->
  select_templates_interactive E w = Ok (r, s, p, t) w1 ->
  Str.truthy r || Str.truthy s = true ->
  stdin w1 = answer :: rest ->
  Str.lower (Str.strip answer) = "n" ->
  exists w', main E NoArguments w = Exited 0 w' /\ untouched w w'.
Proof.
  intros Hroot Hsel Hone Hin Hn.
  pose proof (keeps_select_interactive E w) as Hk. rewrite Hsel in Hk. cbn [final] in Hk.
  destruct (select_interactive_valid _ _ _ Hsel) as [Hr Hs].
  destruct (show_selection_ok r s p t w1 Hr Hs) as (w2 & Hshow & Hp).
  destruct Hp as (Hfs & Hlog & Hstdin).
  unfold main, prepare, bind, fs_read. rewrite Hroot. cbn [negb ret select].
  rewrite Hsel.
  assert (Hsome : negb (Str.truthy r) && negb (Str.truthy s) = false).
  { destruct (Str.truthy r), (Str.truthy s); simpl in *; congruence. }
  cbv beta iota. rewrite Hsome. cbv beta iota delta [ret]. rewrite Hshow.
  unfold input, bind, write. cbn [stdin wrote]. rewrite Hstdin, Hin, Hn.
  eexists. split; [reflexivity|].
  destruct Hk as [Hk1 Hk2]. split; cbn; congruence.
Qed.

End EarlyExits.



(* ================================================================== *)
(** ** The build locator *)
(* ================================================================== *)

Section Locator.

Import Fs.

Lemma first_with_makefile_app (l1 l2 : list (Path * node)) :
  Spec.first_with_makefile (l1 ++ l2)
  = match Spec.first_with_makefile l1 with
    | Some p => Some p
    | None => Spec.first_with_makefile l2
    end.
Proof.
  induction l1 as [|[p n] l1 IH]; simpl; [reflexivity|].
  destruct (Spec.holds_makefile n); [reflexivity|exact IH].
Qed.

Context (base : Path).

(** The loop over [os.walk] finds what a depth-first search down to level
    3 finds: deeper directories are walked but skipped. *)
Lemma find_in_walk_node (n : node) : forall (root : Path) (k : nat) rest,
  length root = length base + k ->
  find_in_walk base (walk root n ++ rest)
  = match Spec.first_with_makefile (Spec.accepted k root n) with
    | Some p => Some p
    | None => find_in_walk base rest
    end.
Proof.
  induction n as [data|es IH] using node_induction; intros root k rest Hlen.
  - unfold Spec.accepted. simpl. now destruct (k <=? 3)%nat.
  - assert (Hsub : forall l, incl l es -> forall rest',
      find_in_walk base
        ((fix subdirs (l : list (string * node)) :=
            match l with
            | [] => []
            | (n, c) :: l' => (walk (root ++ [n]) c ++ subdirs l')%list
            end) l ++ rest')
      = match Spec.first_with_makefile
                (if (S k <=? 3)%nat
                 then (fix sub (l : list (string * node)) : list (Path * node) :=
                         match l with
                         | [] => []
                         | (name, c) :: l' =>
                             (Spec.preorder (3 - S k) (root ++ [name]) c ++ sub l')%list
                         end) l
                 else []) with
        | Some p => Some p
        | None => find_in_walk base rest'
        end).
    { induction l as [|[x c] l IHl]; intros Hincl rest'.
      - now destruct (S k <=? 3)%nat.
      - rewrite <- app_assoc.
        assert (Hc : In (x, c) es) by (apply Hincl; now left).
        rewrite Forall_forall in IH. specialize (IH _ Hc). cbn [snd] in IH.
        rewrite (IH (root ++ [x])%list (S k)).
        2:{ rewrite length_app. simpl. lia. }
        rewrite IHl by (intros e He; apply Hincl; now right).
        unfold Spec.accepted. destruct (S k <=? 3)%nat; [|reflexivity].
        rewrite first_with_makefile_app.
        now destruct (Spec.first_with_makefile (Spec.preorder (3 - S k) (root ++ [x])%list c)). }
    cbn [walk]. rewrite <- app_comm_cons. cbn [find_in_walk].
    replace (length root - length base) with k by lia.
    specialize (Hsub es (incl_refl es) rest).
    unfold Spec.accepted. destruct (k <=? 3)%nat eqn:Hk.
    + apply Nat.leb_le in Hk.
      assert (H3 : (3 <? k)%nat = false) by (apply Nat.ltb_ge; lia).
      rewrite H3. cbn [Spec.preorder Spec.first_with_makefile Spec.holds_makefile].
      destruct (Str.mem "Makefile" (filenames es)); [reflexivity|].
      rewrite Hsub. destruct (3 - k) as [|d] eqn:Hd.
      * assert (H4 : (S k <=? 3)%nat = false) by (apply Nat.leb_gt; lia).
        now rewrite H4.
      * assert (H4 : (S k <=? 3)%nat = true) by (apply Nat.leb_le; lia).
        rewrite H4. now replace (3 - S k) with d by lia.
    + apply Nat.leb_gt in Hk.
      assert (H3 : (3 <? k)%nat = true) by (apply Nat.ltb_lt; lia).
      rewrite H3, Hsub.
      assert (H4 : (S k <=? 3)%nat = false) by (apply Nat.leb_gt; lia).
      now rewrite H4.
Qed.

Lemma find_in_walk_search (t : node) :
  find_in_walk base (os_walk t base) = Spec.search (Spec.preorder 3) t base.
Proof.
  unfold os_walk, Spec.search. destruct (lookup t base) as [n|]; [|reflexivity].
  rewrite <- (app_nil_r (walk base n)).
  rewrite (find_in_walk_node n base 0 []) by lia.
  unfold Spec.accepted. cbn [Nat.leb Nat.sub find_in_walk].
  now destruct (Spec.first_with_makefile _).
Qed.

End Locator.

Section LocatorOrder.

Import Fs.

Local Open Scope list_scope.

Lemma lookup_app (p q : Path) : forall t n,
  lookup t p = Some n -> lookup t (p ++ q) = lookup n q.
Proof.
  induction p as [|x p IH]; intros t n; simpl.
  - now intros [= ->].
  - destruct t as [data|es]; [discriminate|].
    destruct (assoc x es) as [c|]; [apply IH|discriminate].
Qed.

Lemma lookup_app_none (p q : Path) : forall t,
  lookup t p = None -> lookup t (p ++ q) = None.
Proof.
  induction p as [|x p IH]; intros t; simpl; [discriminate|].
  destruct t as [data|es]; [reflexivity|].
  destruct (assoc x es) as [c|]; [apply IH|reflexivity].
Qed.

Lemma assoc_In (A : Type) (k : string) (l : list (string * A)) (v : A) :
  assoc k l = Some v -> In (k, v) l.
Proof.
  induction l as [|[k' v'] l IH]; simpl; [discriminate|].
  destruct (String.eqb k k') eqn:Hk.
  - apply String.eqb_eq in Hk. subst k'. intros [= ->]. now left.
  - intros H. right. now apply IH.
Qed.

Lemma lookup_reaches (rel : Path) : forall n m,
  lookup n rel = Some m -> Spec.reaches n rel m.
Proof.
  induction rel as [|x rel IH]; intros n m; simpl.
  - intros [= ->]. constructor.
  - destruct n as [data|es]; [discriminate|].
    destruct (assoc x es) as [c|] eqn:Hc; [|discriminate].
    intros H. econstructor; [eapply assoc_In, Hc|now apply IH].
Qed.

(** A [Makefile] met under [rel] is an entry of a directory [rel]
    reaches. *)
Lemma makefile_entry (n : node) (rel : Path) :
  exists_ n (rel ++ ["Makefile"]) = true ->
  exists es, Spec.reaches n rel (Dir es) /\ In "Makefile" (map fst es).
Proof.
  unfold exists_. destruct (lookup n rel) as [m|] eqn:Hm.
  - rewrite (lookup_app _ ["Makefile"] _ _ Hm). simpl.
    destruct m as [data|es]; [discriminate|].
    destruct (assoc "Makefile" es) as [c|] eqn:Hc; [|discriminate].
    intros _. exists es. split; [now apply lookup_reaches|].
    apply assoc_In in Hc. change "Makefile" with (fst ("Makefile", c)).
    now apply in_map.
  - now rewrite (lookup_app_none _ _ _ Hm).
Qed.

Lemma filenames_incl (es : list (string * node)) (x : string) :
  In x (filenames es) -> In x (map fst es).
Proof.
  unfold filenames. intros H. apply in_map_iff in H as (e & <- & He).
  apply filter_In in He as [He _]. now apply in_map.
Qed.



Lemma locate_depth_first (t : node) (base : Path) :
  find_makefile t base = Spec.locate (Spec.preorder 3) t base.
Proof.
  unfold find_makefile, Spec.locate, common_subdirs.
  change (Fs.join base "Makefile") with (base ++ ["Makefile"])%list.
  destruct (exists_ t (base ++ ["Makefile"])); [reflexivity|].
  cbn [find_in_subdirs].
  change (Fs.join (Fs.join base "slide/src") "Makefile")
    with ((base ++ ["slide"; "src"]) ++ ["Makefile"])%list.
  change (Fs.join (Fs.join base "src") "Makefile")
    with ((base ++ ["src"]) ++ ["Makefile"])%list.
  change (Fs.join (Fs.join base "slide") "Makefile")
    with ((base ++ ["slide"]) ++ ["Makefile"])%list.
  rewrite <- !app_assoc. cbn [app].
  destruct (exists_ t (base ++ ["slide"; "src"; "Makefile"])); [reflexivity|].
  destruct (exists_ t (base ++ ["src"; "Makefile"])); [reflexivity|].
  destruct (exists_ t (base ++ ["slide"; "Makefile"])); [reflexivity|].
  apply find_in_walk_search.
Qed.

Lemma exists_below (t n : node) (base rel : Path) :
  lookup t base = Some n ->
  exists_ t (base ++ rel) = exists_ n rel.
Proof. intros H. unfold exists_. now rewrite (lookup_app _ rel _ _ H). Qed.



End LocatorOrder.



(* ================================================================== *)
(** ** The copy of a report template *)
(* ================================================================== *)

Section Copy.

Import Fs.

Local Open Scope list_scope.

Lemma is_prefix_exists (t : node) (p q : Path) (n : node) :
  lookup t q = Some n -> lookup t p = None -> is_prefix p q = false.
Proof.
  intros Hq Hp. destruct (is_prefix p q) eqn:Hpq; [|reflexivity].
  destruct (lookup_prefix p t q n Hq Hpq) as [m Hm]. congruence.
Qed.

Lemma filter_all (A : Type) (f : A -> bool) (l : list A) :
  (forall x, In x l -> f x = true) -> filter f l = l.
Proof.
  induction l as [|a l IH]; intros H; [reflexivity|]. simpl.
  rewrite (H a (or_introl eq_refl)). f_equal. apply IH. intros x Hx. apply H. now right.
Qed.

Lemma names_self (es : list (string * node)) :
  filter (fun e => Str.mem (fst e) (map fst es)) es = es.
Proof.
  apply filter_all. intros e He. apply mem_In. now apply in_map.
Qed.

Lemma assoc_filter_names (names : list string) (es : list (string * node))
  (y : string) :
  assoc y (filter (fun e => Str.mem (fst e) names) es)
  = if Str.mem y names then assoc y es else None.
Proof.
  induction es as [|[k v] es IH]; simpl; [now destruct (Str.mem y names)|].
  destruct (Str.mem k names) eqn:Hk; simpl.
  - destruct (String.eqb y k) eqn:Hy; [|exact IH].
    apply String.eqb_eq in Hy. subst k. now rewrite Hk.
  - destruct (String.eqb y k) eqn:Hy; [|exact IH].
    apply String.eqb_eq in Hy. subst k. rewrite IH. now rewrite Hk.
Qed.

Lemma assoc_not_listed (es : list (string * node)) (y : string) :
  Str.mem y (map fst es) = false -> assoc y es = None.
Proof.
  induction es as [|[k v] es IH]; simpl; [reflexivity|].
  destruct (String.eqb y k); simpl; [discriminate|exact IH].
Qed.

Lemma lookup_entry (es : list (string * node)) (y : string) :
  lookup (Dir es) [y] = assoc y es.
Proof. simpl. now destruct (assoc y es). Qed.



(** Two entries of a directory with different names are apart, and so
    is everything below the one from the other. *)
Lemma apart_siblings (p : Path) (x y : string) (rel : Path) :
  y <> x -> apart (p ++ x :: rel) (p ++ [y]).
Proof.
  intros Hxy. induction p as [|a p IH]; simpl.
  - assert (H1 : String.eqb x y = false).
    { apply String.eqb_neq. congruence. }
    assert (H2 : String.eqb y x = false) by now apply String.eqb_neq.
    split; simpl; [now rewrite H1|now rewrite H2].
  - destruct IH as [H1 H2]. split; simpl; rewrite String.eqb_refl; assumption.
Qed.

(** What a copy that succeeds has built.  At the destination is the copy
    of what it listed.  For a destination that is not inside the source
    that is the source, which is left as it was.  For a destination
    inside the source, below its entry [x], it is the source but for
    [x]; and [x] is not listed when it is the destination itself. *)
Lemma copytree_result (ignore : list string -> list string)
  (t t' : node) (src dst : Path) :
  Shutil.copytree ignore t src dst = Some t' ->
  exists es source,
    lookup t src = Some (Dir es) /\
    lookup t dst = None /\
    lookup t' dst = Some (Shutil.copytree_node ignore source) /\
    (is_prefix src dst = false ->
     source = Dir es /\ lookup t' src = Some (Dir es) /\ apart dst src) /\
    (forall x rel, dst = src ++ x :: rel ->
       exists es', source = Dir es' /\
         (forall y, y <> x -> assoc y es' = assoc y es) /\
         (rel = [] -> assoc x es' = None)).
Proof.
  unfold Shutil.copytree.
  destruct (lookup t src) as [[data|es]|] eqn:Hsrc; try discriminate.
  destruct (lookup t dst) as [m|] eqn:Hdst; [discriminate|].
  destruct (mkdir_p t dst) as [t1|] eqn:Hmk; [|discriminate].
  cbv zeta.
  destruct (is_prefix src dst && Shutil.descends ignore _ _); [discriminate|].
  intros Hput. exists es, (Shutil.listed t1 src es).
  split; [reflexivity|]. split; [reflexivity|].
  split; [eapply lookup_put_same, Hput|]. split.
  - intros Hsd.
    assert (Hap : apart dst src).
    { split; [|exact Hsd]. eapply is_prefix_exists; eassumption. }
    assert (H1 : lookup t1 src = Some (Dir es)).
    { now rewrite (lookup_mkdir_apart _ _ _ _ Hmk Hap). }
    assert (Hl : Shutil.listed t1 src es = Dir es).
    { unfold Shutil.listed. rewrite H1. now rewrite names_self. }
    split; [exact Hl|]. split; [|exact Hap].
    now rewrite (lookup_put_apart _ _ _ _ _ Hput Hap).
  - intros x rel ->.
    assert (Hx : rel = [] -> assoc x es = None).
    { intros ->. rewrite (lookup_app _ [x] _ _ Hsrc), lookup_entry in Hdst. exact Hdst. }
    unfold Shutil.listed.
    destruct (lookup t1 src) as [[data|es1]|] eqn:H1;
      [exists es; now repeat split| |exists es; now repeat split].
    eexists. split; [reflexivity|]. split.
    + intros y Hy. rewrite assoc_filter_names.
      destruct (Str.mem y (map fst es)) eqn:Hm;
        [|symmetry; now apply assoc_not_listed].
      rewrite <- !lookup_entry.
      rewrite <- (lookup_app _ [y] _ _ H1), <- (lookup_app _ [y] _ _ Hsrc).
      apply (lookup_mkdir_apart _ _ _ _ Hmk). now apply apart_siblings.
    + intros Hrel. rewrite assoc_filter_names.
      destruct (Str.mem x (map fst es)) eqn:Hm; [|reflexivity].
      specialize (Hx Hrel). apply mem_In in Hm. apply in_map_iff in Hm as ([k v] & Hk & Hin).
      simpl in Hk. subst k. exfalso. clear - Hx Hin.
      induction es as [|[k v'] es IH]; [easy|]. simpl in Hx.
      destruct (String.eqb x k) eqn:Hxk; [discriminate|].
      destruct Hin as [Hin|Hin]; [|now apply IH].
      injection Hin as -> _. now rewrite String.eqb_refl in Hxk.
Qed.

(** Removing the old destination does not touch a source that can still
    be copied afterwards. *)
Lemma rmtree_keeps_source (t t1 : node) (src dst : Path) (n : node) :
  Shutil.rmtree t dst = Some t1 -> apart dst src ->
  lookup t1 src = Some n -> lookup t src = Some n.
Proof.
  unfold Shutil.rmtree. destruct (lookup t dst) as [[data|es]|]; try discriminate.
  intros Hrm Hap H. now rewrite <- (lookup_remove_apart _ _ _ _ Hrm Hap).
Qed.


Context (E : env).


End Copy.




(** C10 on the sample repository: the LaTeX report, no slides, the target
    [/tmp/proj], and [N] between blanks as the last answer. *)
Lemma declined_confirmation_exits_witness :
  exists w',
    main Sample.E NoArguments (Sample.start ["1"; "0"; "/tmp/proj"; " N "])
    = Exited 0 w'
    /\ untouched (Sample.start ["1"; "0"; "/tmp/proj"; " N "]) w'.
Proof.
  assert (Hsel : select_templates_interactive Sample.E
                   (Sample.start ["1"; "0"; "/tmp/proj"; " N "])
                 = Ok (Some "latex_exp", None, None, ["tmp"; "proj"])
                     (final (select_templates_interactive Sample.E
                               (Sample.start ["1"; "0"; "/tmp/proj"; " N "]))))
    by (vm_compute; reflexivity).
  assert (Hin : stdin (final (select_templates_interactive Sample.E
                                (Sample.start ["1"; "0"; "/tmp/proj"; " N "])))
                = [" N "])
    by (vm_compute; reflexivity).
  exact (declined_confirmation_exits Sample.E
           (Sample.start ["1"; "0"; "/tmp/proj"; " N "]) _
           (Some "latex_exp") None None ["tmp"; "proj"] " N " []
           eq_refl Hsel eq_refl Hin eq_refl).
Defined.

(* ================================================================== *)
(** ** The copy stage *)
(* ================================================================== *)

Section CopyStage.

Context (E : env).

(** The copy stage of [main] is the two copies in sequence and the
    verdict on their flags. *)
Lemma copy_stage_copy_all (sel : selection) (w : world) :
  copy_stage E sel w = copy_all E sel w.
Proof.
  destruct sel as [[[r s] p] t].
  unfold copy_stage, copy_all, copy_report, copy_slide, when_set, bind, getitem.
  repeat (cbv beta iota zeta delta [ret raise negb andb]; try reflexivity;
          match goal with
          | |- context [match ?x with _ => _ end] =>
              lazymatch x with
              | copy_template _ _ _ _ _ _ _ _ => destruct x
              | Fs.assoc _ _ => destruct x
              | String.eqb _ _ => destruct x
              | _ => is_var x; destruct x
              end
          end).
Qed.

(** What the stage does with the two flags, and with an exception. *)
Lemma copy_stage_cases (sel : selection) (w0 : world) :
  (forall w1,
     copy_report E sel w0 = Ok false w1 ->
     copy_stage E sel w0
     = match copy_slide E sel w1 with
       | Ok _ w2 => Exited 1 (wrote COPY_FAILED w2)
       | Exited c w2 => Exited c w2
       | Raised e w2 => Raised e w2
       end) /\
  (forall report_ok w1 w2,
     copy_report E sel w0 = Ok report_ok w1 ->
     copy_slide E sel w1 = Ok false w2 ->
     copy_stage E sel w0 = Exited 1 (wrote COPY_FAILED w2)) /\
  (forall w1 w2,
     copy_report E sel w0 = Ok true w1 ->
     copy_slide E sel w1 = Ok true w2 ->
     copy_stage E sel w0 = Ok tt w2) /\
  (forall e w1,
     copy_report E sel w0 = Raised e w1 ->
     copy_stage E sel w0 = Raised e w1) /\
  (forall report_ok e w1 w2,
     copy_report E sel w0 = Ok report_ok w1 ->
     copy_slide E sel w1 = Raised e w2 ->
     copy_stage E sel w0 = Raised e w2).
Proof.
  rewrite copy_stage_copy_all. unfold copy_all, bind.
  split; [|split; [|split; [|split]]].
  - intros w1 ->. now destruct (copy_slide E sel w1) as [[|] w2|c w2|e w2].
  - intros b w1 w2 -> ->. now destruct b.
  - now intros w1 w2 -> ->.
  - now intros e w1 ->.
  - now intros b e w1 w2 -> ->.
Qed.

(** C7, as the script behaves: the copy stage runs the copy of every
    selected template and takes a flag from each copy that returns one:
    when the copy of the report returns [False], the copy of the slides
    is still run, in the world the failed copy left; the stage succeeds
    when both flags are true and ends the run with exit status 1 when
    one is false.  A copy that raises ends the stage at once with its
    exception: after such a copy of the report the copy of the slides is
    not run. *)
Theorem copy_stage_attempts_every_copy (sel : selection) (w0 : world) :
  copy_stage E sel w0 = copy_all E sel w0 /\
  (forall w1,
     copy_report E sel w0 = Ok false w1 ->
     copy_stage E sel w0
     = match copy_slide E sel w1 with
       | Ok _ w2 => Exited 1 (wrote COPY_FAILED w2)
       | Exited c w2 => Exited c w2
       | Raised e w2 => Raised e w2
       end) /\
  (forall report_ok w1 w2,
     copy_report E sel w0 = Ok report_ok w1 ->
     copy_slide E sel w1 = Ok false w2 ->
     copy_stage E sel w0 = Exited 1 (wrote COPY_FAILED w2)) /\
  (forall w1 w2,
     copy_report E sel w0 = Ok true w1 ->
     copy_slide E sel w1 = Ok true w2 ->
     copy_stage E sel w0 = Ok tt w2) /\
  (forall e w1,
     copy_report E sel w0 = Raised e w1 ->
     copy_stage E sel w0 = Raised e w1) /\
  (forall report_ok e w1 w2,
     copy_report E sel w0 = Ok report_ok w1 ->
     copy_slide E sel w1 = Raised e w2 ->
     copy_stage E sel w0 = Raised e w2).
Proof.
  split; [apply copy_stage_copy_all|apply copy_stage_cases].
Qed.

End CopyStage.

(** C7 on the sample repository: [/tmp/proj/report] exists and the
    overwrite is declined; the slides are copied all the same, the old
    report is still there, and the stage ends the run with status 1. *)
Lemma copy_stage_attempts_every_copy_witness :
  exists w',
    copy_stage Sample.E (Some "latex_exp", Some "beamer", None, ["tmp"; "proj"])
      (Sample.start_on Sample.disk_with_report ["n"]) = Exited 1 w'
    /\ Fs.lookup (fs w') ["tmp"; "proj"; "slide"; "slides.tex"]
       = Some (Fs.File "\documentclass{beamer}")
    /\ Fs.lookup (fs w') ["tmp"; "proj"; "report"]
       = Some (Fs.Dir [("old.tex", Fs.File "old")]).
Proof.
  pose (sel := (Some "latex_exp", Some "beamer", @None string, ["tmp"; "proj"]) : selection).
  pose (w0 := Sample.start_on Sample.disk_with_report ["n"]).
  assert (H1 : copy_report Sample.E sel w0
               = Ok false (final (copy_report Sample.E sel w0)))
    by (vm_compute; reflexivity).
  pose proof (proj1 (proj2 (copy_stage_attempts_every_copy Sample.E sel w0)) _ H1) as H.
  exists (final (copy_stage Sample.E sel w0)).
  split; [|split].
  - fold sel w0. rewrite H. vm_compute. reflexivity.
  - vm_compute. reflexivity.
  - vm_compute. reflexivity.
Defined.

(** C7 as the specification words it fails: the report and the beamer
    slides are selected and [/tmp/proj/report] exists.  With no line to
    read at the overwrite prompt the copy of the report raises
    [EOFError]; with the answer [y] and a regular file at
    [/tmp/proj/report] it raises in [shutil.rmtree].  Both times the
    stage ends there, and [/tmp/proj/slide] is never made. *)
Lemma copy_stage_aborts_when_copy_raises :
  (exists w',
     copy_stage Sample.E Sample.both (Sample.start_on Sample.disk_with_report [])
     = Raised EOFError w'
     /\ Fs.lookup (fs w') ["tmp"; "proj"; "slide"] = None)
  /\ (exists w',
        copy_stage Sample.E Sample.both
          (Sample.start_on Sample.disk_with_report_file ["y"])
        = Raised OSError w'
        /\ Fs.lookup (fs w') ["tmp"; "proj"; "slide"] = None)
  /\ (exists w',
        copy_slide Sample.E Sample.both (Sample.start_on Sample.disk_with_report [])
        = Ok true w'
        /\ Fs.lookup (fs w') ["tmp"; "proj"; "slide"; "slides.tex"]
           = Some (Fs.File "\documentclass{beamer}")).
Proof.
  split; [|split]; eexists; (split; [vm_compute; reflexivity|reflexivity]).
Qed.

(* ================================================================== *)
(** ** The build stage and the exit status *)
(* ================================================================== *)

Section Build.

Context (E : env).

Lemma main_after_prepare (a : argv) (w w0 : world) (sel : selection) :
  prepare E a w = Ok sel w0 ->
  main E a w
  = (copy_stage E sel ;; b <- build_stage E sel ;; summary sel b) w0.
Proof. intros H. unfold main. unfold bind at 1. now rewrite H. Qed.

(** Compiling never ends the run. *)
Lemma compile_template_total key info target_path ty (w : world) :
  exists b w', compile_template E key info target_path ty w = Ok b w'
               /\ stdin w' = stdin w.
Proof.
  unfold compile_template, bind, fs_read, run_make, print, write, ret.
  destruct (has_makefile info); cbn [negb]; [|eauto].
  destruct (String.eqb key "ppt"); [eauto|].
  destruct (find_makefile _ _) as [d|]; [|eauto].
  cbn [fs wrote].
  destruct (make E d (fs w)) as [[c o e| |e] t1]; [|eauto|eauto].
  destruct (c =? 0)%Z; [eauto|].
  destruct (String.eqb o ""), (String.eqb e ""); cbn [negb]; eauto.
Qed.




Lemma summary_run (sel : selection) (b : bool) (w : world) :
  summary sel b w = Ok tt (summed_up (snd sel) b w).
Proof. destruct sel as [[[r s] p] t]. now destruct b. Qed.

Lemma summary_differ : ALL_COMPILED <> SOME_FAILED.
Proof. discriminate. Qed.

Lemma append_nl_inj (a b : string) : a ++ Str.nl = b ++ Str.nl -> a = b.
Proof.
  revert b. induction a as [|x a IH]; intros [|y b]; simpl; try easy.
  - destruct b; discriminate.
  - destruct a; discriminate.
  - intros [= -> H]. f_equal. now apply IH.
Qed.

(** The last lines of the output tell the flag of the build stage. *)
Lemma summed_up_reports (t : Path) (b : bool) (w : world) :
  (reported_success (summed_up t b w) <-> b = true) /\
  (reported_failure (summed_up t b w) <-> b = false).
Proof.
  assert (Hout : forall line before,
            stdout (summed_up t b w) = app before [line; (rule ++ Str.nl) ++ Str.nl] ->
            line = (if b then ALL_COMPILED else SOME_FAILED) ++ Str.nl).
  { intros line before. unfold summed_up. cbn [stdout wrote].
    change [line; (rule ++ Str.nl) ++ Str.nl]
      with (app [line] [(rule ++ Str.nl) ++ Str.nl]).
    rewrite app_assoc. intros H. apply app_inj_tail in H as [H _].
    apply app_inj_tail in H as [_ H]. now symmetry. }
  assert (Hhas : exists before,
            stdout (summed_up t b w)
            = app before [(if b then ALL_COMPILED else SOME_FAILED) ++ Str.nl;
                          (rule ++ Str.nl) ++ Str.nl]).
  { eexists. unfold summed_up. cbn [stdout wrote]. rewrite <- app_assoc. reflexivity. }
  split; split.
  - intros [before H]. apply Hout in H. apply append_nl_inj in H.
    destruct b; [reflexivity|]. now destruct summary_differ.
  - intros ->. exact Hhas.
  - intros [before H]. apply Hout in H. apply append_nl_inj in H.
    destruct b; [|reflexivity]. now destruct summary_differ.
  - intros ->. exact Hhas.
Qed.

Lemma no_exit_ret (A : Type) (a : A) : no_exit (ret a).
Proof. intros w c w'. discriminate. Qed.

Lemma no_exit_bind (A B : Type) (m : M A) (k : A -> M B) :
  no_exit m -> (forall a, no_exit (k a)) -> no_exit (bind m k).
Proof.
  intros Hm Hk w c w'. unfold bind.
  destruct (m w) as [a w1|c1 w1|e w1] eqn:H; [apply Hk| |discriminate].
  now destruct (Hm w c1 w1).
Qed.

Lemma no_exit_write (s : string) : no_exit (write s).
Proof. intros w c w'. discriminate. Qed.

Lemma no_exit_print (s : string) : no_exit (print s).
Proof. apply no_exit_write. Qed.

Lemma no_exit_input (s : string) : no_exit (input s).
Proof.
  unfold input. apply no_exit_bind; [apply no_exit_write|].
  intros _ w c w'. destruct (stdin w); discriminate.
Qed.

Lemma no_exit_fs_read (A : Type) (f : Fs.node -> A) : no_exit (fs_read f).
Proof. intros w c w'. discriminate. Qed.

Lemma no_exit_fs_write (f : Fs.node -> option Fs.node) : no_exit (fs_write f).
Proof. intros w c w'. unfold fs_write. destruct (f (fs w)); discriminate. Qed.

Lemma no_exit_getitem (d : list (string * template_info)) (k : string) :
  no_exit (getitem d k).
Proof. intros w c w'. unfold getitem. destruct (Fs.assoc k d); discriminate. Qed.

Lemma no_exit_when_set (A : Type) (o : option string) (k : string -> M A) (m : M A) :
  no_exit m -> (forall s, no_exit (k s)) -> no_exit (when_set o k m).
Proof.
  intros Hm Hk. unfold when_set. destruct o as [s|]; [|exact Hm].
  destruct (String.eqb s ""); [exact Hm|apply Hk].
Qed.

Ltac no_exits :=
  repeat first
    [ apply no_exit_ret
    | apply no_exit_print
    | apply no_exit_write
    | apply no_exit_input
    | apply no_exit_fs_read
    | apply no_exit_fs_write
    | apply no_exit_getitem
    | apply no_exit_when_set; [..|intro]
    | apply no_exit_bind; [..|intro]
    | match goal with
      | H : context [no_exit] |- no_exit _ => apply H
      | |- no_exit (let _ := _ in _) => cbv zeta
      | |- no_exit (match ?x with _ => _ end) => destruct x
      end ].

Lemma no_exit_copy_template key info tp ty is_ppt file :
  no_exit (copy_template E key info tp ty is_ppt file).
Proof. unfold copy_template. no_exits. Qed.





(** A build that is attempted and returns: the flag is the test of the
    exit code, [make] ran once, in the directory located. *)
Lemma compile_template_made (key : string) (info : template_info)
  (target_path : Path) (kind : string) (w : world) (d : Path)
  (c : Z) (o e : string) (t1 : Fs.node) :
  has_makefile info = true -> String.eqb key "ppt" = false ->
  kind = "report" \/ kind = "slide" ->
  find_makefile (fs w) (Fs.join target_path kind) = Some d ->
  make E d (fs w) = (Completed c o e, t1) ->
  exists w',
    compile_template E key info target_path (Some kind) w = Ok (c =? 0)%Z w'
    /\ fs w' = t1 /\ make_log w' = (make_log w ++ [d])%list.
Proof.
  intros Hmk Hkey Hkind Hfind Hmake.
  unfold compile_template, bind, fs_read. rewrite Hmk, Hkey. cbn [negb].
  assert (Hpath : (if is_key (Some kind) "report" then Fs.join target_path "report"
                   else if is_key (Some kind) "slide" then Fs.join target_path "slide"
                   else Fs.join target_path key) = Fs.join target_path kind).
  { now destruct Hkind as [-> | ->]. }
  rewrite Hpath, Hfind. unfold print, write, run_make. cbn [fs wrote].
  rewrite Hmake.
  destruct (c =? 0)%Z; [eexists; repeat split; reflexivity|].
  destruct (String.eqb o ""), (String.eqb e ""); cbn [negb];
    eexists; repeat split; reflexivity.
Qed.

(** The flag of the build stage when both templates are compiled. *)
Lemma build_stage_both (kr ks : string) (p : option string) (t : Path)
  (ir is_ : template_info) (w w3 w4 : world) (b1 b2 : bool) :
  String.eqb kr "" = false -> Fs.assoc kr REPORT_TEMPLATES = Some ir ->
  String.eqb ks "" = false -> String.eqb ks "ppt" = false ->
  Fs.assoc ks SLIDE_TEMPLATES = Some is_ ->
  compile_template E kr ir t (Some "report") (build_announced w) = Ok b1 w3 ->
  compile_template E ks is_ t (Some "slide") w3 = Ok b2 w4 ->
  build_stage E (Some kr, Some ks, p, t) w = Ok (b1 && b2) w4.
Proof.
  intros Hkr Hir Hks Hppt His H1 H2.
  unfold build_stage, bind, print, write, when_set, getitem.
  rewrite Hkr, Hir, Hks, Hppt, His. cbn [negb]. unfold ret at 1.
  unfold build_announced in H1. rewrite H1. unfold ret at 1. unfold ret at 1.
  rewrite H2. unfold ret. now destruct b1, b2.
Qed.

Lemma report_key_with_makefile (kr : string) (ir : template_info) :
  Fs.assoc kr REPORT_TEMPLATES = Some ir -> has_makefile ir = true ->
  String.eqb kr "" = false /\ String.eqb kr "ppt" = false.
Proof.
  simpl. destruct (String.eqb kr "latex_exp") eqn:H1.
  - apply String.eqb_eq in H1. now subst kr.
  - destruct (String.eqb kr "markdown_template"); [|discriminate].
    now intros [= <-].
Qed.

Lemma slide_key_with_makefile (ks : string) (is_ : template_info) :
  Fs.assoc ks SLIDE_TEMPLATES = Some is_ -> has_makefile is_ = true ->
  String.eqb ks "" = false /\ String.eqb ks "ppt" = false.
Proof.
  simpl. destruct (String.eqb ks "beamer") eqn:H1.
  - apply String.eqb_eq in H1. now subst ks.
  - destruct (String.eqb ks "reveal-md") eqn:H2.
    + apply String.eqb_eq in H2. now subst ks.
    + destruct (String.eqb ks "ppt"); [|discriminate]. now intros [= <-].
Qed.

(** C1, as the script behaves: in a flag-mode run that selects a report
    template and a slide template with a build step, in which both copies
    succeed and [make] is run for both and returns, the exit status is 0
    whatever the two exit codes are; the final summary says that every
    template compiled if and only if both exit codes are 0. *)
Theorem exit_status_zero_summary_tells (args : Namespace) (w w0 w1 w2 : world)
  (kr ks : string) (p : option string) (t : Path) (ir is_ : template_info)
  (d1 d2 : Path) (c1 c2 : Z) (o1 e1 o2 e2 : string) (t1 t2 : Fs.node) :
  prepare E (Arguments args) w = Ok (Some kr, Some ks, p, t) w0 ->
  Fs.assoc kr REPORT_TEMPLATES = Some ir -> has_makefile ir = true ->
  Fs.assoc ks SLIDE_TEMPLATES = Some is_ -> has_makefile is_ = true ->
  copy_report E (Some kr, Some ks, p, t) w0 = Ok true w1 ->
  copy_slide E (Some kr, Some ks, p, t) w1 = Ok true w2 ->
  find_makefile (fs w2) (Fs.join t "report") = Some d1 ->
  make E d1 (fs w2) = (Completed c1 o1 e1, t1) ->
  find_makefile t1 (Fs.join t "slide") = Some d2 ->
  make E d2 t1 = (Completed c2 o2 e2, t2) ->
  exists w',
    main E (Arguments args) w = Ok tt w' /\
    exit_status (main E (Arguments args) w) = 0%Z /\
    make_log w' = (make_log w2 ++ [d1; d2])%list /\
    (reported_success w' <-> c1 = 0%Z /\ c2 = 0%Z).
Proof.
  intros Hp Hir Hmr His Hms Hc1 Hc2 Hf1 Hm1 Hf2 Hm2.
  destruct (report_key_with_makefile kr ir Hir Hmr) as [Hkr _].
  destruct (slide_key_with_makefile ks is_ His Hms) as [Hks Hppt].
  pose proof (proj1 (proj2 (proj2 (copy_stage_cases E _ w0)))
                w1 w2 Hc1 Hc2) as Hc.
  destruct (compile_template_made kr ir t "report" (build_announced w2) d1 c1 o1 e1 t1
              Hmr (proj2 (report_key_with_makefile kr ir Hir Hmr))
              (or_introl eq_refl) Hf1 Hm1) as (w3 & Hb1 & Hfs3 & Hlog3).
  rewrite <- Hfs3 in Hf2, Hm2.
  destruct (compile_template_made ks is_ t "slide" w3 d2 c2 o2 e2 t2
              Hms Hppt (or_intror eq_refl) Hf2 Hm2) as (w4 & Hb2 & Hfs4 & Hlog4).
  pose proof (build_stage_both kr ks p t ir is_ w2 w3 w4 _ _
                Hkr Hir Hks Hppt His Hb1 Hb2) as Hb.
  exists (summed_up t ((c1 =? 0)%Z && (c2 =? 0)%Z) w4).
  assert (Hm : main E (Arguments args) w
               = Ok tt (summed_up t ((c1 =? 0)%Z && (c2 =? 0)%Z) w4)).
  { rewrite (main_after_prepare _ w w0 _ Hp). unfold bind. rewrite Hc, Hb.
    apply summary_run. }
  split; [exact Hm|]. rewrite Hm. split; [reflexivity|]. split.
  - cbn [make_log summed_up wrote]. rewrite Hlog4, Hlog3.
    cbn [make_log build_announced wrote]. now rewrite <- app_assoc.
  - rewrite (proj1 (summed_up_reports t _ w4)).
    rewrite andb_true_iff, !Z.eqb_eq. reflexivity.
Qed.

End Build.

(** C1 on the sample repository, where [make] returns 2 for the report
    and 0 for the slides: the run ends with status 0 and does not report
    success. *)
Lemma exit_status_zero_summary_tells_witness :
  exists w',
    main Sample.E Sample.run (Sample.start []) = Ok tt w' /\
    exit_status (main Sample.E Sample.run (Sample.start [])) = 0%Z /\
    (reported_success w' <-> 2%Z = 0%Z /\ 0%Z = 0%Z).
Proof.
  pose (w := Sample.start []).
  pose (w0 := final (prepare Sample.E Sample.run w)).
  pose (w1 := final (copy_report Sample.E Sample.both w0)).
  pose (w2 := final (copy_slide Sample.E Sample.both w1)).
  assert (Hp : prepare Sample.E Sample.run w = Ok Sample.both w0) by (vm_compute; reflexivity).
  assert (H1 : copy_report Sample.E Sample.both w0 = Ok true w1) by (vm_compute; reflexivity).
  assert (H2 : copy_slide Sample.E Sample.both w1 = Ok true w2) by (vm_compute; reflexivity).
  assert (Hf1 : find_makefile (fs w2) (Fs.join ["tmp"; "proj"] "report")
                = Some ["tmp"; "proj"; "report"]) by (vm_compute; reflexivity).
  assert (Hf2 : find_makefile (fs w2) (Fs.join ["tmp"; "proj"] "slide")
                = Some ["tmp"; "proj"; "slide"]) by (vm_compute; reflexivity).
  destruct (exit_status_zero_summary_tells Sample.E Sample.report_and_beamer
              w w0 w1 w2 "latex_exp" "beamer" None ["tmp"; "proj"] Sample.latex_exp Sample.beamer
              ["tmp"; "proj"; "report"] ["tmp"; "proj"; "slide"] 2 0
              "" "make: *** [main.pdf] Error 1" "" "" (fs w2) (fs w2)
              Hp eq_refl eq_refl eq_refl eq_refl H1 H2 Hf1 eq_refl Hf2 eq_refl)
    as (w' & Hm & Hst & _ & Hsum).
  exists w'. split; [exact Hm|]. split; [exact Hst|exact Hsum].
Defined.

(** C1 as stated fails: on the sample repository both copies succeed,
    [make] is run in both directories and returns 2 in the first, and the
    exit status is 0. *)
Lemma exit_status_zero_after_failed_make :
  exit_status (main Sample.E Sample.run (Sample.start [])) = 0%Z
  /\ make_log (final (main Sample.E Sample.run (Sample.start [])))
     = [["tmp"; "proj"; "report"]; ["tmp"; "proj"; "slide"]]
  /\ (forall t, fst (make Sample.E ["tmp"; "proj"; "report"] t)
                = Completed 2 "" "make: *** [main.pdf] Error 1")
  /\ (forall t, fst (make Sample.E ["tmp"; "proj"; "slide"] t) = Completed 0 "" "")
  /\ ~ (exit_status (main Sample.E Sample.run (Sample.start [])) = 0%Z
        <-> (2%Z = 0%Z /\ 0%Z = 0%Z)).
Proof.
  assert (H : exit_status (main Sample.E Sample.run (Sample.start [])) = 0%Z)
    by (vm_compute; reflexivity).
  split; [exact H|]. split; [vm_compute; reflexivity|].
  split; [reflexivity|]. split; [reflexivity|].
  intros [Hiff _]. destruct (Hiff H) as [H2 _]. discriminate.
Qed.


(* ================================================================== *)
(** ** [copy_template]: what a copy touches *)
(* ================================================================== *)

Section CopyTemplate.

Import Fs Obs.

Local Open Scope list_scope.

Lemma is_prefix_refl (p : Path) : is_prefix p p = true.
Proof. induction p as [|x p IH]; simpl; [reflexivity|]. now rewrite String.eqb_refl. Qed.

Lemma is_prefix_app (p q : Path) : is_prefix p (p ++ q) = true.
Proof. induction p as [|x p IH]; simpl; [reflexivity|]. now rewrite String.eqb_refl. Qed.

Lemma is_prefix_trans (a : Path) : forall b c,
  is_prefix a b = true -> is_prefix b c = true -> is_prefix a c = true.
Proof.
  induction a as [|x a IH]; intros [|y b] [|z c]; simpl; try easy.
  intros H1 H2. apply andb_true_iff in H1 as [H1 H1'], H2 as [H2 H2'].
  apply String.eqb_eq in H1, H2. subst. rewrite String.eqb_refl. simpl. eauto.
Qed.

Lemma is_prefix_comparable (a : Path) : forall b p,
  is_prefix a p = true -> is_prefix b p = true ->
  is_prefix a b = true \/ is_prefix b a = true.
Proof.
  induction a as [|x a IH]; intros [|y b] [|z p]; simpl; auto; try easy.
  intros H1 H2. apply andb_true_iff in H1 as [H1 H1'], H2 as [H2 H2'].
  apply String.eqb_eq in H1, H2. subst. rewrite String.eqb_refl. simpl. eauto.
Qed.

(** What is apart from a directory is apart from all that is in it. *)
Lemma apart_under (t p q : Path) :
  is_prefix t p = true -> apart t q -> apart p q.
Proof.
  intros Htp [H1 H2]. split.
  - destruct (is_prefix p q) eqn:Hpq; [|reflexivity].
    now rewrite (is_prefix_trans _ _ _ Htp Hpq) in H1.
  - destruct (is_prefix q p) eqn:Hqp; [|reflexivity].
    destruct (is_prefix_comparable _ _ _ Htp Hqp); congruence.
Qed.

Lemma join_relative (p : Path) (s : string) :
  prefix "/" s = false -> is_prefix p (Fs.join p s) = true.
Proof. intros H. unfold Fs.join. rewrite H. apply is_prefix_app. Qed.

#[export] Instance outside_frame (t : Path) : Frame (outside t).
Proof.
  split; unfold outside.
  - auto.
  - intros w1 w2 w3 H1 H2 q Hq. now rewrite H2, H1.
  - auto.
Qed.

#[export] Instance outside_input (t : Path) : FrameInput (outside t).
Proof. split; unfold outside; auto. Qed.

Lemma keeps_outside_write (t : Path) (f : node -> option node) :
  (forall t0 t1 q, f t0 = Some t1 -> apart t q -> lookup t1 q = lookup t0 q) ->
  keeps (outside t) (fs_write f).
Proof.
  intros Hf w. unfold fs_write. destruct (f (fs w)) as [t1|] eqn:H.
  - intros q Hq. simpl. eapply Hf; eassumption.
  - intros q Hq. reflexivity.
Qed.

Lemma mkdir_p_outside (t p : Path) (t0 t1 : node) (q : Path) :
  is_prefix t p = true -> mkdir_p t0 p = Some t1 -> apart t q ->
  lookup t1 q = lookup t0 q.
Proof. intros Hp H Hq. eapply lookup_mkdir_apart; [exact H|]. eapply apart_under; eassumption. Qed.

Lemma rmtree_outside (t p : Path) (t0 t1 : node) (q : Path) :
  is_prefix t p = true -> Shutil.rmtree t0 p = Some t1 -> apart t q ->
  lookup t1 q = lookup t0 q.
Proof.
  unfold Shutil.rmtree. intros Hp H Hq.
  destruct (lookup t0 p) as [[d|es]|]; try discriminate.
  eapply lookup_remove_apart; [exact H|]. eapply apart_under; eassumption.
Qed.

Lemma copytree_outside (ignore : list string -> list string) (t src p : Path)
  (t0 t1 : node) (q : Path) :
  is_prefix t p = true -> Shutil.copytree ignore t0 src p = Some t1 -> apart t q ->
  lookup t1 q = lookup t0 q.
Proof.
  unfold Shutil.copytree. intros Hp H Hq.
  destruct (lookup t0 src) as [[d|es]|]; try discriminate.
  destruct (lookup t0 p); [discriminate|].
  destruct (mkdir_p t0 p) as [t2|] eqn:Hmk; [|discriminate].
  cbv zeta in H.
  destruct (is_prefix src p && Shutil.descends ignore _ _); [discriminate|].
  pose proof (apart_under _ _ _ Hp Hq) as Hap.
  rewrite (lookup_put_apart _ _ _ _ _ H Hap).
  eapply lookup_mkdir_apart; eassumption.
Qed.

Lemma copy2_outside (t src p : Path) (t0 t1 : node) (q : Path) :
  is_prefix t p = true -> Shutil.copy2 t0 src p = Some t1 -> apart t q ->
  lookup t1 q = lookup t0 q.
Proof.
  unfold Shutil.copy2. intros Hp H Hq.
  destruct (lookup t0 src) as [[data|es]|]; try discriminate.
  set (dst := match lookup t0 p with
              | Some (Dir _) => p ++ [Shutil.basename src]
              | _ => p
              end) in *.
  assert (Hd : is_prefix t dst = true).
  { subst dst. destruct (lookup t0 p) as [[d|es]|]; try exact Hp.
    eapply is_prefix_trans; [exact Hp|apply is_prefix_app]. }
  destruct (Shutil.path_eqb src dst); [discriminate|].
  pose proof (apart_under _ _ _ Hd Hq) as Hap.
  destruct (lookup t0 dst) as [[d|es]|]; try discriminate;
    eapply lookup_put_apart; eassumption.
Qed.

Context (E : env).

Lemma destination_under (t : Path) (ty : option string) (key : string) :
  ty = Some "report" \/ ty = Some "slide" ->
  is_prefix t (destination t ty key) = true.
Proof. intros [-> | ->]; apply (is_prefix_app t). Qed.

(** X3: a copy for [main] changes nothing outside the target directory,
    however it ends: every path that is neither inside the target nor one
    of its ancestors holds after the call what it held before; the
    template repository is such a path when the target is elsewhere.
    This for a target and a relative file name without [".."]. *)
Theorem copy_template_stays_in_target (key : string) (info : template_info)
  (target_path : Path) (ty : option string) (is_ppt : bool)
  (file : option string) (w : world) :
  ty = Some "report" \/ ty = Some "slide" ->
  prefix "/" (format_opt file) = false ->
  normal (target_path ++ Fs.split (format_opt file)) = true ->
  outside target_path w
    (final (copy_template E key info target_path ty is_ppt file w)).
Proof.
  intros Hty Hfile _.
  assert (Hslide : is_prefix target_path (Fs.join target_path "slide") = true)
    by apply (is_prefix_app target_path).
  assert (Hdst : is_prefix target_path (destination target_path ty key) = true)
    by now apply destination_under.
  revert w. change (keeps (outside target_path)
                      (copy_template E key info target_path ty is_ppt file)).
  unfold copy_template. fold (destination target_path ty key).
  assert (K1 : keeps (outside target_path)
                 (fs_write (fun t => mkdir_p t (Fs.join target_path "slide")))).
  { apply keeps_outside_write. intros t0 t1 q H Hq.
    eapply (mkdir_p_outside target_path); [exact Hslide|exact H|exact Hq]. }
  assert (K2 : forall src, keeps (outside target_path)
                 (fs_write (fun t => Shutil.copy2 t src
                                       (Fs.join (Fs.join target_path "slide")
                                          (format_opt file))))).
  { intros src. apply keeps_outside_write. intros t0 t1 q H Hq.
    eapply copy2_outside; [|exact H|exact Hq].
    eapply is_prefix_trans; [exact Hslide|now apply join_relative]. }
  assert (K3 : keeps (outside target_path)
                 (fs_write (fun t => Shutil.rmtree t (destination target_path ty key)))).
  { apply keeps_outside_write. intros t0 t1 q H Hq.
    eapply (rmtree_outside target_path); [exact Hdst|exact H|exact Hq]. }
  assert (K4 : forall src, keeps (outside target_path)
                 (fs_write (fun t => Shutil.copytree (Shutil.ignore_patterns IGNORED)
                                       t src (destination target_path ty key)))).
  { intros src. apply keeps_outside_write. intros t0 t1 q H Hq.
    eapply (copytree_outside _ target_path); [exact Hdst|exact H|exact Hq]. }
  frame.
Qed.

End CopyTemplate.

(** X3 on the sample repository: the copy of the beamer template into
    [/tmp/proj] leaves the repository as it was. *)
Lemma copy_template_stays_in_target_witness :
  Fs.lookup
    (fs (final (copy_template Sample.E "beamer" Sample.beamer ["tmp"; "proj"]
                  (Some "slide") false None (Sample.start []))))
    ["repo"]
  = Some Sample.repo.
Proof.
  exact (copy_template_stays_in_target Sample.E "beamer" Sample.beamer ["tmp"; "proj"]
           (Some "slide") false None (Sample.start [])
           (or_intror eq_refl) eq_refl eq_refl ["repo"] (conj eq_refl eq_refl)).
Defined.

Section CopyOutcomes.

Import Fs Obs.

Local Open Scope list_scope.

Context (E : env).

(** X1: a copy that returns [False] has changed nothing: the file system
    and the log of [make] are as before.  That is the case in particular
    when the destination exists and the answer to the overwrite prompt is
    anything that [strip] and [lower] do not turn into [y]: the old
    destination stays as it is. *)
Theorem copy_template_false_untouched (key : string) (info : template_info)
  (target_path : Path) (ty : option string) (is_ppt : bool)
  (file : option string) (w : world) :
  (forall w',
     copy_template E key info target_path ty is_ppt file w = Ok false w' ->
     untouched w w') /\
  (forall answer rest,
     exists_ (fs w) (Fs.join (SCRIPT_DIR E) (path info)) = true ->
     is_ppt && Str.truthy file = false ->
     exists_ (fs w) (destination target_path ty key) = true ->
     stdin w = answer :: rest ->
     String.eqb (Str.lower (Str.strip answer)) "y" = false ->
     exists w',
       copy_template E key info target_path ty is_ppt file w = Ok false w'
       /\ untouched w w' /\ stdin w' = rest).
Proof.
  split.
  - unfold copy_template, bind, fs_read. fold (destination target_path ty key).
    intros w'.
    destruct (exists_ (fs w) (Fs.join (SCRIPT_DIR E) (path info))); cbn [negb];
      [|intros [= <-]; now split].
    destruct (is_ppt && Str.truthy file).
    + destruct (exists_ (fs w) _); cbn [negb]; [|intros [= <-]; now split].
      unfold fs_write at 1.
      destruct (mkdir_p (fs w) _) as [t1|]; [|discriminate].
      unfold fs_write. cbn [fs on_disk].
      destruct (Shutil.copy2 t1 _ _); discriminate.
    + destruct (exists_ (fs w) (destination target_path ty key)).
      * unfold input, bind, write. cbn [stdin wrote].
        destruct (stdin w) as [|answer rest]; [discriminate|].
        destruct (negb (String.eqb (Str.lower (Str.strip answer)) "y")).
        -- intros [= <-]. now split.
        -- unfold fs_write at 1. cbn [fs consumed wrote].
           destruct (Shutil.rmtree (fs w) _) as [t1|]; [|discriminate].
           cbn [negb ret]. unfold fs_write. cbn [fs on_disk].
           destruct (Shutil.copytree _ t1 _ _); discriminate.
      * cbn [negb ret]. unfold fs_write.
        destruct (Shutil.copytree _ (fs w) _ _); discriminate.
  - intros answer rest Hsrc Hppt Hdst Hin Hno.
    unfold copy_template, bind, fs_read. fold (destination target_path ty key).
    rewrite Hsrc, Hppt. cbn [negb ret]. cbv beta iota. rewrite Hdst.
    unfold input, bind, write. cbn [stdin wrote]. rewrite Hin, Hno. cbn [negb].
    eexists. split; [reflexivity|]. split; [now split|reflexivity].
Qed.

(** X2: a directory template that is copied (any kind, any key) is at its
    destination the source tree without the excluded names, whatever the
    destination held before an accepted overwrite; the source is
    unchanged.  This for a destination that is not inside the template,
    and paths without [".."]. *)
Theorem copy_template_directory_filtered (key : string) (info : template_info)
  (target_path : Path) (ty : option string) (is_ppt : bool)
  (file : option string) (w w' : world) :
  is_ppt && Str.truthy file = false ->
  normal (Fs.join (SCRIPT_DIR E) (path info)) = true ->
  normal (destination target_path ty key) = true ->
  is_prefix (Fs.join (SCRIPT_DIR E) (path info)) (destination target_path ty key)
  = false ->
  copy_template E key info target_path ty is_ppt file w = Ok true w' ->
  exists es,
    lookup (fs w) (Fs.join (SCRIPT_DIR E) (path info)) = Some (Dir es) /\
    lookup (fs w') (destination target_path ty key)
    = Some (Spec.minus_excluded (Dir es)) /\
    lookup (fs w') (Fs.join (SCRIPT_DIR E) (path info)) = Some (Dir es).
Proof.
  intros Hppt _ _ Hsd.
  unfold copy_template, bind, fs_read. fold (destination target_path ty key).
  rewrite Hppt.
  destruct (exists_ (fs w) (Fs.join (SCRIPT_DIR E) (path info))); cbn [negb ret];
    [|discriminate].
  destruct (exists_ (fs w) (destination target_path ty key)).
  - unfold input, bind, write. cbn [stdin wrote].
    destruct (stdin w) as [|answer rest]; [discriminate|].
    destruct (negb (String.eqb (Str.lower (Str.strip answer)) "y")); [discriminate|].
    unfold fs_write at 1. cbn [fs consumed wrote].
    destruct (Shutil.rmtree (fs w) _) as [t1|] eqn:Hrm; [|discriminate].
    cbn [negb ret]. unfold fs_write. cbn [fs on_disk].
    destruct (Shutil.copytree _ t1 _ _) as [t2|] eqn:Hcp; [|discriminate].
    intros [= <-]. cbn [fs wrote on_disk].
    apply copytree_result in Hcp as (es & source & H1 & _ & H2 & H3 & _).
    destruct (H3 Hsd) as (Hs & Hk & Hap). subst source.
    exists es. rewrite <- copytree_minus_excluded.
    split; [|now split]. eapply rmtree_keeps_source; eassumption.
  - cbn [negb ret]. unfold fs_write.
    destruct (Shutil.copytree _ (fs w) _ _) as [t2|] eqn:Hcp; [|discriminate].
    intros [= <-]. cbn [fs wrote on_disk].
    apply copytree_result in Hcp as (es & source & H1 & _ & H2 & H3 & _).
    destruct (H3 Hsd) as (Hs & Hk & Hap). subst source.
    exists es. rewrite <- copytree_minus_excluded. now repeat split.
Qed.

End CopyOutcomes.

(** X1 on the sample repository: [/tmp/proj/report] exists and the
    answer is [No]; the old report is still there. *)
Lemma copy_template_false_untouched_witness :
  exists w',
    copy_template Sample.E "latex_exp" Sample.latex_exp ["tmp"; "proj"]
      (Some "report") false None (Sample.start_on Sample.disk_with_report [" No "])
    = Ok false w'
    /\ fs w' = Sample.disk_with_report.
Proof.
  destruct (proj2 (copy_template_false_untouched Sample.E "latex_exp" Sample.latex_exp
                     ["tmp"; "proj"] (Some "report") false None
                     (Sample.start_on Sample.disk_with_report [" No "]))
              " No " [] eq_refl eq_refl eq_refl eq_refl eq_refl)
    as (w' & Hrun & _ & _).
  exists w'. split; [exact Hrun|].
  exact (proj1 (proj1 (copy_template_false_untouched Sample.E "latex_exp"
                         Sample.latex_exp ["tmp"; "proj"] (Some "report") false None
                         (Sample.start_on Sample.disk_with_report [" No "]))
                  w' Hrun)).
Defined.

(** X2 on the sample repository: the beamer template copied without a
    kind, over an old [/tmp/proj/beamer] that the answer [y] gives up. *)
Lemma copy_template_directory_filtered_witness :
  exists w',
    copy_template Sample.E "beamer" Sample.beamer ["tmp"; "proj"]
      None false None (Sample.start_on Sample.disk_with_beamer ["y"])
    = Ok true w'
    /\ Fs.lookup (fs w') ["tmp"; "proj"; "beamer"]
       = Some (Fs.Dir [ ("Makefile", Fs.File "all: slides.pdf");
                        ("slides.tex", Fs.File "\documentclass{beamer}") ]).
Proof.
  pose (w := Sample.start_on Sample.disk_with_beamer ["y"]).
  pose (r := copy_template Sample.E "beamer" Sample.beamer ["tmp"; "proj"]
               None false None w).
  assert (Hrun : r = Ok true (final r)) by (vm_compute; reflexivity).
  exists (final r). split; [exact Hrun|].
  destruct (copy_template_directory_filtered Sample.E "beamer" Sample.beamer
              ["tmp"; "proj"] None false None w (final r) eq_refl eq_refl eq_refl
              eq_refl Hrun)
    as (es & H1 & H2 & _).
  injection H1 as <-. exact H2.
Defined.

Section CopyPowerPoint.

Import Fs Obs.

Local Open Scope list_scope.

(** [mkdir -p] changes nothing below the directory it makes. *)
Lemma mkdir_p_below (p : Path) : forall t t' x rel,
  mkdir_p t p = Some t' ->
  lookup t' (p ++ x :: rel) = lookup t (p ++ x :: rel).
Proof.
  induction p as [|y p IH]; intros [data|es] t' x rel; simpl; try discriminate.
  - now intros [= <-].
  - destruct (assoc y es) as [c|] eqn:Hc.
    + destruct (mkdir_p c p) as [c'|] eqn:Hmk; [|discriminate].
      intros [= <-]. cbn [lookup]. rewrite assoc_set_same. now apply IH.
    + intros [= <-]. cbn [lookup]. rewrite assoc_set_same, lookup_fresh.
      assert (H : is_prefix (p ++ x :: rel) p = false).
      { clear. induction p as [|z p IH]; simpl; [reflexivity|].
        now rewrite String.eqb_refl. }
      now rewrite H.
Qed.

(** [mkdir -p] makes no regular file. *)
Lemma mkdir_p_no_new_file (p : Path) : forall t t' q data,
  mkdir_p t p = Some t' -> lookup t' q = Some (File data) ->
  lookup t q = Some (File data).
Proof.
  induction p as [|y p IH]; intros [d|es] t' q data; simpl; try discriminate.
  - now intros [= <-].
  - destruct q as [|x q]; [destruct (assoc y es) as [c|];
      [destruct (mkdir_p c p)|]; intros [= <-]; discriminate|].
    destruct (String.eqb y x) eqn:Hyx.
    + apply String.eqb_eq in Hyx. subst x.
      destruct (assoc y es) as [c|] eqn:Hc.
      * destruct (mkdir_p c p) as [c'|] eqn:Hmk; [|discriminate].
        intros [= <-]. cbn [lookup]. rewrite assoc_set_same, Hc. now apply IH.
      * intros [= <-]. cbn [lookup]. rewrite assoc_set_same, lookup_fresh.
        destruct (is_prefix q p); [|discriminate].
        destruct (skipn (length q) p); simpl; discriminate.
    + apply String.eqb_neq in Hyx.
      destruct (assoc y es) as [c|].
      * destruct (mkdir_p c p) as [c'|]; [|discriminate].
        intros [= <-]. cbn [lookup]. now rewrite assoc_set_other.
      * intros [= <-]. cbn [lookup]. now rewrite assoc_set_other.
Qed.

Context (E : env).

(** X4: a PowerPoint template that is copied is, at
    [<target>/slide/<name>], a regular file with the content of the
    template of that name; this for a plain file name and a target
    without [".."], where [<target>/slide/<name>] is not already a
    directory. *)
Theorem copy_template_ppt_file (key : string) (info : template_info)
  (target_path : Path) (ty : option string) (name : string) (w w' : world) :
  Fs.split name = [name] -> prefix "/" name = false ->
  normal (target_path ++ ["slide"; name]) = true ->
  (forall es, lookup (fs w) (target_path ++ ["slide"; name]) <> Some (Dir es)) ->
  copy_template E key info target_path ty true (Some name) w = Ok true w' ->
  exists data,
    lookup (fs w) (Fs.join (SCRIPT_DIR E) (path info) ++ [name]) = Some (File data)
    /\ lookup (fs w') (target_path ++ ["slide"; name]) = Some (File data).
Proof.
  intros Hsplit Habs _ Hnodir.
  assert (Hname : String.eqb name "" = false).
  { destruct (String.eqb name "") eqn:H; [|reflexivity].
    apply String.eqb_eq in H. subst name. discriminate. }
  unfold copy_template, bind, fs_read. cbn [andb Str.truthy format_opt].
  rewrite Hname. cbn [negb].
  rewrite !(join_name _ name Hsplit Habs).
  change (Fs.join target_path "slide") with (target_path ++ ["slide"]).
  rewrite <- (app_assoc target_path ["slide"] [name]). cbn [app].
  set (src := Fs.join (SCRIPT_DIR E) (path info)).
  destruct (exists_ (fs w) src); cbn [negb ret]; [|discriminate].
  destruct (exists_ (fs w) (src ++ [name])); cbn [negb]; [|discriminate].
  unfold fs_write at 1.
  destruct (mkdir_p (fs w) (target_path ++ ["slide"])) as [t1|] eqn:Hmk; [|discriminate].
  unfold fs_write. cbn [fs on_disk].
  destruct (Shutil.copy2 t1 (src ++ [name]) (target_path ++ ["slide"; name]))
    as [t2|] eqn:Hcp; [|discriminate].
  intros [= <-]. cbn [fs wrote on_disk].
  unfold Shutil.copy2 in Hcp.
  destruct (lookup t1 (src ++ [name])) as [[data|es]|] eqn:Hsrc; try discriminate.
  exists data. split; [eapply mkdir_p_no_new_file; eassumption|].
  assert (Hdst : lookup t1 (target_path ++ ["slide"; name])
                 = lookup (fs w) (target_path ++ ["slide"; name])).
  { change (target_path ++ ["slide"; name])
      with (target_path ++ ["slide"] ++ [name]).
    rewrite app_assoc. now apply mkdir_p_below. }
  rewrite Hdst in Hcp.
  destruct (lookup (fs w) (target_path ++ ["slide"; name])) as [[d|es]|] eqn:Hold;
    [| now destruct (Hnodir es) |].
  - destruct (Shutil.path_eqb _ _); [discriminate|]. rewrite Hdst in Hcp.
    eapply lookup_put_same, Hcp.
  - destruct (Shutil.path_eqb _ _); [discriminate|]. rewrite Hdst in Hcp.
    eapply lookup_put_same, Hcp.
Qed.

End CopyPowerPoint.

(** X4 on the sample repository: [simple.pptx] copied into
    [/tmp/proj/slide]. *)
Lemma copy_template_ppt_file_witness :
  exists w',
    copy_template Sample.E "ppt"
      {| name := "PowerPoint 模板"; path := "PPT/templates";
         has_makefile := false; makefile_path := None |}
      ["tmp"; "proj"] (Some "slide") true (Some "simple.pptx") (Sample.start [])
    = Ok true w'
    /\ Fs.lookup (fs w') ["tmp"; "proj"; "slide"; "simple.pptx"]
       = Some (Fs.File "PK2").
Proof.
  pose (info := {| name := "PowerPoint 模板"; path := "PPT/templates";
                   has_makefile := false; makefile_path := None |}).
  pose (r := copy_template Sample.E "ppt" info ["tmp"; "proj"] (Some "slide") true
               (Some "simple.pptx") (Sample.start [])).
  assert (Hrun : r = Ok true (final r)) by (vm_compute; reflexivity).
  exists (final r). split; [exact Hrun|].
  destruct (copy_template_ppt_file Sample.E "ppt" info ["tmp"; "proj"] (Some "slide")
              "simple.pptx" (Sample.start []) (final r) eq_refl eq_refl eq_refl
              ltac:(intros es; discriminate) Hrun)
    as (data & H1 & H2).
  injection H1 as <-. exact H2.
Defined.

(* ================================================================== *)
(** ** [find_makefile]: what is found *)
(* ================================================================== *)

Section Found.

Import Fs Obs.

Local Open Scope list_scope.

Lemma preorder_reaches_path (n : node) : forall d root p m,
  In (p, m) (Spec.preorder d root n) ->
  exists rel, p = root ++ rel /\ length rel <= d /\ Spec.reaches n rel m.
Proof.
  induction n as [data|es IH] using node_induction; intros d root p m; simpl.
  - intros [].
  - intros [[= <- <-]|Hin].
    + exists []. split; [now rewrite app_nil_r|]. split; [simpl; lia|constructor].
    + destruct d as [|d]; [destruct Hin|].
      assert (Hsub : forall l, incl l es ->
                In (p, m)
                  ((fix sub (l : list (string * node)) : list (Path * node) :=
                      match l with
                      | [] => []
                      | (name, c) :: l' =>
                          (Spec.preorder d (root ++ [name]) c ++ sub l')%list
                      end) l) ->
                exists rel, p = root ++ rel /\ length rel <= S d
                            /\ Spec.reaches (Dir es) rel m).
      { induction l as [|[x c] l IHl]; intros Hincl Hl; [destruct Hl|].
        apply in_app_or in Hl as [Hl|Hl].
        - assert (Hc : In (x, c) es) by (apply Hincl; now left).
          rewrite Forall_forall in IH. specialize (IH _ Hc). cbn [snd] in IH.
          destruct (IH _ _ _ _ Hl) as (rel & -> & Hlen & Hr).
          exists (x :: rel). split; [now rewrite <- app_assoc|].
          split; [simpl; lia|]. econstructor; eassumption.
        - apply IHl; [|exact Hl]. intros e He. apply Hincl. now right. }
      apply (Hsub es (incl_refl es) Hin).
Qed.

Lemma first_with_makefile_some (l : list (Path * node)) (p : Path) :
  Spec.first_with_makefile l = Some p ->
  exists m, In (p, m) l /\ Spec.holds_makefile m = true.
Proof.
  induction l as [|[q m] l IH]; simpl; [discriminate|].
  destruct (Spec.holds_makefile m) eqn:Hm.
  - intros [= ->]. exists m. auto.
  - intros H. destruct (IH H) as (m' & Hin & Hm'). exists m'. auto.
Qed.

Lemma makefile_under (t : node) (base rel : Path) :
  exists_ t (base ++ rel ++ ["Makefile"]) = true ->
  exists n es, lookup t base = Some n /\ Spec.reaches n rel (Dir es)
               /\ In "Makefile" (map fst es).
Proof.
  intros H. destruct (lookup t base) as [n|] eqn:Hn.
  - rewrite (exists_below _ _ _ _ Hn) in H.
    apply makefile_entry in H as (es & Hr & Hin). eauto.
  - unfold exists_ in H. now rewrite (lookup_app_none _ _ _ Hn) in H.
Qed.

(** X5: the directory the locator returns is the root of the copied
    template or a directory at most 3 levels below it that the tree
    reaches by that path, and it has an entry named [Makefile]: [make]
    is never started outside the copied template.  This for a root that
    is not the root [/] of the file system, as the destination of a copy
    is. *)
Theorem find_makefile_sound (t : node) (base d : Path) :
  base <> [] ->
  find_makefile t base = Some d ->
  exists n rel es,
    lookup t base = Some n /\ d = base ++ rel /\ length rel <= 3 /\
    Spec.reaches n rel (Dir es) /\ In "Makefile" (map fst es).
Proof.
  intros _. rewrite locate_depth_first. unfold Spec.locate.
  destruct (exists_ t (base ++ ["Makefile"])) eqn:H0.
  { intros [= <-]. destruct (makefile_under t base [] H0) as (n & es & Hn & Hr & Hin).
    exists n, [], es. rewrite app_nil_r. repeat split; auto; simpl; lia. }
  destruct (exists_ t (base ++ ["slide"; "src"; "Makefile"])) eqn:H1.
  { intros [= <-].
    destruct (makefile_under t base ["slide"; "src"] H1) as (n & es & Hn & Hr & Hin).
    exists n, ["slide"; "src"], es. repeat split; auto; simpl; lia. }
  destruct (exists_ t (base ++ ["src"; "Makefile"])) eqn:H2.
  { intros [= <-].
    destruct (makefile_under t base ["src"] H2) as (n & es & Hn & Hr & Hin).
    exists n, ["src"], es. repeat split; auto; simpl; lia. }
  destruct (exists_ t (base ++ ["slide"; "Makefile"])) eqn:H3.
  { intros [= <-].
    destruct (makefile_under t base ["slide"] H3) as (n & es & Hn & Hr & Hin).
    exists n, ["slide"], es. repeat split; auto; simpl; lia. }
  unfold Spec.search. destruct (lookup t base) as [n|]; [|discriminate].
  intros H. apply first_with_makefile_some in H as (m & Hin & Hm).
  apply preorder_reaches_path in Hin as (rel & -> & Hlen & Hr).
  destruct m as [data|es]; [discriminate|]. simpl in Hm.
  apply mem_In, filenames_incl in Hm.
  exists n, rel, es. auto.
Qed.

End Found.

(** X5 on the tree with a [Makefile] in [a/b] and another in [c]. *)
Lemma find_makefile_sound_witness :
  exists n rel es,
    Fs.lookup Sample.two_makefiles ["proj"; "slide"] = Some n
    /\ ["proj"; "slide"; "a"; "b"] = (["proj"; "slide"] ++ rel)%list
    /\ length rel <= 3
    /\ Spec.reaches n rel (Fs.Dir es) /\ In "Makefile" (map fst es).
Proof.
  exact (find_makefile_sound Sample.two_makefiles ["proj"; "slide"]
           ["proj"; "slide"; "a"; "b"] ltac:(discriminate) eq_refl).
Defined.

(* ================================================================== *)
(** ** [compile_template]: what a build does *)
(* ================================================================== *)

Section Compile.

Import Obs.

Context (E : env).


(** X7: the flag of a build is [True] exactly when the template has no
    build step, or its key is [ppt], or a [Makefile] was located and
    [make], run there, returned exit code 0. *)
Theorem compile_template_flag (key : string) (info : template_info)
  (target_path : Path) (ty : option string) (w w' : world) (b : bool) :
  compile_template E key info target_path ty w = Ok b w' ->
  (b = true <->
   has_makefile info = false \/ key = "ppt" \/
   exists d o e,
     find_makefile (fs w) (destination target_path ty key) = Some d /\
     fst (make E d (fs w)) = Completed 0 o e).
Proof.
  unfold compile_template, bind, fs_read, run_make, print, write, ret.
  fold (destination target_path ty key).
  destruct (has_makefile info) eqn:Hmk; cbn [negb];
    [|intros [= <- _]; split; auto].
  destruct (String.eqb key "ppt") eqn:Hk.
  { apply String.eqb_eq in Hk. intros [= <- _]. split; auto. }
  apply String.eqb_neq in Hk.
  destruct (find_makefile (fs w) (destination target_path ty key)) as [d|] eqn:Hd.
  2:{ intros [= <- _]. split; [discriminate|].
      intros [H|[H|(d & o & e & H & _)]]; congruence. }
  cbn [fs wrote].
  destruct (make E d (fs w)) as [[c o e| |e] t1] eqn:Hm; cbn [fst].
  - destruct (c =? 0)%Z eqn:Hc.
    + apply Z.eqb_eq in Hc. subst c. intros [= <- _]. split; [|reflexivity].
      intros _. right. right. exists d, o, e. rewrite Hm. auto.
    + apply Z.eqb_neq in Hc.
      assert (Hno : ~ (has_makefile info = false \/ key = "ppt" \/
                       exists d0 o0 e0,
                         Some d = Some d0 /\
                         fst (make E d0 (fs w)) = Completed 0 o0 e0)).
      { intros [H|[H|(d0 & o0 & e0 & Hd0 & H)]]; try congruence.
        injection Hd0 as <-. rewrite Hm in H. cbn [fst] in H. congruence. }
      rewrite Hmk in Hno.
      destruct (String.eqb o ""), (String.eqb e ""); cbn [negb];
        intros [= <- _]; (split; [discriminate|intros H; now destruct (Hno H)]).
  - intros [= <- _]. split; [discriminate|].
    intros [H|[H|(d0 & o0 & e0 & Hd0 & H)]]; try congruence.
    injection Hd0 as <-. rewrite Hm in H. discriminate.
  - intros [= <- _]. split; [discriminate|].
    intros [H|[H|(d0 & o0 & e0 & Hd0 & H)]]; try congruence.
    injection Hd0 as <-. rewrite Hm in H. discriminate.
Qed.

End Compile.


(** X7 on a copied reveal-md template, where [make] succeeds. *)
Lemma compile_template_flag_witness :
  true = true <->
  has_makefile Sample.reveal_md = false \/ "reveal-md" = "ppt" \/
  exists d o e,
    find_makefile (fs (Sample.start_on Sample.reveal_copy []))
      (Obs.destination ["proj"] (Some "slide") "reveal-md") = Some d /\
    fst (make Sample.E d (fs (Sample.start_on Sample.reveal_copy [])))
    = Completed 0 o e.
Proof.
  pose (r := compile_template Sample.E "reveal-md" Sample.reveal_md ["proj"]
               (Some "slide") (Sample.start_on Sample.reveal_copy [])).
  assert (Hrun : r = Ok true (final r)) by (vm_compute; reflexivity).
  exact (compile_template_flag Sample.E "reveal-md" Sample.reveal_md ["proj"]
           (Some "slide") (Sample.start_on Sample.reveal_copy []) (final r) true Hrun).
Defined.

(* ================================================================== *)
(** ** [main]: the exit status *)
(* ================================================================== *)

Section ExitStatus.

Import Obs.

Context (P : Z -> Prop).

Lemma exits_with_no_exit (A : Type) (m : M A) : no_exit m -> exits_with P m.
Proof. intros H w c w' Hm. now destruct (H w c w'). Qed.

Lemma exits_with_ret (A : Type) (a : A) : exits_with P (ret a).
Proof. apply exits_with_no_exit, no_exit_ret. Qed.

Lemma exits_with_bind (A B : Type) (m : M A) (k : A -> M B) :
  exits_with P m -> (forall a, exits_with P (k a)) -> exits_with P (bind m k).
Proof.
  intros Hm Hk w c w'. unfold bind.
  destruct (m w) as [a w1|c1 w1|e w1] eqn:H; [apply Hk| |discriminate].
  intros [= <- _]. eapply Hm, H.
Qed.

Lemma exits_with_exit (A : Type) (c : Z) : P c -> exits_with P (@sys_exit A c).
Proof. intros Hc w c' w' [= <- _]. exact Hc. Qed.

Lemma exits_with_raise (A : Type) (e : exn) : exits_with P (@raise A e).
Proof. intros w c w' H. discriminate. Qed.

Lemma exits_with_resolved (E : env) (s : string) : exits_with P (resolved E s).
Proof.
  unfold resolved. destruct (resolve E s); [apply exits_with_ret|apply exits_with_raise].
Qed.

Lemma exits_with_when_set (A : Type) (o : option string) (k : string -> M A)
  (m : M A) :
  exits_with P m -> (forall s, exits_with P (k s)) -> exits_with P (when_set o k m).
Proof.
  intros Hm Hk. unfold when_set. destruct o as [s|]; [|exact Hm].
  destruct (String.eqb s ""); [exact Hm|apply Hk].
Qed.

Lemma exits_with_print_enumerated (l : list string) : forall i,
  exits_with P (print_enumerated i l).
Proof.
  induction l as [|x l IH]; intros i; simpl.
  - apply exits_with_ret.
  - apply exits_with_bind; [apply exits_with_no_exit, no_exit_print|intros _; apply IH].
Qed.

End ExitStatus.

(** Take a computation apart along its structure; what is left is that
    the codes passed to [sys.exit] are as required. *)
Ltac exits :=
  repeat first
    [ apply exits_with_ret
    | apply exits_with_no_exit, no_exit_print
    | apply exits_with_no_exit, no_exit_write
    | apply exits_with_no_exit, no_exit_input
    | apply exits_with_no_exit, no_exit_fs_read
    | apply exits_with_no_exit, no_exit_fs_write
    | apply exits_with_no_exit, no_exit_getitem
    | apply exits_with_no_exit, no_exit_copy_template
    | apply exits_with_print_enumerated
    | apply exits_with_raise
    | apply exits_with_resolved
    | apply exits_with_exit
    | apply exits_with_when_set; [..|intro]
    | apply exits_with_bind; [..|intro]
    | match goal with
      | H : context [Obs.exits_with] |- Obs.exits_with _ _ => apply H
      | |- Obs.exits_with _ (let _ := _ in _) => cbv zeta
      | |- Obs.exits_with _ (match ?x with _ => _ end) => destruct x
      end ].

Section MainExits.

Import Obs.

Context (E : env).

Lemma exits_with_compile (P : Z -> Prop) key info target_path ty :
  exits_with P (compile_template E key info target_path ty).
Proof.
  intros w c w' H.
  destruct (compile_template_total E key info target_path ty w) as (b & w1 & H1 & _).
  congruence.
Qed.

Lemma exits_up_to_two (a : argv) :
  exits_with (fun c => c = 0%Z \/ c = 1%Z \/ c = 2%Z) (main E a).
Proof.
  pose proof (exits_with_compile (fun c => c = 0%Z \/ c = 1%Z \/ c = 2%Z)) as Hc.
  unfold main, prepare, select, parse_arguments,
    select_templates_interactive, show_selection, copy_stage, build_stage, summary.
  exits; auto.
Qed.

Lemma exits_zero_or_one (a : argv) :
  a <> Refused -> exits_with (fun c => c = 0%Z \/ c = 1%Z) (main E a).
Proof.
  intros Ha.
  pose proof (exits_with_compile (fun c => c = 0%Z \/ c = 1%Z)) as Hc.
  unfold main, prepare, select, parse_arguments,
    select_templates_interactive, show_selection, copy_stage, build_stage, summary.
  destruct a; [| | |now destruct Ha]; exits; auto.
Qed.

Lemma exits_one_with_arguments (args : Namespace) :
  exits_with (fun c => c = 1%Z) (main E (Arguments args)).
Proof.
  pose proof (exits_with_compile (fun c => c = 1%Z)) as Hc.
  unfold main, prepare, select, parse_arguments, show_selection,
    copy_stage, build_stage, summary.
  exits; auto.
Qed.

(** X8: the exit status of a run is 0, 1 or 2.  It is 2 only when the
    argument parser refuses the command line, and this is then the
    status once the root check has passed, as 0 is the status of [-h].
    For arguments the parser accepts, status 0 means that [main] reached
    its end: the selection was accepted, every copy succeeded, the build
    stage ran and the summary was printed for its flag; no such run ends
    by [sys.exit(0)]. *)
Theorem exit_status_of_main (a : argv) (w : world) :
  (exit_status (main E a w) = 0%Z \/ exit_status (main E a w) = 1%Z
   \/ exit_status (main E a w) = 2%Z) /\
  (exit_status (main E a w) = 2%Z -> a = Refused) /\
  (Fs.exists_ (fs w) (Fs.join (SCRIPT_DIR E) "latex_exp") = true ->
   main E Refused w = Exited 2 w /\
   forall message, main E (Help message) w = Exited 0 (wrote message w)) /\
  (forall args,
     a = Arguments args -> exit_status (main E a w) = 0%Z ->
     exists sel w0 w2 b w3,
       prepare E a w = Ok sel w0 /\ copy_stage E sel w0 = Ok tt w2 /\
       build_stage E sel w2 = Ok b w3 /\
       main E a w = Ok tt (summed_up (snd sel) b w3)).
Proof.
  split; [|split; [|split]].
  - destruct (main E a w) as [u w'|c w'|e w'] eqn:Hm; simpl; auto.
    apply (exits_up_to_two a) in Hm. exact Hm.
  - intros H2. destruct a; try reflexivity; exfalso;
      (destruct (main E _ w) as [u w'|c w'|e w'] eqn:Hm; simpl in H2;
       [discriminate| |discriminate];
       apply exits_zero_or_one in Hm; [lia|discriminate]).
  - intros Hroot. unfold main, prepare, select, parse_arguments, bind, fs_read.
    rewrite Hroot. split; [reflexivity|]. intros message. reflexivity.
  - intros args -> Hst.
    destruct (main E (Arguments args) w) as [u w'|c w'|e w'] eqn:Hm;
      simpl in Hst; [|apply exits_one_with_arguments in Hm; lia|discriminate].
    unfold main in Hm.
    apply bind_ok in Hm as (sel & w0 & Hp & Hm).
    apply bind_ok in Hm as ([] & w2 & Hc & Hm).
    apply bind_ok in Hm as (b & w3 & Hb & Hm).
    rewrite summary_run in Hm. exists sel, w0, w2, b, w3. auto.
Qed.

End MainExits.

(** X8 on the sample run: status 0, so the run went through every
    stage. *)
Lemma exit_status_of_main_witness :
  (main Sample.E Refused (Sample.start []) = Exited 2 (Sample.start [])) /\
  exists sel w0 w2 b w3,
    prepare Sample.E Sample.run (Sample.start []) = Ok sel w0 /\
    copy_stage Sample.E sel w0 = Ok tt w2 /\
    build_stage Sample.E sel w2 = Ok b w3 /\
    main Sample.E Sample.run (Sample.start [])
    = Ok tt (summed_up (snd sel) b w3).
Proof.
  assert (H : exit_status (main Sample.E Sample.run (Sample.start [])) = 0%Z)
    by (vm_compute; reflexivity).
  split.
  - exact (proj1 (proj1 (proj2 (proj2 (exit_status_of_main Sample.E Sample.run
                                         (Sample.start []))))
                    eq_refl)).
  - exact (proj2 (proj2 (proj2 (exit_status_of_main Sample.E Sample.run
                                  (Sample.start []))))
             Sample.report_and_beamer eq_refl H).
Defined.

(* ================================================================== *)
(** ** [select_templates_interactive]: what the prompts can select *)
(* ================================================================== *)

Section Prompts.

Import Obs.

Context (E : env) (t0 : Fs.node).

Lemma maintains_ret (A : Type) (P : A -> Prop) (a : A) :
  P a -> maintains (same_disk t0) P (ret a).
Proof. intros Ha w b w' Hw [= <- <-]. now split. Qed.

Lemma maintains_bind (A B : Type) (P : A -> Prop) (Q : B -> Prop)
  (m : M A) (k : A -> M B) :
  maintains (same_disk t0) P m -> (forall a, P a -> maintains (same_disk t0) Q (k a)) ->
  maintains (same_disk t0) Q (bind m k).
Proof.
  intros Hm Hk w b w' Hw Hb. apply bind_ok in Hb as (a & w1 & H1 & H2).
  destruct (Hm w a w1 Hw H1) as [Hw1 Ha]. eapply Hk; eassumption.
Qed.

Lemma maintains_keeps (A : Type) (m : M A) :
  keeps untouched m -> maintains (same_disk t0) (fun _ => True) m.
Proof.
  intros Hk w a w' Hw Hm. specialize (Hk w). rewrite Hm in Hk.
  destruct Hk as [Hfs _]. split; [|exact I]. unfold same_disk in *. simpl in Hfs.
  congruence.
Qed.

Lemma maintains_fs_read (A : Type) (f : Fs.node -> A) :
  maintains (same_disk t0) (fun a => a = f t0) (fs_read f).
Proof. intros w a w' Hw [= <- <-]. split; [exact Hw|]. now rewrite Hw. Qed.

Lemma item_in_range (l : list string) (i : Z) :
  in_range i (length l) = true -> exists f, item l i = Some f /\ In f l.
Proof.
  unfold in_range, item. intros H. apply andb_true_iff in H as [H1 H2].
  apply Z.leb_le in H1, H2.
  destruct (nth_error l (Z.to_nat (i - 1))) as [f|] eqn:Hn.
  - exists f. split; [reflexivity|]. eapply nth_error_In, Hn.
  - apply nth_error_None in Hn. lia.
Qed.

Ltac pass := eapply maintains_bind; [apply maintains_keeps; frame|intros ? _].

(** The slide key and the file name the prompts return go together. *)
Lemma select_interactive_ppt :
  maintains (same_disk t0)
    (fun sel : selection =>
       let '(_, s, p, _) := sel in
       (is_key s "ppt" = true ->
        exists f, p = Some f /\ In f (list_ppt_templates E t0)) /\
       (is_key s "ppt" = false -> p = None))
    (select_templates_interactive E).
Proof.
  unfold select_templates_interactive.
  do 8 pass. do 4 pass.
  eapply maintains_bind with
    (P := fun sl : option string * option string =>
            (is_key (fst sl) "ppt" = true ->
             exists f, snd sl = Some f /\ In f (list_ppt_templates E t0)) /\
            (is_key (fst sl) "ppt" = false -> snd sl = None)).
  { assert (Hnone : forall (A : Type) (m : M A),
              keeps untouched m ->
              maintains (same_disk t0)
                (fun sl : option string * option string =>
                   (is_key (fst sl) "ppt" = true ->
                    exists f, snd sl = Some f /\ In f (list_ppt_templates E t0)) /\
                   (is_key (fst sl) "ppt" = false -> snd sl = None))
                (m ;; ret (None, None))).
    { intros A m Hm. eapply maintains_bind; [apply maintains_keeps, Hm|].
      intros _ _. apply maintains_ret. split; [discriminate|reflexivity]. }
    assert (Hret : maintains (same_disk t0)
                (fun sl : option string * option string =>
                   (is_key (fst sl) "ppt" = true ->
                    exists f, snd sl = Some f /\ In f (list_ppt_templates E t0)) /\
                   (is_key (fst sl) "ppt" = false -> snd sl = None))
                (ret (None, None))).
    { apply maintains_ret. split; [discriminate|reflexivity]. }
    destruct (Str.int _) as [i|]; [|apply Hnone; frame].
    destruct (i =? 0)%Z; [exact Hret|].
    destruct (in_range _ _); [|apply Hnone; frame].
    destruct (is_key (item (keys SLIDE_TEMPLATES) i) "ppt") eqn:Hppt.
    2:{ apply maintains_ret. cbn [fst snd]. split; [congruence|reflexivity]. }
    eapply maintains_bind; [apply maintains_fs_read|].
    intros l ->. destruct (list_ppt_templates E t0) as [|f0 l] eqn:Hl;
      [apply Hnone; frame|].
    do 3 pass.
    destruct (Str.int _) as [j|]; [|apply Hnone; frame].
    destruct (in_range j _) eqn:Hj; [|apply Hnone; frame].
    apply maintains_ret. cbn [fst snd]. split; [|congruence].
    intros _. now apply item_in_range. }
  intros sl Hsl. do 4 pass. apply maintains_ret. exact Hsl.
Qed.

End Prompts.

Section PromptsResult.

Import Obs.

Context (E : env).

(** X10: whatever is typed, a selection the prompts return names keys of
    the two registries only, and holds a PowerPoint file name exactly
    when its slide key is [ppt]; that name is then one of the files the
    enumeration found. *)
Theorem select_interactive_consistent (w w1 : world) (r s p : option string)
  (t : Path) :
  select_templates_interactive E w = Ok (r, s, p, t) w1 ->
  valid_key REPORT_TEMPLATES r /\ valid_key SLIDE_TEMPLATES s /\
  (is_key s "ppt" = true ->
   exists f, p = Some f /\ In f (list_ppt_templates E (fs w))) /\
  (is_key s "ppt" = false -> p = None).
Proof.
  intros H.
  destruct (select_interactive_valid E _ _ _ H) as [Hr Hs].
  destruct (select_interactive_ppt E (fs w) w _ w1 eq_refl H) as [_ Hp].
  split; [exact Hr|]. split; [exact Hs|exact Hp].
Qed.

End PromptsResult.

(** X10 on the sample repository: no report, the slide menu entry 3, the
    second file, the default target. *)
Lemma select_interactive_consistent_witness :
  exists f, Some "simple.pptx" = Some f
            /\ In f (list_ppt_templates Sample.E (fs (Sample.start ["0"; "3"; "2"; ""]))).
Proof.
  pose (w := Sample.start ["0"; "3"; "2"; ""]).
  pose (r := select_templates_interactive Sample.E w).
  assert (Hrun : r = Ok (None, Some "ppt", Some "simple.pptx",
                         get_default_target_path Sample.E) (final r))
    by (vm_compute; reflexivity).
  exact (proj1 (proj2 (proj2 (select_interactive_consistent Sample.E w (final r)
                                None (Some "ppt") (Some "simple.pptx") _ Hrun)))
           eq_refl).
Defined.

(* ================================================================== *)
(** ** [main] before the first copy *)
(* ================================================================== *)

Section Prepared.

Import Fs Obs.

Local Open Scope list_scope.

Context (E : env).

Lemma mkdir_p_dir (p : Path) : forall t t',
  mkdir_p t p = Some t' -> exists es, lookup t' p = Some (Dir es).
Proof.
  induction p as [|x p IH]; intros [d|es] t'; simpl; try discriminate.
  - intros [= <-]. eauto.
  - destruct (assoc x es) as [c|].
    + destruct (mkdir_p c p) as [c'|] eqn:Hmk; [|discriminate].
      intros [= <-]. cbn [lookup]. rewrite assoc_set_same. eapply IH, Hmk.
    + intros [= <-]. cbn [lookup]. rewrite assoc_set_same, lookup_fresh, is_prefix_refl.
      rewrite skipn_all. simpl. eauto.
Qed.

(** An existing directory is left as it is. *)
Lemma mkdir_p_existing (p : Path) : forall t es,
  lookup t p = Some (Dir es) -> mkdir_p t p = Some t.
Proof.
  assert (Hset : forall x c l, assoc x l = Some c -> set_entry x c l = l).
  { intros x c l. induction l as [|[k v] l IHl]; simpl; [discriminate|].
    destruct (String.eqb x k) eqn:Hk.
    - apply String.eqb_eq in Hk. subst k. now intros [= ->].
    - intros H. now rewrite IHl. }
  induction p as [|x p IH]; intros [d|es0] es; simpl; try discriminate.
  - reflexivity.
  - destruct (assoc x es0) as [c|] eqn:Hc; [|discriminate].
    intros H. rewrite (IH _ _ H). now rewrite Hset.
Qed.

Lemma in_pptx_named (t : node) (f : string) :
  In f (list_ppt_templates E t) -> String.eqb f "" = false.
Proof.
  unfold list_ppt_templates, glob.
  destruct (negb _); [intros []|].
  intros H. apply (Permutation_in _ (sorted_perm _)) in H.
  destruct (lookup t _) as [[d|es]|]; try destruct H.
  apply filter_In in H as [_ H]. rewrite fnmatch_star in H by reflexivity.
  destruct (String.eqb f "") eqn:Hf; [|reflexivity].
  apply String.eqb_eq in Hf. now subst f.
Qed.

Lemma show_selection_known (r s p : option string) (t : Path) (w w' : world) :
  show_selection (r, s, p, t) w = Ok tt w' ->
  known REPORT_TEMPLATES r /\ known SLIDE_TEMPLATES s.
Proof.
  unfold show_selection. intros H.
  apply bind_ok in H as (? & ? & _ & H). apply bind_ok in H as (? & ? & _ & H).
  apply bind_ok in H as (? & ? & _ & H).
  apply bind_ok in H as (? & w1 & Hr & H). apply bind_ok in H as (? & w2 & Hs & _).
  split.
  - intros k -> Hk. unfold when_set in Hr. rewrite Hk in Hr.
    apply bind_ok in Hr as (info & ? & Hr & _). unfold getitem in Hr.
    destruct (assoc k REPORT_TEMPLATES) as [i|]; [eauto|discriminate].
  - intros k -> Hk. unfold when_set in Hs. rewrite Hk in Hs.
    apply bind_ok in Hs as (info & ? & Hs & _). unfold getitem in Hs.
    destruct (assoc k SLIDE_TEMPLATES) as [i|]; [eauto|discriminate].
Qed.

Lemma keeps_confirmation (a : argv) :
  keeps untouched
    (match a with
     | NoArguments =>
         answer <- input "确认开始复制和编译? (Y/n): " ;;
         (if String.eqb (Str.lower (Str.strip answer)) "n"
          then (print "已取消" ;; sys_exit 0) else ret tt)
     | _ => ret tt
     end).
Proof. frame. Qed.

(** X9: when [main] gets as far as the first copy, the script is in the
    template repository, at least one template is selected, every
    selected key is a key of its registry, a [ppt] selection comes with a
    file name, the target is a directory, [make] has not been started,
    and nothing has changed outside the target directory and its
    ancestors; a target directory that existed is kept with all it
    holds.  The target is a path without [".."], as [resolve] returns
    it. *)
Theorem prepare_postcondition (a : argv) (w w0 : world) (r s p : option string)
  (t : Path) :
  prepare E a w = Ok (r, s, p, t) w0 ->
  normal t = true ->
  exists_ (fs w) (Fs.join (SCRIPT_DIR E) "latex_exp") = true /\
  Str.truthy r || Str.truthy s = true /\
  known REPORT_TEMPLATES r /\ known SLIDE_TEMPLATES s /\
  (is_key s "ppt" = true -> Str.truthy p = true) /\
  (exists es, lookup (fs w0) t = Some (Dir es)) /\
  outside t w w0 /\
  make_log w0 = make_log w /\
  (forall es, lookup (fs w) t = Some (Dir es) -> fs w0 = fs w).
Proof.
  intros H _. unfold prepare in H.
  apply bind_ok in H as (in_root & wa & H1 & H). injection H1 as <- <-.
  apply bind_ok in H as ([] & wb & H2 & H).
  destruct (exists_ (fs w) (Fs.join (SCRIPT_DIR E) "latex_exp")) eqn:Hroot;
    cbn [negb] in H2; [|discriminate].
  injection H2 as <-.
  apply bind_ok in H as ([[[r' s'] p'] t'] & w1 & Hsel & H).
  apply bind_ok in H as ([] & wc & H3 & H).
  destruct (negb (Str.truthy r') && negb (Str.truthy s')) eqn:Hone; [discriminate|].
  injection H3 as <-.
  apply bind_ok in H as ([] & w2 & Hshow & H).
  apply bind_ok in H as ([] & w3 & Hconf & H).
  apply bind_ok in H as ([] & w4 & Hmk & H).
  injection H as -> -> -> -> ->.
  pose proof (keeps_select E a w) as K1. rewrite Hsel in K1. cbn [final] in K1.
  pose proof (keeps_show_selection (r, s, p, t) w1) as K2. rewrite Hshow in K2.
  apply printed_untouched in K2. cbn [final] in K2.
  pose proof (keeps_confirmation a w2) as K3. rewrite Hconf in K3. cbn [final] in K3.
  unfold fs_write in Hmk.
  destruct (mkdir_p (fs w3) t) as [t1|] eqn:Hdir; [|discriminate].
  injection Hmk as <-. cbn [fs make_log on_disk].
  destruct K1 as [F1 L1], K2 as [F2 L2], K3 as [F3 L3].
  destruct (show_selection_known r s p t w1 w2 Hshow) as [Hr Hs].
  split; [reflexivity|]. split.
  { destruct (Str.truthy r), (Str.truthy s); simpl in *; congruence. }
  split; [exact Hr|]. split; [exact Hs|]. split.
  { intros Hppt. destruct a as [|args|message|].
    - destruct (select_interactive_ppt E (fs w) w _ w1 eq_refl Hsel) as [_ [Hp _]].
      destruct (Hp Hppt) as (f & -> & Hin). simpl.
      now rewrite (in_pptx_named _ _ Hin).
    - unfold select in Hsel.
      apply bind_ok in Hsel as (args' & wa' & Hp & Hsel). injection Hp as <- <-.
      apply bind_ok in Hsel as (tp & wb' & Ht & Hsel).
      apply bind_ok in Hsel as ([] & wc' & Hchk & Hsel).
      injection Hsel as Er Es Ep Et Ew. subst.
      destruct (is_key (slide args) "ppt" && negb (Str.truthy (ppt_template args)))
        eqn:Hc.
      + unfold bind, fs_read in Hchk.
        destruct (list_ppt_templates E (fs wb')); discriminate.
      + rewrite Hppt in Hc. simpl in Hc. now apply negb_false_iff in Hc.
    - discriminate Hsel.
    - discriminate Hsel. }
  split; [eapply mkdir_p_dir, Hdir|]. split; [|split; [congruence|]].
  - intros q Hq. simpl.
    rewrite (mkdir_p_outside t t _ _ q (is_prefix_refl t) Hdir Hq). congruence.
  - intros es Hes. assert (Hfs : fs w3 = fs w) by congruence.
    rewrite Hfs in Hdir. rewrite (mkdir_p_existing _ _ _ Hes) in Hdir. congruence.
Qed.

(** X13: in interactive mode, once a template is selected, every answer
    to the last prompt that [strip] and [lower] do not turn into [n], the
    empty answer among them, lets the run go on: the target directory is
    made and the copies are next.  The target is a path without [".."],
    as [resolve] returns it, and one the file system can hold. *)
Theorem confirmation_defaults_to_yes (w w1 : world) (r s p : option string)
  (t : Path) (answer : string) (rest : list string) (t' : node) :
  exists_ (fs w) (Fs.join (SCRIPT_DIR E) "latex_exp") = true ->
  select_templates_interactive E w = Ok (r, s, p, t) w1 ->
  Str.truthy r || Str.truthy s = true ->
  stdin w1 = answer :: rest ->
  String.eqb (Str.lower (Str.strip answer)) "n" = false ->
  normal t = true -> fits t = true ->
  mkdir_p (fs w) t = Some t' ->
  exists w0,
    prepare E NoArguments w = Ok (r, s, p, t) w0 /\
    fs w0 = t' /\ stdin w0 = rest /\ make_log w0 = make_log w.
Proof.
  intros Hroot Hsel Hone Hin Hn _ _ Hmk.
  pose proof (keeps_select_interactive E w) as Hk. rewrite Hsel in Hk. cbn [final] in Hk.
  destruct (select_interactive_valid E _ _ _ Hsel) as [Hr Hs].
  destruct (show_selection_ok r s p t w1 Hr Hs) as (w2 & Hshow & Hp).
  destruct Hp as (Hfs & Hlog & Hstdin). destruct Hk as [Hk1 Hk2].
  unfold prepare, bind, fs_read. rewrite Hroot. cbn [negb ret select].
  rewrite Hsel.
  assert (Hsome : negb (Str.truthy r) && negb (Str.truthy s) = false).
  { destruct (Str.truthy r), (Str.truthy s); simpl in *; congruence. }
  cbv beta iota. rewrite Hsome. cbv beta iota delta [ret]. rewrite Hshow.
  unfold input, bind, write. cbn [stdin wrote]. rewrite Hstdin, Hin, Hn.
  unfold fs_write. cbn [fs consumed wrote]. rewrite Hfs, Hk1, Hmk.
  eexists. split; [reflexivity|]. cbn. repeat split. congruence.
Qed.

End Prepared.

(** X9 on the sample run in flag mode. *)
Lemma prepare_postcondition_witness :
  (exists es,
     Fs.lookup (fs (final (prepare Sample.E Sample.run (Sample.start []))))
       ["tmp"; "proj"] = Some (Fs.Dir es))
  /\ Fs.lookup (fs (final (prepare Sample.E Sample.run (Sample.start [])))) ["repo"]
     = Some Sample.repo.
Proof.
  pose (r := prepare Sample.E Sample.run (Sample.start [])).
  assert (Hrun : r = Ok Sample.both (final r)) by (vm_compute; reflexivity).
  destruct (prepare_postcondition Sample.E Sample.run (Sample.start []) (final r)
              _ _ _ _ Hrun eq_refl) as (_ & _ & _ & _ & _ & Hdir & Hout & _ & _).
  split; [exact Hdir|].
  exact (Hout ["repo"] (conj eq_refl eq_refl)).
Defined.

(** X13 on the sample repository: the LaTeX report, no slides, the target
    [/tmp/proj], and the empty answer. *)
Lemma confirmation_defaults_to_yes_witness :
  exists w0,
    prepare Sample.E NoArguments (Sample.start ["1"; "0"; "/tmp/proj"; ""])
    = Ok (Some "latex_exp", None, None, ["tmp"; "proj"]) w0
    /\ Fs.lookup (fs w0) ["tmp"; "proj"] = Some (Fs.Dir []).
Proof.
  pose (w := Sample.start ["1"; "0"; "/tmp/proj"; ""]).
  pose (r := select_templates_interactive Sample.E w).
  assert (Hsel : r = Ok (Some "latex_exp", None, None, ["tmp"; "proj"]) (final r))
    by (vm_compute; reflexivity).
  assert (Hin : stdin (final r) = [""]) by (vm_compute; reflexivity).
  destruct (confirmation_defaults_to_yes Sample.E w (final r)
              (Some "latex_exp") None None ["tmp"; "proj"] "" []
              (Fs.Dir [("repo", Sample.repo); ("tmp", Fs.Dir [("proj", Fs.Dir [])])])
              eq_refl Hsel eq_refl Hin eq_refl eq_refl eq_refl eq_refl)
    as (w0 & Hp & Hfs & _).
  exists w0. split; [exact Hp|]. rewrite Hfs. reflexivity.
Defined.

(* ================================================================== *)
(** ** [select_templates_interactive]: what the prompts read *)
(* ================================================================== *)

Section Reading.

Import Obs.

Context (failing : exn -> Prop).

Lemma reads_ret (A : Type) (a : A) : reads_at_most 0 failing (ret a).
Proof. intros w _. left. exists a, w. split; [reflexivity|lia]. Qed.

Lemma reads_weaken (A : Type) (n n' : nat) (m : M A) :
  n <= n' -> reads_at_most n failing m -> reads_at_most n' failing m.
Proof.
  intros Hn Hm w Hw.
  destruct (Hm w) as [(a & w' & H & Hl)|(e & w' & H & He)]; [lia| |].
  - left. exists a, w'. split; [exact H|lia].
  - right. now exists e, w'.
Qed.

Lemma reads_bind (A B : Type) (n1 n2 : nat) (m : M A) (k : A -> M B) :
  reads_at_most n1 failing m -> (forall a, reads_at_most n2 failing (k a)) ->
  reads_at_most (n1 + n2) failing (bind m k).
Proof.
  intros Hm Hk w Hw. unfold bind.
  destruct (Hm w) as [(a & w1 & H1 & L1)|(e & w1 & H1 & He)]; [lia| |].
  - rewrite H1.
    destruct (Hk a w1) as [(b & w2 & H2 & L2)|(e & w2 & H2 & He)]; [lia| |].
    + left. exists b, w2. split; [exact H2|lia].
    + right. now exists e, w2.
  - rewrite H1. right. now exists e, w1.
Qed.

Lemma reads_write (s : string) : reads_at_most 0 failing (write s).
Proof. intros w _. left. eexists. eexists. split; [reflexivity|]. simpl. lia. Qed.

Lemma reads_print (s : string) : reads_at_most 0 failing (print s).
Proof. apply reads_write. Qed.

Lemma reads_input (s : string) : reads_at_most 1 failing (input s).
Proof.
  intros w Hw. unfold input, bind, write. cbn [stdin wrote].
  destruct (stdin w) as [|l rest] eqn:Hin; [simpl in Hw; lia|].
  left. eexists. eexists. split; [reflexivity|]. simpl. lia.
Qed.

Lemma reads_fs_read (A : Type) (f : Fs.node -> A) :
  reads_at_most 0 failing (fs_read f).
Proof. intros w _. left. eexists. eexists. split; [reflexivity|]. lia. Qed.

Lemma reads_resolved (E : env) (s : string) :
  (forall e, resolve E s = inr e -> failing e) ->
  reads_at_most 0 failing (resolved E s).
Proof.
  intros H w _. unfold resolved. destruct (resolve E s) as [p|e].
  - left. exists p, w. split; [reflexivity|lia].
  - right. exists e, w. split; [reflexivity|now apply H].
Qed.

Lemma reads_print_enumerated (l : list string) : forall i,
  reads_at_most 0 failing (print_enumerated i l).
Proof.
  induction l as [|x l IH]; intros i; simpl.
  - apply reads_ret.
  - apply (reads_bind _ _ 0 0); [apply reads_print|intros _; apply IH].
Qed.

(** A step that reads nothing, then the rest. *)
Lemma reads_then (A B : Type) (n : nat) (m : M A) (k : A -> M B) :
  reads_at_most 0 failing m -> (forall a, reads_at_most n failing (k a)) ->
  reads_at_most n failing (bind m k).
Proof. intros Hm Hk. apply (reads_bind _ _ 0 n); assumption. Qed.

(** A prompt, then the rest. *)
Lemma reads_after_input (B : Type) (n : nat) (s : string) (k : string -> M B) :
  (forall a, reads_at_most n failing (k a)) ->
  reads_at_most (S n) failing (bind (input s) k).
Proof. intros Hk. apply (reads_bind _ _ 1 n); [apply reads_input|assumption]. Qed.

Lemma reads_print_ret (A : Type) (n : nat) (s : string) (a : A) :
  reads_at_most n failing (print s ;; ret a).
Proof.
  apply reads_then; [apply reads_print|]. intros _.
  eapply reads_weaken; [|apply reads_ret]. lia.
Qed.

Ltac quiet :=
  apply reads_then;
  [first [apply reads_print | apply reads_print_enumerated | apply reads_fs_read]
  |intros ?].

(** The prompts fail only where the target does not resolve. *)
Lemma select_interactive_reads (E : env) :
  (forall s e, resolve E s = inr e -> failing e) ->
  reads_at_most 4 failing (select_templates_interactive E).
Proof.
  intros Hres. unfold select_templates_interactive.
  do 6 quiet. apply reads_after_input. intros report_choice.
  apply reads_then.
  { destruct (Str.int _) as [i|]; [|apply reads_print_ret].
    destruct (i =? 0)%Z; [apply reads_ret|].
    destruct (in_range _ _); [apply reads_ret|apply reads_print_ret]. }
  intros r. do 3 quiet. apply reads_after_input. intros slide_choice.
  apply (reads_bind _ _ 1 1).
  { destruct (Str.int _) as [i|]; [|apply reads_print_ret].
    destruct (i =? 0)%Z; [eapply reads_weaken; [|apply reads_ret]; lia|].
    destruct (in_range _ _); [|apply reads_print_ret].
    destruct (is_key _ _); [|eapply reads_weaken; [|apply reads_ret]; lia].
    apply reads_then; [apply reads_fs_read|intros ppts].
    destruct ppts as [|f l]; [apply reads_print_ret|].
    do 2 quiet. apply reads_after_input. intros ppt_choice.
    destruct (Str.int _) as [j|]; [|apply reads_print_ret].
    destruct (in_range _ _); [apply reads_ret|apply reads_print_ret]. }
  intros sl. do 2 quiet. apply reads_after_input. intros answer.
  apply reads_then; [|intros target_path; apply reads_ret].
  destruct (String.eqb _ _); [apply reads_ret|apply reads_resolved, Hres].
Qed.

End Reading.

Section ReadingResult.

Context (E : env).

(** X11: with four lines to read (the report, the slides, the PowerPoint
    file, the target) the prompts read no more, and whatever the lines
    are they do not exit and do not come to the end of the input: a line
    that is no number, or a number that is out of range, is no fatal
    error.  They return a selection, or raise what [resolve] raises
    when the target does not resolve; where every path resolves they
    return. *)
Theorem select_interactive_reads_four (w : world) :
  4 <= length (stdin w) ->
  ((exists sel w1,
      select_templates_interactive E w = Ok sel w1 /\
      length (stdin w) <= length (stdin w1) + 4)
   \/ exists e w1,
        select_templates_interactive E w = Raised e w1 /\
        exists s, resolve E s = inr e) /\
  ((forall s e, resolve E s <> inr e) ->
   exists sel w1,
     select_templates_interactive E w = Ok sel w1 /\
     length (stdin w) <= length (stdin w1) + 4).
Proof.
  intros Hw. split.
  - destruct (select_interactive_reads (fun e => exists s, resolve E s = inr e) E
                (fun s e H => ex_intro _ s H) w Hw) as [H|(e & w1 & H & He)];
      [left; exact H|right; now exists e, w1].
  - intros Hres.
    destruct (select_interactive_reads (fun _ => False) E Hres w Hw)
      as [H|(e & w1 & _ & [])].
    exact H.
Qed.

End ReadingResult.

(** X11 on the sample repository: four lines that select nothing, and
    four lines whose last names a user that does not exist. *)
Lemma select_interactive_reads_four_witness :
  ((exists sel w1,
      select_templates_interactive Sample.E (Sample.start ["x"; "-1"; "9"; "~"])
      = Ok sel w1
      /\ length (stdin (Sample.start ["x"; "-1"; "9"; "~"])) <= length (stdin w1) + 4)
   \/ exists e w1,
        select_templates_interactive Sample.E (Sample.start ["x"; "-1"; "9"; "~"])
        = Raised e w1
        /\ exists s, resolve Sample.E s = inr e).
Proof.
  apply (select_interactive_reads_four Sample.E (Sample.start ["x"; "-1"; "9"; "~"])).
  simpl. lia.
Defined.

(* ================================================================== *)
(** ** [select_templates_interactive]: which line answers which prompt *)
(* ================================================================== *)

Section Answers.

Import Obs.

Lemma hoare_ret (A : Type) (Pre : world -> Prop) (Post : A -> world -> Prop)
  (a : A) :
  (forall w, Pre w -> Post a w) -> hoare Pre (ret a) Post.
Proof. intros H w b w' Hw [= <- <-]. now apply H. Qed.

Lemma hoare_bind (A B : Type) (Pre : world -> Prop) (Mid : A -> world -> Prop)
  (Post : B -> world -> Prop) (m : M A) (k : A -> M B) :
  hoare Pre m Mid -> (forall a, hoare (Mid a) (k a) Post) ->
  hoare Pre (bind m k) Post.
Proof.
  intros Hm Hk w b w' Hw Hb. apply bind_ok in Hb as (a & w1 & H1 & H2).
  eapply Hk; [eapply Hm; eassumption|exact H2].
Qed.

Lemma hoare_write (t0 : Fs.node) (l : list string) (s : string) :
  hoare (facing t0 l) (write s) (fun _ => facing t0 l).
Proof. intros w [] w' Hw [= <-]. exact Hw. Qed.

Lemma hoare_print (t0 : Fs.node) (l : list string) (s : string) :
  hoare (facing t0 l) (print s) (fun _ => facing t0 l).
Proof. apply hoare_write. Qed.

Lemma hoare_print_enumerated (t0 : Fs.node) (l : list string)
  (items : list string) : forall i,
  hoare (facing t0 l) (print_enumerated i items) (fun _ => facing t0 l).
Proof.
  induction items as [|x items IH]; intros i; simpl.
  - now apply hoare_ret.
  - eapply hoare_bind; [apply hoare_print|intros ?; apply IH].
Qed.

(** A prompt takes the first of the lines. *)
Lemma hoare_input (t0 : Fs.node) (l : list string) (s : string) :
  hoare (facing t0 l) (input s)
    (fun a w => exists rest, l = a :: rest /\ facing t0 rest w).
Proof.
  intros w a w' [Hfs Hin] H. unfold input, bind, write in H.
  cbn [stdin wrote] in H. rewrite Hin in H.
  destruct l as [|x rest]; [discriminate|].
  injection H as <- <-. exists rest. now split.
Qed.

Lemma hoare_fs_read (A : Type) (t0 : Fs.node) (l : list string)
  (f : Fs.node -> A) :
  hoare (facing t0 l) (fs_read f) (fun a w => a = f t0 /\ facing t0 l w).
Proof.
  intros w a w' [Hfs Hin] H. unfold fs_read in H. injection H as <- <-.
  split; [now rewrite Hfs|now split].
Qed.

Lemma hoare_print_ret (A : Type) (t0 : Fs.node) (l : list string) (s : string)
  (a : A) (Post : A -> world -> Prop) :
  (forall w, facing t0 l w -> Post a w) ->
  hoare (facing t0 l) (print s ;; ret a) Post.
Proof.
  intros H. eapply hoare_bind; [apply hoare_print|intros ?; cbv beta].
  now apply hoare_ret.
Qed.

Ltac say :=
  eapply hoare_bind;
  [first [apply hoare_print | apply hoare_print_enumerated]|intros ?; cbv beta].

Context (E : env).

(** The answer to the report menu. *)
Lemma report_answer (t0 : Fs.node) (l : list string) (line : string) :
  hoare (facing t0 l)
    (match Str.int line with
     | Some report_idx =>
         if (report_idx =? 0)%Z then ret None
         else if in_range report_idx (length REPORT_TEMPLATES)
         then ret (item (keys REPORT_TEMPLATES) report_idx)
         else (print "无效选择，将不选择 Report 模板" ;; ret None)
     | None => print "无效输入，将不选择 Report 模板" ;; ret None
     end)
    (fun r w => r = picked (keys REPORT_TEMPLATES) line /\ facing t0 l w).
Proof.
  unfold picked. destruct (Str.int line) as [i|];
    [|apply hoare_print_ret; now split].
  destruct (i =? 0)%Z eqn:Hi.
  - apply Z.eqb_eq in Hi as ->. now apply hoare_ret.
  - unfold keys. rewrite length_map.
    destruct (in_range i _); [now apply hoare_ret|].
    apply hoare_print_ret; now split.
Qed.

Lemma is_key_ppt (k : option string) : is_key k "ppt" = true -> k = Some "ppt".
Proof.
  destruct k as [k|]; simpl; [|discriminate].
  intros H. apply String.eqb_eq in H. now subst.
Qed.

Lemma item_some (l : list string) (i : Z) :
  in_range i (length l) = true -> exists x, item l i = Some x.
Proof.
  intros H. unfold in_range in H. apply andb_true_iff in H as [H1 H2].
  apply Z.leb_le in H1, H2. unfold item.
  destruct (nth_error l (Z.to_nat (i - 1))) as [x|] eqn:Hx; [now exists x|].
  apply nth_error_None in Hx. lia.
Qed.

Lemma hoare_pre (A : Type) (P : Prop) (Pre : world -> Prop) (m : M A)
  (Post : A -> world -> Prop) :
  (P -> hoare Pre m Post) -> hoare (fun w => P /\ Pre w) m Post.
Proof. intros H w a w' [HP Hw]. now apply H. Qed.

Lemma hoare_ex (A X : Type) (Pre : X -> world -> Prop) (m : M A)
  (Post : A -> world -> Prop) :
  (forall x, hoare (Pre x) m Post) -> hoare (fun w => exists x, Pre x w) m Post.
Proof. intros H w a w' [x Hw]. now apply (H x w a w'). Qed.

Lemma is_key_none (k : string) : is_key None k = false.
Proof. reflexivity. Qed.

(** The answers to the slide menu and to the PowerPoint menu. *)
Lemma slide_answer (t0 : Fs.node) (rest : list string) (b : string) :
  hoare (facing t0 rest)
    (match Str.int b with
     | Some slide_idx =>
         if (slide_idx =? 0)%Z then ret (None, None)
         else if in_range slide_idx (length SLIDE_TEMPLATES)
         then
           let slide_key := item (keys SLIDE_TEMPLATES) slide_idx in
           if is_key slide_key "ppt"
           then
             ppt_templates <- fs_read (list_ppt_templates E) ;;
             match ppt_templates with
             | [] => print "错误: 未找到 PPT 模板文件" ;; ret (None, None)
             | _ =>
                 print (Str.nl ++ "[可用的 PPT 模板文件]") ;;
                 print_enumerated 1 ppt_templates ;;
                 ppt_choice <- input (Str.nl ++ "请选择 PPT 模板文件 (1-"
                                        ++ Str.of_nat (length ppt_templates) ++ "): ") ;;
                 match Str.int ppt_choice with
                 | Some ppt_idx =>
                     if in_range ppt_idx (length ppt_templates)
                     then ret (slide_key, item ppt_templates ppt_idx)
                     else (print "无效选择" ;; ret (None, None))
                 | None => print "无效输入" ;; ret (None, None)
                 end
             end
           else ret (slide_key, None)
         else (print "无效选择，将不选择 Slide 模板" ;; ret (None, None))
     | None => print "无效输入，将不选择 Slide 模板" ;; ret (None, None)
     end)
    (fun sl w => exists left, slide_outcome E t0 b rest sl left /\ facing t0 left w).
Proof.
  assert (Hnone : forall w, facing t0 rest w ->
            picked (keys SLIDE_TEMPLATES) b = None ->
            exists left, slide_outcome E t0 b rest (None, None) left
                         /\ facing t0 left w).
  { intros w Hw Hk. exists rest. split; [|exact Hw].
    unfold slide_outcome. rewrite Hk, is_key_none.
    split; [now split|discriminate]. }
  unfold picked in Hnone.
  destruct (Str.int b) as [i|] eqn:Hi; [|apply hoare_print_ret; auto].
  destruct (i =? 0)%Z eqn:H0.
  { apply Z.eqb_eq in H0 as ->. apply hoare_ret. auto. }
  unfold keys in Hnone. rewrite length_map in Hnone.
  destruct (in_range i (length SLIDE_TEMPLATES)) eqn:Hr;
    [|apply hoare_print_ret; auto].
  clear Hnone. cbv zeta.
  assert (Hk : picked (keys SLIDE_TEMPLATES) b = item (keys SLIDE_TEMPLATES) i).
  { unfold picked, keys. now rewrite Hi, length_map, Hr. }
  destruct (is_key (item (keys SLIDE_TEMPLATES) i) "ppt") eqn:Hp.
  2:{ apply hoare_ret. intros w Hw. exists rest. split; [|exact Hw].
      unfold slide_outcome. rewrite Hk, Hp. split; [now split|discriminate]. }
  eapply hoare_bind; [apply hoare_fs_read|intros ppts; cbv beta].
  apply hoare_pre. intros ->.
  destruct (list_ppt_templates E t0) as [|f l] eqn:Hl.
  { apply hoare_print_ret. intros w Hw. exists rest. split; [|exact Hw].
    unfold slide_outcome. rewrite Hk, Hp, Hl.
    split; [discriminate|]. intros _. split; [now split|congruence]. }
  do 2 say.
  eapply hoare_bind; [apply hoare_input|intros c; cbv beta].
  apply hoare_ex. intros left. apply hoare_pre. intros ->.
  assert (Hout : forall sl w, facing t0 left w ->
            snd sl = picked (f :: l) c ->
            fst sl = match picked (f :: l) c with
                     | Some _ => Some "ppt"
                     | None => None
                     end ->
            exists left', slide_outcome E t0 b (c :: left) sl left'
                          /\ facing t0 left' w).
  { intros sl w Hw H1 H2. exists left. split; [|exact Hw].
    unfold slide_outcome. rewrite Hk, Hp, Hl.
    split; [discriminate|]. intros _. split; [discriminate|].
    intros _. exists c. auto. }
  unfold picked in Hout.
  destruct (Str.int c) as [j|]; [|apply hoare_print_ret; auto].
  destruct (in_range j (length (f :: l))) eqn:Hj;
    [|apply hoare_print_ret; auto].
  apply hoare_ret. intros w Hw. apply Hout; [exact Hw|reflexivity|].
  cbn [fst]. destruct (item_some _ _ Hj) as [x ->]. now apply is_key_ppt.
Qed.

(** X12: the first line answers the report menu and the second the
    slide menu: a line that is an integer from 1 to the number of
    entries selects the key at that position of the registry, any other
    line selects nothing.  A PowerPoint choice with no file on disk
    selects no slide; with files, the next line answers the file menu,
    and a line that selects no file withdraws the slide selection too.
    The line after these is the target: empty up to white space for the
    default path, resolved otherwise (the prompts raise when it does not
    resolve).  The file system is not changed. *)
Theorem select_interactive_answers (w w1 : world) (a b : string)
  (rest : list string) (r s p : option string) (t : Path) :
  stdin w = a :: b :: rest ->
  select_templates_interactive E w = Ok (r, s, p, t) w1 ->
  r = picked (keys REPORT_TEMPLATES) a /\
  fs w1 = fs w /\
  exists left c,
    slide_outcome E (fs w) b rest (s, p) left /\
    left = c :: stdin w1 /\
    (if String.eqb (Str.strip c) "" then inl (get_default_target_path E)
     else resolve E (Str.strip c)) = inl t.
Proof.
  intros Hin Hrun.
  assert (H : hoare (facing (fs w) (a :: b :: rest))
                (select_templates_interactive E)
                (fun sel w' =>
                   fst (fst (fst sel)) = picked (keys REPORT_TEMPLATES) a /\
                   fs w' = fs w /\
                   exists left c,
                     slide_outcome E (fs w) b rest
                       (snd (fst (fst sel)), snd (fst sel)) left /\
                     left = c :: stdin w' /\
                     (if String.eqb (Str.strip c) ""
                      then inl (get_default_target_path E)
                      else resolve E (Str.strip c)) = inl (snd sel))).
  { unfold select_templates_interactive.
    do 6 say.
    eapply hoare_bind; [apply hoare_input|intros report_choice; cbv beta].
    apply hoare_ex. intros l1. apply hoare_pre. intros [= <- <-].
    eapply hoare_bind; [apply report_answer|intros r0; cbv beta].
    apply hoare_pre. intros ->.
    do 3 say.
    eapply hoare_bind; [apply hoare_input|intros slide_choice; cbv beta].
    apply hoare_ex. intros l2. apply hoare_pre. intros [= <- <-].
    eapply hoare_bind; [apply slide_answer|intros sl; cbv beta].
    apply hoare_ex. intros left. apply hoare_pre. intros Hsl.
    do 2 say.
    eapply hoare_bind; [apply hoare_input|intros answer; cbv beta].
    apply hoare_ex. intros l3. apply hoare_pre. intros ->.
    eapply hoare_bind with
      (Mid := fun tp w' =>
                (if String.eqb (Str.strip answer) ""
                 then inl (get_default_target_path E)
                 else resolve E (Str.strip answer)) = inl tp
                /\ facing (fs w) l3 w').
    { destruct (String.eqb (Str.strip answer) ""); [now apply hoare_ret|].
      unfold resolved. destruct (resolve E (Str.strip answer));
        [now apply hoare_ret|intros w0 tp w' _ Hr; discriminate]. }
    intros tp. apply hoare_pre. intros Htp.
    apply hoare_ret. intros w' [Hfs Hl3]. cbn [fst snd].
    split; [reflexivity|]. split; [exact Hfs|].
    exists (answer :: l3), answer. rewrite Hl3.
    destruct sl as [s0 p0]. auto. }
  apply (H w _ w1 (conj eq_refl Hin)) in Hrun. exact Hrun.
Qed.

End Answers.

(** X12 on the sample repository: a line that is no number, the
    PowerPoint entry, a file number out of range, a target. *)
Lemma select_interactive_answers_witness :
  None = Obs.picked (keys REPORT_TEMPLATES) "x" /\
  fs (final (select_templates_interactive Sample.E
               (Sample.start ["x"; "3"; "7"; "/tmp/out"])))
  = fs (Sample.start ["x"; "3"; "7"; "/tmp/out"]) /\
  exists left c,
    Obs.slide_outcome Sample.E (fs (Sample.start ["x"; "3"; "7"; "/tmp/out"]))
      "3" ["7"; "/tmp/out"] (None, None) left /\
    left = c :: stdin (final (select_templates_interactive Sample.E
                                (Sample.start ["x"; "3"; "7"; "/tmp/out"]))) /\
    (if String.eqb (Str.strip c) "" then inl (get_default_target_path Sample.E)
     else resolve Sample.E (Str.strip c)) = inl ["tmp"; "out"].
Proof.
  pose (w := Sample.start ["x"; "3"; "7"; "/tmp/out"]).
  pose (r := select_templates_interactive Sample.E w).
  assert (Hrun : r = Ok (None, None, None, ["tmp"; "out"]) (final r))
    by (vm_compute; reflexivity).
  exact (select_interactive_answers Sample.E w (final r) "x" "3"
           ["7"; "/tmp/out"] None None None ["tmp"; "out"] eq_refl Hrun).
Defined.
